(** * GitHub profile analyzer: a shallow embedding of [GitHubAnalyzer]

    The repository holds two copies of the class [GitHubAnalyzer]: the
    terminal one in [github-api.py] and the Streamlit one in
    [github_analyzer_app.py].  They share [_make_request], the language and
    commit folds and the final sort; they differ in [get_user_repos] (the
    terminal crawler stops at an empty page, the dashboard crawler also stops
    after a page shorter than 100) and in two constant fields of the result.
    One model covers both, with the copy as a parameter.

    Conventions of the embedding:
    - a decoded JSON body is a value of [json]; Python's [None] is [JNull];
      JSON numbers are integers (floats are outside the model); a [str] is
      kept as the bytes of its UTF-8 encoding, and is cut and iterated by
      code point;
    - a Python dict is an association list in insertion order, a [Counter] is
      a [gmap string Z] read with default 0;
    - the analyzer object and the outside world are one record [session],
      threaded through a state-and-exception monad [Py]; the state survives an
      exception, as the attributes of [self] do;
    - the wall clock moves by sleeping only; whether [time.sleep] takes a
      wait or raises is a parameter of the world;
    - [print], [st.warning], [st.error] and the progress widgets of the
      analyzer's methods are dropped; the lines of [print_enhanced_report]
      are kept, as values of [line];
    - [while True] is a fuelled recursion whose exhaustion is [OutOfFuel].

    The file has the model of the code first, then the vocabulary of the
    statements and the closed worlds of the examples, then the proofs. *)

From Stdlib Require Import ZArith Sorting.Sorted Permutation.
From stdpp Require Import base strings list gmap fin_maps.

Set Warnings "-register-all".
Open Scope Z_scope.

(** ** Python values and the exceptions the code can meet *)

Inductive json : Type :=
| JNull
| JBool (b : bool)
| JInt (z : Z)
| JStr (s : string)
| JList (l : list json)
| JObj (o : list (string * json)).

Inductive exn : Type :=
| ValueError | TypeError | KeyError | AttributeError | IndexError
| OverflowError | OSError.

Inductive result (A : Type) : Type :=
| Ok (a : A)
| Raise (e : exn)
| OutOfFuel.
Arguments Ok {A} a.
Arguments Raise {A} e.
Arguments OutOfFuel {A}.

#[global] Instance result_ret : MRet result := @Ok.
#[global] Instance result_bind : MBind result := λ A B f m,
  match m with
  | Ok a => f a
  | Raise e => Raise e
  | OutOfFuel => OutOfFuel
  end.

(** [bool(x)]: [None], [False], [0], [""], [[]] and [{}] are falsy. *)
Definition truthy (j : json) : bool :=
  match j with
  | JNull => false
  | JBool b => b
  | JInt z => negb (z =? 0)
  | JStr s => negb (String.eqb s "")
  | JList l => match l with [] => false | _ => true end
  | JObj o => match o with [] => false | _ => true end
  end.

(** [isinstance(x, list)] *)
Definition is_list (j : json) : bool :=
  match j with JList _ => true | _ => false end.

(** [x or d] *)
Definition py_or (j d : json) : json := if truthy j then j else d.

(** Lookup in a dict kept as an association list. *)
Fixpoint assoc {A : Type} (k : string) (o : list (string * A)) : option A :=
  match o with
  | [] => None
  | (k', v) :: o' => if String.eqb k k' then Some v else assoc k o'
  end.

(** [x.get(k, d)]: only a dict has the method. *)
Definition py_get (j : json) (k : string) (d : json) : result json :=
  match j with
  | JObj o => Ok (default d (assoc k o))
  | _ => Raise AttributeError
  end.

(** [x[k]] for a string key [k]. *)
Definition py_getitem (j : json) (k : string) : result json :=
  match j with
  | JObj o => match assoc k o with Some v => Ok v | None => Raise KeyError end
  | _ => Raise TypeError
  end.

(** [x.items()] *)
Definition py_items (j : json) : result (list (string * json)) :=
  match j with
  | JObj o => Ok o
  | _ => Raise AttributeError
  end.

(** The code points of a [str]: in UTF-8 a byte [10xxxxxx] continues the
    code point that the byte before it belongs to. *)
Definition is_continuation (c : Ascii.ascii) : bool :=
  let n := Ascii.nat_of_ascii c in (128 <=? n)%nat && (n <? 192)%nat.

Definition continued (s : string) : bool :=
  match s with
  | String c _ => is_continuation c
  | EmptyString => false
  end.

Fixpoint code_points (s : string) : list string :=
  match s with
  | EmptyString => []
  | String c s' =>
      match code_points s' with
      | p :: ps =>
          if continued s' then String c p :: ps
          else String c EmptyString :: p :: ps
      | [] => [String c EmptyString]
      end
  end.

Definition chars (s : string) : list json := JStr <$> code_points s.

(** [for x in v]: a list yields its elements, a dict its keys, a string its
    characters; nothing else is iterable. *)
Definition py_iter (j : json) : result (list json) :=
  match j with
  | JList l => Ok l
  | JObj o => Ok (map (λ kv, JStr kv.1) o)
  | JStr s => Ok (chars s)
  | _ => Raise TypeError
  end.

(** The integer a value stands for as an operand of [+] or [>] against an
    [int]; [bool] is a subclass of [int]. *)
Definition py_num (j : json) : result Z :=
  match j with
  | JInt z => Ok z
  | JBool b => Ok (Z.b2z b)
  | _ => Raise TypeError
  end.

(** [calendar.day_abbr[i]] in the C/English locale: Monday first. *)
Definition day_abbr (i : nat) : result string :=
  match i with
  | 0%nat => Ok "Mon" | 1%nat => Ok "Tue" | 2%nat => Ok "Wed"
  | 3%nat => Ok "Thu" | 4%nat => Ok "Fri" | 5%nat => Ok "Sat"
  | 6%nat => Ok "Sun"
  | _ => Raise IndexError
  end.

(** A [Counter]: [c[k]] reads 0 for a missing key, [c[k] += v] stores. *)
Definition counter_get (c : gmap string Z) (k : string) : Z :=
  default 0 (c !! k).
Definition counter_add (c : gmap string Z) (k : string) (v : Z) : gmap string Z :=
  <[k := counter_get c k + v]> c.

(** ** The outside world and the analyzer object *)

(** One call [requests.get(url, headers=self.headers, params=params)]; the
    base URL and the credential headers are the same in every call. *)
Record request : Type := {
  endpoint : string;
  params : option (list (string * json))
}.

(** What the call gives back: [requests.exceptions.RequestException], or a
    response with its status, the two rate-limit headers (absent, or the
    header text) and its body as [response.json()] decodes it (a body that
    is no JSON is outside the model; the body of a response whose status is
    not 200 is never decoded). *)
Record response : Type := {
  status_code : Z;
  x_ratelimit_remaining : option string;
  x_ratelimit_reset : option string;
  body : json
}.

Inductive outcome : Type :=
| RequestException
| Response (r : response).

(** Python builtins and the remote API, taken as given: [int(s)] on a header
    text ([None] when it raises [ValueError]), [str(x)] inside an f-string,
    [time.sleep(d)] at the wall-clock time [now] (the exception it raises,
    if any, with [now] and [d] in microseconds: CPython holds no wait of
    2^63 nanoseconds or more and raises, and the operating system may
    refuse shorter ones), and the server, which answers a request by what
    the request is. *)
Record env : Type := {
  py_int : string → option Z;
  py_str : json → string;
  py_sleep : Z → Z → option exn;
  http : request → outcome
}.

(** [self.rate_limit_remaining] and [self.rate_limit_reset] ([None] until the
    first response), the wall clock in microseconds since the epoch (the
    resolution of [datetime]; only a sleep moves it), the requests issued
    (latest first) and the sleeps taken (latest first, in microseconds). *)
Record session : Type := {
  rate_limit_remaining : option Z;
  rate_limit_reset : option Z;
  clock : Z;
  sent : list request;
  slept : list Z
}.

Definition Py (A : Type) : Type := session → result A * session.

#[global] Instance Py_ret : MRet Py := λ A a s, (Ok a, s).
#[global] Instance Py_bind : MBind Py := λ A B f m s,
  match m s with
  | (Ok a, s') => f a s'
  | (Raise e, s') => (Raise e, s')
  | (OutOfFuel, s') => (OutOfFuel, s')
  end.

Definition lift {A : Type} (r : result A) : Py A := λ s, (r, s).
Definition gets {A : Type} (f : session → A) : Py A := λ s, (Ok (f s), s).
Definition modify (f : session → session) : Py unit := λ s, (Ok (), f s).

Definition set_remaining (v : Z) (s : session) : session :=
  {| rate_limit_remaining := Some v; rate_limit_reset := rate_limit_reset s;
     clock := clock s; sent := sent s; slept := slept s |}.
Definition set_reset (v : Z) (s : session) : session :=
  {| rate_limit_remaining := rate_limit_remaining s; rate_limit_reset := Some v;
     clock := clock s; sent := sent s; slept := slept s |}.
Definition record_request (q : request) (s : session) : session :=
  {| rate_limit_remaining := rate_limit_remaining s;
     rate_limit_reset := rate_limit_reset s;
     clock := clock s; sent := q :: sent s; slept := slept s |}.

(** [time.sleep(d)]: it raises when the platform refuses the wait, and
    nothing has happened then; otherwise the clock moves on by [d], the
    least Python grants.  [d] is in microseconds, where the code has a
    float of seconds. *)
Definition time_sleep (E : env) (d : Z) : Py unit := λ s,
  match py_sleep E (clock s) d with
  | Some e => (Raise e, s)
  | None =>
      (Ok (),
       {| rate_limit_remaining := rate_limit_remaining s;
          rate_limit_reset := rate_limit_reset s;
          clock := clock s + d; sent := sent s; slept := d :: slept s |})
  end.

(** [datetime.fromtimestamp(t, timezone.utc)] as microseconds since the
    epoch.  [None] is a [TypeError]; a timestamp outside the years 1 to 9999
    raises ([ValueError], or [OverflowError]/[OSError] for larger magnitudes:
    the one tag [ValueError] stands for them). *)
Definition min_timestamp : Z := -62135596800.
Definition max_timestamp : Z := 253402300799.
Definition fromtimestamp (t : option Z) : result Z :=
  match t with
  | None => Raise TypeError
  | Some t =>
      if (min_timestamp <=? t) && (t <=? max_timestamp)
      then Ok (t * 1000000) else Raise ValueError
  end.

(** The head of [_make_request]: the pause before a request. *)
Definition maybe_wait (E : env) : Py unit :=
  remaining ← gets rate_limit_remaining;
  match remaining with
  | Some r =>
      if r <? 5 then
        reset ← gets rate_limit_reset;
        reset_time ← lift (fromtimestamp reset);
        current_time ← gets clock;
        if reset_time >? current_time
        then time_sleep E (reset_time - current_time + 1000000)
        else mret ()
      else mret ()
  | None => mret ()
  end.

(** [int(response.headers.get(h, 0))] *)
Definition header_int (E : env) (h : option string) : result Z :=
  match h with
  | None => Ok 0
  | Some s =>
      match py_int E s with
      | Some z => Ok z
      | None => Raise ValueError
      end
  end.

(** The two assignments from the response headers. *)
Definition observe (E : env) (r : response) : Py unit :=
  remaining ← lift (header_int E (x_ratelimit_remaining r));
  modify (set_remaining remaining);;
  reset ← lift (header_int E (x_ratelimit_reset r));
  modify (set_reset reset).

(** The [try] block: the call, the header assignments and the status test.
    Only [RequestException] is caught; a [ValueError] of [int] goes up. *)
Definition send_request (E : env) (q : request) : Py json :=
  modify (record_request q);;
  match http E q with
  | Response r =>
      observe E r;;
      if status_code r =? 200 then mret (body r) else mret JNull
  | RequestException => mret JNull
  end.

Definition _make_request (E : env) (endpoint : string)
    (params : option (list (string * json))) : Py json :=
  maybe_wait E;;
  send_request E {| endpoint := endpoint; params := params |}.

Definition get_user_info (E : env) (username : string) : Py json :=
  _make_request E ("users/" +:+ username) None.

Definition get_repo_languages (E : env) (repo_full_name : json) : Py json :=
  r ← _make_request E ("repos/" +:+ py_str E repo_full_name +:+ "/languages") None;
  mret (py_or r (JObj [])).

Definition get_commit_activity (E : env) (repo_full_name : json) : Py json :=
  r ← _make_request E
        ("repos/" +:+ py_str E repo_full_name +:+ "/stats/commit_activity") None;
  mret (py_or r (JList [])).

(** ** The result of an analysis *)

(** [analysis["user_info"]]; [avatar_url] is a key of the dashboard copy
    only. *)
Record user_info : Type := {
  name : json;
  bio : json;
  location : json;
  public_repos : json;
  followers : json;
  following : json;
  created_at : json;
  avatar_url : option json
}.

(** An element of [popular_repos]; [stars] and [forks] hold the integer the
    repository's counts stand for. *)
Record popular_repo : Type := {
  repo_name : json;
  stars : Z;
  forks : Z;
  description : json;
  main_language : json
}.

(** The nested dict [analysis], flattened; [active_times] is a key of the
    terminal copy only. *)
Record analysis : Type := {
  profile : user_info;
  languages : gmap string Z;
  commit_days : gmap string Z;
  repo_topics : gmap string Z;
  repo_sizes : list json;
  active_times : option (list json);
  total_stars : Z;
  total_forks : Z;
  popular_repos : list popular_repo;
  recent_activity : list json
}.

(** The two copies of the class. *)
Inductive copy : Type := Terminal | Dashboard.

(** The dict literal under ["user_info"]. *)
Definition make_user_info (c : copy) (info : json) : result user_info :=
  n ← py_get info "name" (JStr "N/A");
  b ← py_get info "bio" (JStr "N/A");
  l ← py_get info "location" (JStr "N/A");
  p ← py_get info "public_repos" (JInt 0);
  f1 ← py_get info "followers" (JInt 0);
  f2 ← py_get info "following" (JInt 0);
  cr ← py_get info "created_at" (JStr "N/A");
  av ← match c return result (option json) with
       | Terminal => Ok None
       | Dashboard => a ← py_get info "avatar_url" (JStr ""); Ok (Some a)
       end;
  mret {| name := n; bio := b; location := l; public_repos := p;
          followers := f1; following := f2; created_at := cr;
          avatar_url := av |}.

Definition init_analysis (c : copy) (ui : user_info) : analysis :=
  {| profile := ui;
     languages := ∅; commit_days := ∅; repo_topics := ∅; repo_sizes := [];
     active_times := match c with Terminal => Some [] | Dashboard => None end;
     total_stars := 0; total_forks := 0;
     popular_repos := []; recent_activity := [] |}.

(** ** The folds over one repository *)

(** [for language, bytes_count in languages.items():
       languages_counter[language] += bytes_count] *)
Fixpoint add_language_items (items : list (string * json)) (c : gmap string Z)
    : result (gmap string Z) :=
  match items with
  | [] => Ok c
  | (language, bytes_count) :: rest =>
      v ← py_num bytes_count;
      add_language_items rest (counter_add c language v)
  end.

Definition add_languages (langs : json) (c : gmap string Z)
    : result (gmap string Z) :=
  items ← py_items langs;
  add_language_items items c.

(** [for day_idx, count in enumerate(days):
       if count > 0: commit_days[calendar.day_abbr[day_idx]] += count] *)
Fixpoint add_days (day_idx : nat) (days : list json) (c : gmap string Z)
    : result (gmap string Z) :=
  match days with
  | [] => Ok c
  | count :: rest =>
      n ← py_num count;
      if n >? 0 then
        day_name ← day_abbr day_idx;
        add_days (S day_idx) rest (counter_add c day_name n)
      else add_days (S day_idx) rest c
  end.

(** [for week in commit_activity: ... week.get("days", []) ...] *)
Fixpoint add_weeks (weeks : list json) (c : gmap string Z)
    : result (gmap string Z) :=
  match weeks with
  | [] => Ok c
  | week :: rest =>
      days ← py_get week "days" (JList []);
      ds ← py_iter days;
      c' ← add_days 0 ds c;
      add_weeks rest c'
  end.

Definition add_commit_activity (commit_activity : json) (c : gmap string Z)
    : result (gmap string Z) :=
  if truthy commit_activity then
    weeks ← py_iter commit_activity;
    add_weeks weeks c
  else Ok c.

(** The body of [for repo in repositories]. *)
Definition analyze_repo (E : env) (repo : json) (a : analysis) : Py analysis :=
  full_name ← lift (py_getitem repo "full_name");
  langs ← get_repo_languages E full_name;
  languages' ← lift (add_languages langs (languages a));
  commit_activity ← get_commit_activity E full_name;
  commit_days' ← lift (add_commit_activity commit_activity (commit_days a));
  stargazers_count ← lift (py_getitem repo "stargazers_count");
  stars_n ← lift (py_num stargazers_count);
  forks_count ← lift (py_getitem repo "forks_count");
  forks_n ← lift (py_num forks_count);
  popular' ←
    (if stars_n >? 0 then
       nm ← lift (py_getitem repo "name");
       descr ← lift (py_getitem repo "description");
       lang ← lift (py_getitem repo "language");
       mret (popular_repos a ++
             [{| repo_name := nm; stars := stars_n; forks := forks_n;
                 description := py_or descr (JStr "No description");
                 main_language := py_or lang (JStr "Not specified") |}])
     else mret (popular_repos a));
  mret {| profile := profile a;
          languages := languages'; commit_days := commit_days';
          repo_topics := repo_topics a; repo_sizes := repo_sizes a;
          active_times := active_times a;
          total_stars := total_stars a + stars_n;
          total_forks := total_forks a + forks_n;
          popular_repos := popular'; recent_activity := recent_activity a |}.

Fixpoint analyze_repos (E : env) (repositories : list json) (a : analysis)
    : Py analysis :=
  match repositories with
  | [] => mret a
  | repo :: rest => a' ← analyze_repo E repo a; analyze_repos E rest a'
  end.

(** ** The final sort *)

(** [popular_repos.sort(key=lambda x: x["stars"], reverse=True)].  Python's
    sort is stable, also under [reverse=True]; a stable insertion sort stands
    for it. *)
Fixpoint insert_by_stars (x : popular_repo) (l : list popular_repo)
    : list popular_repo :=
  match l with
  | [] => [x]
  | y :: l' => if stars y >? stars x then y :: insert_by_stars x l' else x :: l
  end.

Definition sort_by_stars (l : list popular_repo) : list popular_repo :=
  foldr insert_by_stars [] l.

Definition sort_popular (a : analysis) : analysis :=
  {| profile := profile a;
     languages := languages a; commit_days := commit_days a;
     repo_topics := repo_topics a; repo_sizes := repo_sizes a;
     active_times := active_times a;
     total_stars := total_stars a; total_forks := total_forks a;
     popular_repos := sort_by_stars (popular_repos a);
     recent_activity := recent_activity a |}.

(** ** The crawler *)

Definition elements (j : json) : list json :=
  match j with JList l => l | _ => [] end.

Definition repos_params (page : Z) : option (list (string * json)) :=
  Some [("page", JInt page); ("per_page", JInt 100); ("sort", JStr "updated")].

(** The [while True] loop of [get_user_repos], one request per unit of
    fuel.  The terminal copy goes on until a page is falsy or not a list;
    the dashboard copy also stops after a page of fewer than 100 entries. *)
Fixpoint get_user_repos_from (E : env) (c : copy) (fuel : nat)
    (username : string) (page : Z) (all_repos : list json) : Py (list json) :=
  match fuel with
  | O => lift OutOfFuel
  | S fuel' =>
      repos_page ← _make_request E ("users/" +:+ username +:+ "/repos")
                     (repos_params page);
      if negb (truthy repos_page) || negb (is_list repos_page)
      then mret all_repos
      else
        match c with
        | Terminal =>
            if negb (truthy repos_page) then mret all_repos
            else get_user_repos_from E c fuel' username (page + 1)
                   (all_repos ++ elements repos_page)
        | Dashboard =>
            let all_repos' := all_repos ++ elements repos_page in
            if Z.of_nat (length (elements repos_page)) <? 100
            then mret all_repos'
            else get_user_repos_from E c fuel' username (page + 1) all_repos'
        end
  end.

Definition get_user_repos (E : env) (c : copy) (fuel : nat) (username : string)
    : Py (list json) :=
  get_user_repos_from E c fuel username 1 [].

(** ** The analysis; [None] stands for the empty dict [{}] *)
Definition analyze_user_activity (E : env) (c : copy) (fuel : nat)
    (username : string) : Py (option analysis) :=
  info ← get_user_info E username;
  if negb (truthy info) then mret None
  else
    repositories ← get_user_repos E c fuel username;
    ui ← lift (make_user_info c info);
    a ← analyze_repos E repositories (init_analysis c ui);
    mret (Some (sort_popular a)).

(** ** Vocabulary of the statements *)

(** The requests the analyzer builds. *)
Definition user_request (username : string) : request :=
  {| endpoint := "users/" +:+ username; params := None |}.
Definition repos_request (username : string) (page : Z) : request :=
  {| endpoint := "users/" +:+ username +:+ "/repos";
     params := repos_params page |}.
Definition languages_request (E : env) (full_name : json) : request :=
  {| endpoint := "repos/" +:+ py_str E full_name +:+ "/languages";
     params := None |}.
Definition commit_activity_request (E : env) (full_name : json) : request :=
  {| endpoint := "repos/" +:+ py_str E full_name +:+ "/stats/commit_activity";
     params := None |}.

(** What [_make_request] hands to its caller for an outcome. *)
Definition payload (o : outcome) : json :=
  match o with
  | Response r => if status_code r =? 200 then body r else JNull
  | RequestException => JNull
  end.

(** A timestamp [datetime] can hold. *)
Definition in_range (t : Z) : bool :=
  (min_timestamp <=? t) && (t <=? max_timestamp).

(** A response that keeps the API's contract on the rate-limit headers:
    each is absent or an integer, and the reset time is a date. *)
Definition response_ok (E : env) (r : response) : bool :=
  match header_int E (x_ratelimit_remaining r),
        header_int E (x_ratelimit_reset r) with
  | Ok _, Ok t => in_range t
  | _, _ => false
  end.

Definition outcome_ok (E : env) (o : outcome) : bool :=
  match o with
  | Response r => response_ok E r
  | RequestException => true
  end.

(** A failure in the sense of the request executor: no response at all, or
    a status other than 200. *)
Definition is_failure (o : outcome) : bool :=
  match o with
  | Response r => negb (status_code r =? 200)
  | RequestException => true
  end.

(** The rate states of a run whose responses keep the header contract:
    when the remaining quota is known, so is the reset time, and it is a
    date. *)
Definition session_ok (s : session) : bool :=
  match rate_limit_remaining s with
  | None => true
  | Some _ =>
      match rate_limit_reset s with
      | Some t => in_range t
      | None => false
      end
  end.

(** The reset times the server can announce. *)
Definition announced (E : env) (t : Z) : Prop :=
  ∃ q r, http E q = Response r ∧ header_int E (x_ratelimit_reset r) = Ok t.

(** The platform grants the pauses that a run from [s] on may take: the
    wait until one second past a reset time that is a date and that the
    session holds or the server can announce, taken at the clock of [s] or
    later. *)
Definition patient (E : env) (s : session) : Prop :=
  ∀ now t, clock s ≤ now → now < t * 1000000 → in_range t = true →
    rate_limit_reset s = Some t ∨ announced E t →
    py_sleep E now (t * 1000000 - now + 1000000) = None.

(** A rate state of a run whose pauses the platform grants. *)
Definition run_ok (E : env) (s : session) : Prop :=
  session_ok s = true ∧ patient E s.

(** The pause before a request returns at [s]: when the quota is below 5,
    the reset time is a date, and the platform grants the wait when the
    reset time is ahead. *)
Definition pause_returns (E : env) (s : session) : Prop :=
  ∀ r, rate_limit_remaining s = Some r → r < 5 →
    ∃ t, rate_limit_reset s = Some t ∧ in_range t = true
         ∧ (clock s < t * 1000000 →
            py_sleep E (clock s) (t * 1000000 - clock s + 1000000) = None).

(** The request [q] is answered within the contract, and [_make_request]
    hands [j] to its caller. *)
Definition fetches (E : env) (q : request) (j : json) : Prop :=
  outcome_ok E (http E q) = true ∧ payload (http E q) = j.

(** The server holds [pages] for [username], from page number [first] on. *)
Fixpoint serves (E : env) (username : string) (first : Z)
    (pages : list (list json)) : Prop :=
  match pages with
  | [] => True
  | p :: rest =>
      fetches E (repos_request username first) (JList p)
      ∧ serves E username (first + 1) rest
  end.

(** The page requests for pages [first], [first + 1], ... ([n] of them),
    latest first, as [sent] keeps them. *)
Fixpoint page_requests (username : string) (first : Z) (n : nat)
    : list request :=
  match n with
  | O => []
  | S n' => page_requests username (first + 1) n' ++ [repos_request username first]
  end.

(** The condition under which [maybe_wait] has to pause. *)
Definition must_wait (s : session) : Prop :=
  ∃ r t, rate_limit_remaining s = Some r ∧ r < 5
         ∧ rate_limit_reset s = Some t ∧ clock s < t * 1000000.

(** The pause in the specification's words, at one rate state: it suspends
    until one second past the reset time when the quota is known and below
    5 and the reset time is ahead, and returns at once in every other
    state. *)
Definition pauses_as_specified (E : env) (s : session) : Prop :=
  (must_wait s →
     ∃ t s', rate_limit_reset s = Some t
             ∧ maybe_wait E s = (Ok (), s')
             ∧ clock s' = t * 1000000 + 1000000)
  ∧ (¬ must_wait s → maybe_wait E s = (Ok (), s)).

(** A header that is present and is no integer. *)
Definition malformed (E : env) (h : option string) : Prop :=
  ∃ text, h = Some text ∧ py_int E text = None.

(** The frame condition on [observe] in the specification's words, at one
    response and one session: an absent or malformed header keeps the
    field, unless both are present and unusable, when [remaining] becomes 0
    and [reset_at] the current time (in seconds). *)
Definition keeps_unusable_fields (E : env) (r : response) (s : session)
    : Prop :=
  let s' := (observe E r s).2 in
  let both := malformed E (x_ratelimit_remaining r)
              ∧ malformed E (x_ratelimit_reset r) in
  (both → rate_limit_remaining s' = Some 0
          ∧ rate_limit_reset s' = Some (clock s `div` 1000000))
  ∧ (¬ both →
       (x_ratelimit_remaining r = None ∨ malformed E (x_ratelimit_remaining r) →
        rate_limit_remaining s' = rate_limit_remaining s)
       ∧ (x_ratelimit_reset r = None ∨ malformed E (x_ratelimit_reset r) →
          rate_limit_reset s' = rate_limit_reset s)).

(** A page after which the crawler of copy [c] asks for the next one. *)
Definition continues (c : copy) (p : list json) : Prop :=
  match c with
  | Terminal => p ≠ []
  | Dashboard => (100 ≤ length p)%nat
  end.

(** The pagination property in the specification's words, for the crawler
    of copy [c]: full pages then a short one give the concatenation, and
    the short page's request is the last one sent. *)
Definition stops_after_short_page (E : env) (c : copy) : Prop :=
  ∀ (username : string) (full : list (list json)) (last : list json)
    (s : session),
    run_ok E s →
    Forall (λ p, length p = 100%nat) full → (length last < 100)%nat →
    serves E username 1 (full ++ [last]) →
    ∃ fuel s',
      get_user_repos E c fuel username s = (Ok (concat (full ++ [last])), s')
      ∧ sent s' = page_requests username 1 (length full + 1) ++ sent s.

(** ** A repository as the folds read it *)

(** The typed content of one repository and of its two sub-resources:
    what the loop body reads when every value has the type the API
    documents. *)
Record repo_data : Type := {
  d_name : json;
  d_stars : Z;
  d_forks : Z;
  d_description : json;
  d_language : json;
  d_langs : gmap string Z;
  d_weeks : list (list Z)
}.

Definition num_of (j : json) : option Z :=
  match py_num j with Ok z => Some z | _ => None end.

Fixpoint nums_of (l : list json) : option (list Z) :=
  match l with
  | [] => Some []
  | j :: rest =>
      match num_of j, nums_of rest with
      | Some z, Some zs => Some (z :: zs)
      | _, _ => None
      end
  end.

Fixpoint items_of (o : list (string * json)) : option (list (string * Z)) :=
  match o with
  | [] => Some []
  | (k, j) :: rest =>
      match num_of j, items_of rest with
      | Some z, Some kvs => Some ((k, z) :: kvs)
      | _, _ => None
      end
  end.

(** A languages value: a dict (keys distinct) from names to integers. *)
Definition decode_languages (j : json) : option (gmap string Z) :=
  match j with
  | JObj o =>
      if bool_decide (NoDup o.*1)
      then match items_of o with
           | Some kvs => Some (list_to_map kvs)
           | None => None
           end
      else None
  | _ => None
  end.

(** One weekly entry: a dict whose ["days"], when present, is a list of at
    most seven integers. *)
Definition decode_week (week : json) : option (list Z) :=
  match week with
  | JObj o =>
      match default (JList []) (assoc "days" o) with
      | JList ds =>
          match nums_of ds with
          | Some zs => if bool_decide (length zs ≤ 7)%nat then Some zs else None
          | None => None
          end
      | _ => None
      end
  | _ => None
  end.

Fixpoint decode_week_list (ws : list json) : option (list (list Z)) :=
  match ws with
  | [] => Some []
  | w :: rest =>
      match decode_week w, decode_week_list rest with
      | Some d, Some ds => Some (d :: ds)
      | _, _ => None
      end
  end.

(** A commit-activity value: falsy, or a list of weekly entries. *)
Definition decode_weeks (j : json) : option (list (list Z)) :=
  if truthy j then
    match j with
    | JList ws => decode_week_list ws
    | _ => None
    end
  else Some [].

(** The reading of [repo] in the world [E]: its fields, and the answers to
    its two sub-resource requests (a failed request reads as empty). *)
Definition read_repo (E : env) (repo : json) : option repo_data :=
  match repo with
  | JObj o =>
      match assoc "full_name" o, assoc "name" o,
            assoc "stargazers_count" o ≫= num_of,
            assoc "forks_count" o ≫= num_of,
            assoc "description" o, assoc "language" o with
      | Some fn, Some nm, Some st, Some fk, Some descr, Some lang =>
          let lo := http E (languages_request E fn) in
          let co := http E (commit_activity_request E fn) in
          if outcome_ok E lo && outcome_ok E co then
            match decode_languages (py_or (payload lo) (JObj [])),
                  decode_weeks (py_or (payload co) (JList [])) with
            | Some langs, Some weeks =>
                Some {| d_name := nm; d_stars := st; d_forks := fk;
                        d_description := descr; d_language := lang;
                        d_langs := langs; d_weeks := weeks |}
            | _, _ => None
            end
          else None
      | _, _, _, _, _, _ => None
      end
  | _ => None
  end.

(** [repos] read one by one. *)
Definition reads (E : env) (repos : list json) (ds : list repo_data) : Prop :=
  Forall2 (λ repo d, read_repo E repo = Some d) repos ds.

(** Elementwise sum of two tallies. *)
Definition merge_sum (m1 m2 : gmap string Z) : gmap string Z :=
  union_with (λ x y, Some (x + y)) m1 m2.

(** The label of day [i], when there is one. *)
Definition day_label (i : nat) : string :=
  match day_abbr i with Ok l => l | _ => "" end.

Fixpoint tally_days (day_idx : nat) (days : list Z) (c : gmap string Z)
    : gmap string Z :=
  match days with
  | [] => c
  | n :: rest =>
      tally_days (S day_idx) rest
        (if n >? 0 then counter_add c (day_label day_idx) n else c)
  end.

Definition tally_weeks (weeks : list (list Z)) (c : gmap string Z)
    : gmap string Z :=
  foldl (λ c days, tally_days 0 days c) c weeks.

Definition entry_of (d : repo_data) : popular_repo :=
  {| repo_name := d_name d; stars := d_stars d; forks := d_forks d;
     description := py_or (d_description d) (JStr "No description");
     main_language := py_or (d_language d) (JStr "Not specified") |}.

(** What one pass of the loop body does to the analysis, on typed data. *)
Definition fold_data (a : analysis) (d : repo_data) : analysis :=
  {| profile := profile a;
     languages := merge_sum (languages a) (d_langs d);
     commit_days := tally_weeks (d_weeks d) (commit_days a);
     repo_topics := repo_topics a; repo_sizes := repo_sizes a;
     active_times := active_times a;
     total_stars := total_stars a + d_stars d;
     total_forks := total_forks a + d_forks d;
     popular_repos :=
       (if d_stars d >? 0 then popular_repos a ++ [entry_of d]
        else popular_repos a);
     recent_activity := recent_activity a |}.

(** The crawl of [username] returns [repos], from any rate state of a
    run. *)
Definition crawls (E : env) (c : copy) (fuel : nat) (username : string)
    (repos : list json) : Prop :=
  ∀ s, run_ok E s →
    ∃ s', get_user_repos E c fuel username s = (Ok repos, s')
          ∧ run_ok E s'.

(** The entries of the repositories that have stars, in the order the
    repositories were found. *)
Definition discovered (ds : list repo_data) : list popular_repo :=
  entry_of <$> filter (λ d, 0 < d_stars d) ds.

(** Descending by stars. *)
Definition by_stars_desc (x y : popular_repo) : Prop := stars y ≤ stars x.

(** The bytes of language [k] over all repositories. *)
Definition total_bytes (k : string) (ds : list repo_data) : Z :=
  foldr (λ d acc, counter_get (d_langs d) k + acc) 0 ds.

(** The profile fields of a dict, with the defaults of the dict literal. *)
Definition profile_of (c : copy) (o : list (string * json)) : user_info :=
  {| name := default (JStr "N/A") (assoc "name" o);
     bio := default (JStr "N/A") (assoc "bio" o);
     location := default (JStr "N/A") (assoc "location" o);
     public_repos := default (JInt 0) (assoc "public_repos" o);
     followers := default (JInt 0) (assoc "followers" o);
     following := default (JInt 0) (assoc "following" o);
     created_at := default (JStr "N/A") (assoc "created_at" o);
     avatar_url := match c with
                   | Terminal => None
                   | Dashboard => Some (default (JStr "") (assoc "avatar_url" o))
                   end |}.

(** The value [v] a profile field gets from the dict [o] under key [f]:
    the stored value when the key is present (also when it is null), the
    default ["N/A"] only when the key is absent. *)
Definition field_kept (o : list (string * json)) (f : string) (v : json)
    : Prop :=
  (∀ x, assoc f o = Some x → v = x)
  ∧ (assoc f o = Some JNull → v = JNull)
  ∧ (assoc f o = None → v = JStr "N/A")
  ∧ (v = JStr "N/A" → assoc f o = None ∨ assoc f o = Some (JStr "N/A")).

(** The seven labels of [calendar.day_abbr]. *)
Definition weekdays : list string :=
  ["Mon"; "Tue"; "Wed"; "Thu"; "Fri"; "Sat"; "Sun"].

(** What a commit fold may do to a tally: counts only grow, and only
    under weekday labels. *)
Definition grows (c c' : gmap string Z) : Prop :=
  (∀ k, counter_get c k ≤ counter_get c' k)
  ∧ (∀ k, k ∉ weekdays → c' !! k = c !! k).

(** ** Closed instances for the examples *)

(** [int(s)] on plain decimal texts; every other text counts as malformed
    here. *)
Definition digit (c : Ascii.ascii) : option Z :=
  let n := Z.of_nat (Ascii.nat_of_ascii c) in
  if (48 <=? n) && (n <=? 57) then Some (n - 48) else None.

Fixpoint digits (s : string) (acc : Z) : option Z :=
  match s with
  | EmptyString => Some acc
  | String c s' =>
      match digit c with
      | Some d => digits s' (10 * acc + d)
      | None => None
      end
  end.

Definition decimal (s : string) : option Z :=
  match s with
  | EmptyString => None
  | _ => digits s 0
  end.

(** [str(x)] on strings; the examples format nothing else. *)
Definition str_of (j : json) : string :=
  match j with JStr s => s | _ => "" end.

(** A [time.sleep] for the examples: it refuses a negative wait with
    [ValueError] and a wait of 2^63 nanoseconds or more with
    [OverflowError], and grants every other wait. *)
Definition plain_sleep (now d : Z) : option exn :=
  if d <? 0 then Some ValueError
  else if 2 ^ 63 <=? 1000 * d then Some OverflowError
  else None.

Definition ok_200 (b : json) : outcome :=
  Response {| status_code := 200; x_ratelimit_remaining := Some "4999";
              x_ratelimit_reset := Some "1700003600"; body := b |}.

Definition not_found : outcome :=
  Response {| status_code := 404; x_ratelimit_remaining := Some "4998";
              x_ratelimit_reset := Some "1700003600";
              body := JObj [("message", JStr "Not Found")] |}.

(** A response that carries no rate-limit header. *)
Definition bare_response : response :=
  {| status_code := 200; x_ratelimit_remaining := None;
     x_ratelimit_reset := None; body := JObj [] |}.

Definition fresh_session : session :=
  {| rate_limit_remaining := None; rate_limit_reset := None;
     clock := 1700000000 * 1000000; sent := []; slept := [] |}.

(** Quota known and ample. *)
Definition busy_session : session :=
  {| rate_limit_remaining := Some 42; rate_limit_reset := Some 1700003600;
     clock := 1700000000 * 1000000; sent := []; slept := [] |}.

(** Three requests left, the quota resets in 10 seconds. *)
Definition low_quota_session : session :=
  {| rate_limit_remaining := Some 3; rate_limit_reset := Some 1700000010;
     clock := 1700000000 * 1000000; sent := []; slept := [] |}.

(** A server that knows nobody. *)
Definition empty_world : env :=
  {| py_int := decimal; py_str := str_of; py_sleep := plain_sleep;
     http := λ _, not_found |}.

(** A user [u] with two repositories: [repo_a] with 10 stars, 2 forks and
    100 bytes of X; [repo_b] with no stars, no forks and 50 bytes each of X
    and Y.  Commit statistics exist for [repo_a] only.  A user [n] has no
    repository. *)
Definition repo_a : json :=
  JObj [("full_name", JStr "u/a"); ("name", JStr "a");
        ("stargazers_count", JInt 10); ("forks_count", JInt 2);
        ("description", JNull); ("language", JStr "X")].

Definition repo_b : json :=
  JObj [("full_name", JStr "u/b"); ("name", JStr "b");
        ("stargazers_count", JInt 0); ("forks_count", JInt 0);
        ("description", JStr "second"); ("language", JNull)].

Definition demo_profile : json :=
  JObj [("login", JStr "u"); ("name", JNull); ("bio", JStr "hi");
        ("public_repos", JInt 2)].

Definition demo_server (q : request) : outcome :=
  let e := endpoint q in
  if String.eqb e "users/u" then ok_200 demo_profile
  else if String.eqb e "users/u/repos" then
    match params q with
    | Some (("page", JInt 1) :: _) => ok_200 (JList [repo_a; repo_b])
    | _ => ok_200 (JList [])
    end
  else if String.eqb e "users/n/repos" then ok_200 (JList [])
  else if String.eqb e "repos/u/a/languages" then
    ok_200 (JObj [("X", JInt 100)])
  else if String.eqb e "repos/u/b/languages" then
    ok_200 (JObj [("X", JInt 50); ("Y", JInt 50)])
  else if String.eqb e "repos/u/a/stats/commit_activity" then
    ok_200 (JList [JObj [("total", JInt 6);
                         ("days", JList [JInt 5; JInt 0; JInt 0; JInt 0;
                                         JInt 0; JInt 0; JInt 1])]])
  else not_found.

Definition demo_world : env :=
  {| py_int := decimal; py_str := str_of; py_sleep := plain_sleep;
     http := demo_server |}.

(** A server that announces 3 remaining requests and a reset time in the
    year 10000, one second past the last date of [datetime]. *)
Definition far_world : env :=
  {| py_int := decimal; py_str := str_of; py_sleep := plain_sleep;
     http := λ _, Response {| status_code := 200;
                              x_ratelimit_remaining := Some "3";
                              x_ratelimit_reset := Some "253402300800";
                              body := JObj [] |} |}.

(** A user whose first page is full and whose second page request breaks
    down. *)
Definition full_page : list json := replicate 100 repo_b.

Definition flaky_server (q : request) : outcome :=
  if String.eqb (endpoint q) "users/v/repos" then
    match params q with
    | Some (("page", JInt 1) :: _) => ok_200 (JList full_page)
    | _ => RequestException
    end
  else not_found.

Definition flaky_world : env :=
  {| py_int := decimal; py_str := str_of; py_sleep := plain_sleep;
     http := flaky_server |}.

(** A server whose remaining-header is no integer. *)
Definition garbled_world : env :=
  {| py_int := decimal; py_str := str_of; py_sleep := plain_sleep;
     http := λ _, Response {| status_code := 200;
                              x_ratelimit_remaining := Some "plenty";
                              x_ratelimit_reset := Some "1700003600";
                              body := JObj [] |} |}.

(** A user with one full page and a short second page. *)
Definition paged_server (q : request) : outcome :=
  if String.eqb (endpoint q) "users/w/repos" then
    match params q with
    | Some (("page", JInt 1) :: _) => ok_200 (JList full_page)
    | Some (("page", JInt 2) :: _) => ok_200 (JList [repo_a; repo_b])
    | _ => ok_200 (JList [])
    end
  else not_found.

Definition paged_world : env :=
  {| py_int := decimal; py_str := str_of; py_sleep := plain_sleep;
     http := paged_server |}.

(** The two repositories of [demo_world] as the folds read them. *)
Definition data_a : repo_data :=
  {| d_name := JStr "a"; d_stars := 10; d_forks := 2;
     d_description := JNull; d_language := JStr "X";
     d_langs := {[ "X" := 100 ]};
     d_weeks := [[5; 0; 0; 0; 0; 0; 1]] |}.

Definition data_b : repo_data :=
  {| d_name := JStr "b"; d_stars := 0; d_forks := 0;
     d_description := JStr "second"; d_language := JNull;
     d_langs := {[ "X" := 50; "Y" := 50 ]};
     d_weeks := [] |}.

(** A week of commit activity with 5 commits on the first day of the
    API's week, a Sunday. *)
Definition sunday_week : json :=
  JList [JObj [("total", JInt 5);
               ("days", JList [JInt 5; JInt 0; JInt 0; JInt 0;
                               JInt 0; JInt 0; JInt 0])]].

(** A user [t] with four repositories of 3, 7, 3 and no stars, in this
    order; their sub-resources are not found. *)
Definition plain_repo (nm : string) (n : Z) : json :=
  JObj [("full_name", JStr ("t/" +:+ nm)); ("name", JStr nm);
        ("stargazers_count", JInt n); ("forks_count", JInt 0);
        ("description", JNull); ("language", JNull)].

Definition plain_data (nm : string) (n : Z) : repo_data :=
  {| d_name := JStr nm; d_stars := n; d_forks := 0;
     d_description := JNull; d_language := JNull;
     d_langs := ∅; d_weeks := [] |}.

Definition tie_server (q : request) : outcome :=
  let e := endpoint q in
  if String.eqb e "users/t" then ok_200 (JObj [("login", JStr "t")])
  else if String.eqb e "users/t/repos" then
    match params q with
    | Some (("page", JInt 1) :: _) =>
        ok_200 (JList [plain_repo "p" 3; plain_repo "q" 7; plain_repo "r" 3;
                       plain_repo "s" 0])
    | _ => ok_200 (JList [])
    end
  else not_found.

Definition tie_world : env :=
  {| py_int := decimal; py_str := str_of; py_sleep := plain_sleep;
     http := tie_server |}.




(** ** Vocabulary of the further properties *)

(** The two rate fields are known together: both [None], as [__init__]
    leaves them, or both set. *)
Definition rate_known_together (s : session) : Prop :=
  rate_limit_remaining s = None ↔ rate_limit_reset s = None.

(** [GitHubAnalyzer(token)] at a given time: nothing known about the quota,
    nothing sent.  The token, the base URL and the headers go out with each
    request; the server of [env] has them. *)
Definition new_analyzer (now : Z) : session :=
  {| rate_limit_remaining := None; rate_limit_reset := None;
     clock := now; sent := []; slept := [] |}.

(** A first response that leaves 3 requests and a reset time 10 seconds
    after the clock of [fresh_session]. *)
Definition throttling_world : env :=
  {| py_int := decimal; py_str := str_of; py_sleep := plain_sleep;
     http := λ _, Response {| status_code := 200;
                              x_ratelimit_remaining := Some "3";
                              x_ratelimit_reset := Some "1700000010";
                              body := JObj [] |} |}.

(** A user [x] whose repository list holds an entry without [full_name],
    a user [y] whose profile body is a list, and a user [z] without
    repositories whose profile holds a null [created_at]. *)
Definition nameless_repo : json :=
  JObj [("name", JStr "z"); ("stargazers_count", JInt 1)].

Definition undated_profile : list (string * json) :=
  [("login", JStr "z"); ("name", JStr "Zed"); ("created_at", JNull)].

Definition odd_server (q : request) : outcome :=
  let e := endpoint q in
  if String.eqb e "users/x" then ok_200 demo_profile
  else if String.eqb e "users/x/repos" then
    match params q with
    | Some (("page", JInt 1) :: _) => ok_200 (JList [repo_b; nameless_repo])
    | _ => ok_200 (JList [])
    end
  else if String.eqb e "users/y" then ok_200 (JList [JStr "y"])
  else if String.eqb e "users/y/repos" then ok_200 (JList [])
  else if String.eqb e "users/z" then ok_200 (JObj undated_profile)
  else if String.eqb e "users/z/repos" then ok_200 (JList [])
  else if String.eqb e "repos/u/b/languages" then
    ok_200 (JObj [("X", JInt 50); ("Y", JInt 50)])
  else not_found.

Definition odd_world : env :=
  {| py_int := decimal; py_str := str_of; py_sleep := plain_sleep;
     http := odd_server |}.

(** The commits the weeks hold for the day at index [i]: the positive
    counts at that index. *)
Definition day_commits (i : nat) (weeks : list (list Z)) : Z :=
  foldr (λ week acc, Z.max 0 (default 0 (week !! i)) + acc) 0 weeks.

(** ** The report of the terminal copy *)

(** One constructor for each [print] of [print_enhanced_report], with the
    values its f-string shows; the text around them is fixed.  Rendering a
    value as text ([str], and [:.1f] for a percentage) is left out: a
    percentage line carries the count and the total it is computed from. *)
Inductive line : Type :=
| NoAnalysisData
| ReportTitle
| ProfileHeading
| NameLine (v : json)
| LocationLine (v : json)
| CreatedLine (v : json)
| FollowersLine (followers following : json)
| LanguagesHeading
| LanguageLine (language : string) (bytes_count total_bytes : Z)
| NoLanguageData
| CommitsHeading
| DayLine (day : string) (count total_commits : Z)
| NoCommitData
| ReposHeading
| RepoLine (name main_language : json)
| StarsLine (stars forks : Z)
| DescriptionLine (d : json)
| NoRepositoryData.

(** The two exceptions the report can meet: the [TypeError] of slicing a
    value that is no string and no list ([None[:10]]; for a dict Python
    3.12 and later raise [KeyError] instead), and the [OverflowError] of an
    integer division whose quotient no float holds. *)
Inductive report_error : Type :=
| SliceError
| DivisionOverflow.

Inductive printed (A : Type) : Type :=
| Done (a : A)
| Broke (e : report_error).
Arguments Done {A} a.
Arguments Broke {A} e.

(** The lines printed so far, and how the code went on. *)
Definition Out (A : Type) : Type := list line * printed A.

#[global] Instance Out_ret : MRet Out := λ A a, ([], Done a).
#[global] Instance Out_bind : MBind Out := λ A B f m,
  match m with
  | (ls, Done a) => let '(ls', r) := f a in (ls ++ ls', r)
  | (ls, Broke e) => (ls, Broke e)
  end.

Definition print (l : line) : Out () := ([l], Done ()).

(** [for x in l: body] *)
Fixpoint each {A : Type} (body : A → Out ()) (l : list A) : Out () :=
  match l with
  | [] => mret ()
  | x :: rest => body x;; each body rest
  end.

(** [v[:10]] *)
Definition first_ten (v : json) : Out json :=
  match v with
  | JStr s => mret (JStr (String.concat "" (take 10 (code_points s))))
  | JList l => mret (JList (take 10 l))
  | _ => ([], Broke SliceError)
  end.

(** The values [v[:10]] accepts. *)
Definition sliceable (v : json) : bool :=
  match v with
  | JStr _ | JList _ => true
  | _ => false
  end.

(** [n / total] for integers with [total > 0]: the quotient is rounded to
    the nearest float, and overflows from [2^1024 - 2^970] on. *)
Definition float_limit : Z := 2 ^ 1024 - 2 ^ 970.
Definition true_divide (n total : Z) : Out () :=
  if float_limit * total <=? Z.abs n then ([], Broke DivisionOverflow)
  else mret ().

(** The keys of the two Counters in insertion order, which a [gmap] does
    not keep: taken as given. *)
Record counter_order : Type := {
  language_keys : gmap string Z → list string;
  day_keys : gmap string Z → list string
}.

(** [keys] lists the keys of [c], each once. *)
Definition lists_keys (keys : list string) (c : gmap string Z) : Prop :=
  NoDup keys ∧ ∀ k, k ∈ keys ↔ is_Some (c !! k).

(** [c.items()] *)
Definition counter_items (keys : list string) (c : gmap string Z)
    : list (string * Z) :=
  (λ k, (k, counter_get c k)) <$> keys.

(** [sum(c.values())] *)
Definition counter_sum (keys : list string) (c : gmap string Z) : Z :=
  foldr Z.add 0 ((counter_items keys c).*2).

(** [Counter.most_common]: [sorted(items, key=count, reverse=True)], cut to
    the first [n] when [n] is given; equal counts keep their insertion
    order.  A stable insertion sort stands for [sorted] and
    [heapq.nlargest]. *)
Fixpoint insert_by_count (x : string * Z) (l : list (string * Z))
    : list (string * Z) :=
  match l with
  | [] => [x]
  | y :: l' => if y.2 >? x.2 then y :: insert_by_count x l' else x :: l
  end.

Definition sort_by_count (l : list (string * Z)) : list (string * Z) :=
  foldr insert_by_count [] l.

Definition most_common (n : option nat) (items : list (string * Z))
    : list (string * Z) :=
  match n with
  | Some n => take n (sort_by_count items)
  | None => sort_by_count items
  end.

(** Descending by count. *)
Definition by_count_desc (x y : string * Z) : Prop := y.2 ≤ x.2.

(** The three lines of one repository. *)
Definition lines_of (repo : popular_repo) : list line :=
  [RepoLine (repo_name repo) (main_language repo);
   StarsLine (stars repo) (forks repo);
   DescriptionLine (description repo)].

(** [# User Overview] *)
Definition profile_section (user : user_info) : Out () :=
  print ProfileHeading;;
  print (NameLine (name user));;
  print (LocationLine (location user));;
  created ← first_ten (created_at user);
  print (CreatedLine created);;
  print (FollowersLine (followers user) (following user)).

(** [# Language Analysis] *)
Definition language_section (keys : list string) (c : gmap string Z)
    : Out () :=
  print LanguagesHeading;;
  let total_bytes := counter_sum keys c in
  if total_bytes >? 0 then
    each (λ '(language, bytes_count),
            true_divide bytes_count total_bytes;;
            print (LanguageLine language bytes_count total_bytes))
         (most_common (Some 5%nat) (counter_items keys c))
  else print NoLanguageData.

(** [# Commit Patterns] *)
Definition commit_section (keys : list string) (c : gmap string Z)
    : Out () :=
  print CommitsHeading;;
  let total_commits := counter_sum keys c in
  if total_commits >? 0 then
    each (λ '(day, count),
            true_divide count total_commits;;
            print (DayLine day count total_commits))
         (most_common None (counter_items keys c))
  else print NoCommitData.

(** [# Popular Repositories] *)
Definition repo_lines (repo : popular_repo) : Out () :=
  print (RepoLine (repo_name repo) (main_language repo));;
  print (StarsLine (stars repo) (forks repo));;
  print (DescriptionLine (description repo)).

Definition repository_section (popular : list popular_repo) : Out () :=
  print ReposHeading;;
  match popular with
  | [] => print NoRepositoryData
  | _ => each repo_lines (take 3 popular)
  end.

(** [None] is the empty dict, which is falsy; an analysis is never. *)
Definition print_enhanced_report (ord : counter_order)
    (analysis : option analysis) : Out () :=
  match analysis with
  | None => print NoAnalysisData
  | Some a =>
      print ReportTitle;;
      profile_section (profile a);;
      language_section (language_keys ord (languages a)) (languages a);;
      commit_section (day_keys ord (commit_days a)) (commit_days a);;
      repository_section (popular_repos a)
  end.

(** [main] of the terminal copy: the two answers to [input] are [token]
    and [username]; the analyzer is new.  The value is what the report
    prints; the lines the analyzer's methods print before the report are
    dropped, as in the methods. *)
Definition main (E : env) (ord : counter_order) (fuel : nat) (now : Z)
    (token username : string) : result (Out ()) * session :=
  (analysis ← analyze_user_activity E Terminal fuel username;
   mret (print_enhanced_report ord analysis)) (new_analyzer now).

(** A key order for the examples: the one the map lists its keys in. *)
Definition map_order : counter_order :=
  {| language_keys := λ c, (map_to_list c).*1;
     day_keys := λ c, (map_to_list c).*1 |}.

(** A repository that differs from [data_a] in its name and stars. *)
Definition starred (nm : string) (n : Z) : repo_data :=
  {| d_name := JStr nm; d_stars := n; d_forks := d_forks data_a;
     d_description := d_description data_a; d_language := d_language data_a;
     d_langs := d_langs data_a; d_weeks := d_weeks data_a |}.

(** * Proofs *)

(** Unfolding of the monad's plumbing. *)
Ltac py_unfold :=
  unfold mbind, mret, Py_bind, Py_ret, result_bind, result_ret,
    lift, gets, modify in *.

Lemma bind_ok {A B : Type} (m : Py A) (f : A → Py B) (a : A) (s s' : session) :
  m s = (Ok a, s') → (m ≫= f) s = f a s'.
Proof. intros H. py_unfold. by rewrite H. Qed.

Lemma lift_ok {A B : Type} (a : A) (f : A → Py B) (s : session) :
  (lift (Ok a) ≫= f) s = f a s.
Proof. reflexivity. Qed.

(** ** The rate governor *)

(** The pause, as one case analysis on the rate state. *)
Lemma maybe_wait_cases (E : env) (s : session) :
  maybe_wait E s =
    match rate_limit_remaining s with
    | Some r =>
        if r <? 5 then
          match fromtimestamp (rate_limit_reset s) with
          | Ok reset_time =>
              if reset_time >? clock s
              then time_sleep E (reset_time - clock s + 1000000) s
              else (Ok (), s)
          | Raise e => (Raise e, s)
          | OutOfFuel => (OutOfFuel, s)
          end
        else (Ok (), s)
    | None => (Ok (), s)
    end.
Proof.
  unfold maybe_wait. py_unfold.
  destruct (rate_limit_remaining s) as [r|]; [|done].
  destruct (r <? 5); [|done].
  destruct (fromtimestamp (rate_limit_reset s)) as [reset_time| |]; [|done..].
  by destruct (reset_time >? clock s).
Qed.

(** [fromtimestamp] returns on the dates, and only there. *)
Lemma fromtimestamp_date (t : Z) :
  in_range t = true → fromtimestamp (Some t) = Ok (t * 1000000).
Proof. unfold in_range, fromtimestamp. by intros ->. Qed.

Lemma fromtimestamp_returns (o : option Z) (reset_time : Z) :
  fromtimestamp o = Ok reset_time →
  ∃ t, o = Some t ∧ in_range t = true ∧ reset_time = t * 1000000.
Proof.
  destruct o as [t|]; [|done]. unfold fromtimestamp, in_range.
  destruct ((min_timestamp <=? t) && (t <=? max_timestamp)) eqn:Hrange;
    [|done].
  intros [= <-]. by exists t.
Qed.

Lemma fromtimestamp_fuel (o : option Z) : fromtimestamp o ≠ OutOfFuel.
Proof.
  destruct o as [t|]; [|done]. unfold fromtimestamp.
  by destruct ((min_timestamp <=? t) && (t <=? max_timestamp)).
Qed.

(** A sleep either raises and leaves the session, or moves the clock by
    its wait and logs it. *)
Lemma time_sleep_cases (E : env) (d : Z) (s : session) :
  (∃ e, py_sleep E (clock s) d = Some e ∧ time_sleep E d s = (Raise e, s))
  ∨ (py_sleep E (clock s) d = None
     ∧ ∃ s', time_sleep E d s = (Ok (), s')
             ∧ rate_limit_remaining s' = rate_limit_remaining s
             ∧ rate_limit_reset s' = rate_limit_reset s
             ∧ clock s' = clock s + d ∧ sent s' = sent s
             ∧ slept s' = d :: slept s).
Proof.
  unfold time_sleep. destruct (py_sleep E (clock s) d) as [e|].
  - left. by exists e.
  - right. split; [done|]. by eexists.
Qed.

(** The pause on a rate state of a run. *)
Lemma maybe_wait_run (E : env) (s : session) :
  session_ok s = true →
  maybe_wait E s =
    match rate_limit_remaining s, rate_limit_reset s with
    | Some r, Some t =>
        if (r <? 5) && (t * 1000000 >? clock s)
        then time_sleep E (t * 1000000 - clock s + 1000000) s
        else (Ok (), s)
    | _, _ => (Ok (), s)
    end.
Proof.
  intros Hok. rewrite maybe_wait_cases. unfold session_ok in Hok.
  destruct (rate_limit_remaining s) as [r|]; [|done].
  destruct (rate_limit_reset s) as [t|]; [|done].
  rewrite (fromtimestamp_date t Hok).
  by destruct (r <? 5), (t * 1000000 >? clock s).
Qed.

(** Whatever the rate state and however it ends, a pause touches the
    clock and the sleep log only, and the clock never goes back. *)
Lemma maybe_wait_fields (E : env) (s s' : session) (r : result ()) :
  maybe_wait E s = (r, s') →
  rate_limit_remaining s' = rate_limit_remaining s
  ∧ rate_limit_reset s' = rate_limit_reset s
  ∧ sent s' = sent s
  ∧ clock s ≤ clock s'.
Proof.
  rewrite maybe_wait_cases.
  assert (Hsame : ∀ x : result (), (x, s) = (r, s') →
            rate_limit_remaining s' = rate_limit_remaining s
            ∧ rate_limit_reset s' = rate_limit_reset s
            ∧ sent s' = sent s ∧ clock s ≤ clock s').
  { intros x [= _ <-]. repeat split; [done..|lia]. }
  destruct (rate_limit_remaining s) as [a|] eqn:Hrem; [|apply Hsame].
  destruct (a <? 5); [|apply Hsame].
  destruct (fromtimestamp (rate_limit_reset s)) as [reset_time| |];
    [|apply Hsame..].
  destruct (Z.gtb_spec reset_time (clock s)) as [Hahead|]; [|apply Hsame].
  destruct (time_sleep_cases E (reset_time - clock s + 1000000) s)
    as [(e & _ & ->) | (_ & s1 & -> & Hr & Ht & Hc & Hsent & _)];
    [apply Hsame|].
  intros [= _ <-]. split; [congruence|]. split; [done|]. split; [done|lia].
Qed.

(** The pause returns exactly in the states of [pause_returns]. *)
Lemma maybe_wait_returns (E : env) (s : session) :
  (∃ s', maybe_wait E s = (Ok (), s')) ↔ pause_returns E s.
Proof.
  rewrite maybe_wait_cases. unfold pause_returns. split.
  - intros [s' Hrun] r Hr Hlow. rewrite Hr in Hrun.
    destruct (Z.ltb_spec r 5); [|lia].
    destruct (fromtimestamp (rate_limit_reset s)) as [reset_time| |]
      eqn:Hreset; [|done..].
    destruct (fromtimestamp_returns _ _ Hreset) as (t & Ht & Hrange & ->).
    exists t. split; [done|]. split; [done|]. intros Hahead.
    destruct (Z.gtb_spec (t * 1000000) (clock s)); [|lia].
    destruct (time_sleep_cases E (t * 1000000 - clock s + 1000000) s)
      as [(e & _ & Hraise) | [Hgrant _]]; [|done].
    rewrite Hraise in Hrun. discriminate Hrun.
  - intros Hret.
    destruct (rate_limit_remaining s) as [r|]; [|by exists s].
    destruct (Z.ltb_spec r 5); [|by exists s].
    destruct (Hret r eq_refl) as (t & -> & Hrange & Hgrant); [done|].
    rewrite (fromtimestamp_date t Hrange).
    destruct (Z.gtb_spec (t * 1000000) (clock s)) as [Hahead|];
      [|by exists s].
    destruct (time_sleep_cases E (t * 1000000 - clock s + 1000000) s)
      as [(e & Hrefuse & _) | (_ & s' & -> & _)]; [|by exists s'].
    rewrite (Hgrant ltac:(lia)) in Hrefuse. discriminate Hrefuse.
Qed.

(** A pause that returns keeps the rate state and the request log. *)
Lemma maybe_wait_frame (E : env) (s : session) :
  pause_returns E s →
  ∃ s', maybe_wait E s = (Ok (), s')
        ∧ rate_limit_remaining s' = rate_limit_remaining s
        ∧ rate_limit_reset s' = rate_limit_reset s
        ∧ sent s' = sent s.
Proof.
  intros Hret. apply maybe_wait_returns in Hret as [s' Hrun].
  destruct (maybe_wait_fields E s s' _ Hrun) as (Hr & Ht & Hsent & _).
  by exists s'.
Qed.

(** In a run the platform grants the pause, and the run goes on. *)
Lemma run_ok_pause (E : env) (s : session) : run_ok E s → pause_returns E s.
Proof.
  intros [Hok Hpat] r Hr Hlow. unfold session_ok in Hok. rewrite Hr in Hok.
  destruct (rate_limit_reset s) as [t|] eqn:Ht; [|done].
  exists t. split; [done|]. split; [done|]. intros Hahead.
  apply Hpat; [lia|done|done|by left].
Qed.

Lemma patient_step (E : env) (s s' : session) :
  patient E s → clock s ≤ clock s' →
  (∀ t, rate_limit_reset s' = Some t →
        rate_limit_reset s = Some t ∨ announced E t) →
  patient E s'.
Proof.
  intros Hpat Hclock Hreset now t Hnow Hahead Hrange Ht.
  apply Hpat; [lia|done|done|].
  destruct Ht as [Ht|Ht]; [by apply Hreset|by right].
Qed.

Lemma maybe_wait_ok (E : env) (s : session) :
  run_ok E s →
  ∃ s', maybe_wait E s = (Ok (), s') ∧ run_ok E s' ∧ sent s' = sent s.
Proof.
  intros Hs. assert (Hret := run_ok_pause E s Hs).
  apply maybe_wait_returns in Hret as [s' Hrun].
  destruct (maybe_wait_fields E s s' _ Hrun) as (Hr & Ht & Hsent & Hclock).
  exists s'. split; [done|]. split; [|done].
  destruct Hs as [Hok Hpat]. split.
  - unfold session_ok in *. by rewrite Hr, Ht.
  - apply (patient_step E s s' Hpat Hclock). intros t Ht'. left. congruence.
Qed.

(** [must_wait] is what the two tests of the code decide. *)
Lemma must_wait_test (s : session) (r t : Z) :
  rate_limit_remaining s = Some r → rate_limit_reset s = Some t →
  (r <? 5) && (t * 1000000 >? clock s) = true ↔ must_wait s.
Proof.
  intros Hr Ht. unfold must_wait. rewrite andb_true_iff, Z.ltb_lt, Z.gtb_gt.
  split.
  - intros [? ?]. exists r, t. repeat split; [done|lia|done|lia].
  - intros (r' & t' & Hr' & ? & Ht' & ?).
    rewrite Hr in Hr'. rewrite Ht in Ht'. simplify_eq. lia.
Qed.

Lemma maybe_wait_sleeps (E : env) (s : session) (r t : Z) :
  session_ok s = true →
  rate_limit_remaining s = Some r → rate_limit_reset s = Some t →
  must_wait s →
  maybe_wait E s = time_sleep E (t * 1000000 - clock s + 1000000) s.
Proof.
  intros Hok Hr Ht Hmust. rewrite (maybe_wait_run E s Hok), Hr, Ht.
  apply (must_wait_test s r t Hr Ht) in Hmust. by rewrite Hmust.
Qed.

Lemma maybe_wait_idle (E : env) (s : session) :
  session_ok s = true → ¬ must_wait s → maybe_wait E s = (Ok (), s).
Proof.
  intros Hok Hno. rewrite (maybe_wait_run E s Hok).
  destruct (rate_limit_remaining s) as [r|] eqn:Hr; [|done].
  destruct (rate_limit_reset s) as [t|] eqn:Ht; [|done].
  destruct ((r <? 5) && (t * 1000000 >? clock s)) eqn:Htest; [|done].
  exfalso. apply Hno. by apply (must_wait_test s r t Hr Ht).
Qed.

Lemma must_wait_or_not (s : session) : must_wait s ∨ ¬ must_wait s.
Proof.
  destruct (rate_limit_remaining s) as [r|] eqn:Hr.
  2:{ right. intros (? & ? & ? & _). congruence. }
  destruct (rate_limit_reset s) as [t|] eqn:Ht.
  2:{ right. intros (? & ? & _ & _ & ? & _). congruence. }
  rewrite <- (must_wait_test s r t Hr Ht).
  destruct ((r <? 5) && (t * 1000000 >? clock s)); [by left|by right].
Qed.

(** A pause that returns has slept exactly when it had to, until one
    second past the reset time. *)
Lemma maybe_wait_returned (E : env) (s s' : session) :
  maybe_wait E s = (Ok (), s') →
  (must_wait s
   ∧ ∃ t, rate_limit_reset s = Some t
          ∧ clock s' = t * 1000000 + 1000000
          ∧ slept s' = (t * 1000000 + 1000000 - clock s) :: slept s)
  ∨ (¬ must_wait s ∧ s' = s).
Proof.
  rewrite maybe_wait_cases.
  destruct (rate_limit_remaining s) as [r|] eqn:Hr.
  2:{ intros [= <-]. right. split; [|done].
      intros (? & ? & ? & _). congruence. }
  destruct (Z.ltb_spec r 5) as [Hlow|Hhigh].
  2:{ intros [= <-]. right. split; [|done].
      intros (r' & ? & Hr' & ? & _). simplify_eq. lia. }
  destruct (fromtimestamp (rate_limit_reset s)) as [reset_time| |]
    eqn:Hreset; [|done..].
  destruct (fromtimestamp_returns _ _ Hreset) as (t & Ht & Hrange & ->).
  destruct (Z.gtb_spec (t * 1000000) (clock s)) as [Hahead|Hpast].
  - destruct (time_sleep_cases E (t * 1000000 - clock s + 1000000) s)
      as [(e & _ & ->) | (_ & s1 & -> & _ & _ & Hc & _ & Hsl)]; [done|].
    intros [= <-]. left. split; [by exists r, t|].
    exists t. split; [done|]. split; [lia|]. rewrite Hsl. f_equal. lia.
  - intros [= <-]. right. split; [|done].
    intros (? & t' & _ & _ & Ht' & ?). simplify_eq. lia.
Qed.

(** A pause that raises has done nothing, and the quota was low. *)
Lemma maybe_wait_raised (E : env) (s s' : session) (e : exn) :
  maybe_wait E s = (Raise e, s') →
  s' = s ∧ ∃ r, rate_limit_remaining s = Some r ∧ r < 5.
Proof.
  rewrite maybe_wait_cases.
  destruct (rate_limit_remaining s) as [r|] eqn:Hr; [|done].
  destruct (Z.ltb_spec r 5) as [Hlow|Hhigh]; [|done].
  assert (Hlow' : ∃ r', Some r = Some r' ∧ r' < 5) by (by exists r).
  destruct (fromtimestamp (rate_limit_reset s)) as [reset_time| |];
    [|by intros [= _ <-]|done].
  destruct (reset_time >? clock s); [|done].
  destruct (time_sleep_cases E (reset_time - clock s + 1000000) s)
    as [(e' & _ & ->) | (_ & s1 & -> & _)]; [by intros [= _ <-]|done].
Qed.

Lemma maybe_wait_fuel (E : env) (s : session) : (maybe_wait E s).1 ≠ OutOfFuel.
Proof.
  rewrite maybe_wait_cases.
  destruct (rate_limit_remaining s) as [r|]; [|done].
  destruct (r <? 5); [|done].
  destruct (fromtimestamp (rate_limit_reset s)) as [reset_time| |]
    eqn:Hreset; [|done|by apply fromtimestamp_fuel in Hreset].
  destruct (reset_time >? clock s); [|done].
  by destruct (time_sleep_cases E (reset_time - clock s + 1000000) s)
    as [(e' & _ & ->) | (_ & s1 & -> & _)].
Qed.

(** C6, as the code has it.  Before a request [maybe_wait] does one of
    three things, whatever the rate state.  It returns exactly when the
    remaining quota is unknown or at least 5, or the reset time is a date
    that is not ahead of the clock, or is a date ahead of the clock and the
    platform grants the wait.  When it returns, it has slept exactly when
    the quota is known and below 5 and the reset time is ahead; the sleep
    ends one second after the reset time (with 3 requests left and the
    reset 10 seconds ahead the clock moves on by 11 seconds); otherwise the
    session is untouched; and the request of [_make_request] is sent from
    the session the pause leaves.  In every other state (a quota below 5
    with a reset time that is unknown or no date, or with a wait that
    [time.sleep] refuses) it raises: nothing is slept and the request is
    not sent. *)
Theorem maybe_wait_suspends_iff (E : env) (s : session) (endpoint : string)
    (params : option (list (string * json))) :
  ((∃ s', maybe_wait E s = (Ok (), s')) ↔ pause_returns E s)
  ∧ (∀ s', maybe_wait E s = (Ok (), s') →
       (slept s' ≠ slept s ↔ must_wait s)
       ∧ (must_wait s →
            ∃ t, rate_limit_reset s = Some t
                 ∧ clock s' = t * 1000000 + 1000000
                 ∧ slept s' = (clock s' - clock s) :: slept s)
       ∧ (¬ must_wait s → s' = s)
       ∧ (∀ t, rate_limit_remaining s = Some 3 → rate_limit_reset s = Some t →
               t * 1000000 = clock s + 10 * 1000000 →
               clock s' = clock s + 11 * 1000000)
       ∧ _make_request E endpoint params s
         = send_request E {| endpoint := endpoint; params := params |} s')
  ∧ (∀ e s', maybe_wait E s = (Raise e, s') →
       s' = s
       ∧ (∃ r, rate_limit_remaining s = Some r ∧ r < 5)
       ∧ _make_request E endpoint params s = (Raise e, s))
  ∧ (maybe_wait E s).1 ≠ OutOfFuel.
Proof.
  split; [apply maybe_wait_returns|].
  split; [|split; [|apply maybe_wait_fuel]].
  - intros s' Hrun.
    assert (Hreq : _make_request E endpoint params s
              = send_request E {| endpoint := endpoint; params := params |} s').
    { unfold _make_request. py_unfold. by rewrite Hrun. }
    destruct (maybe_wait_returned E s s' Hrun)
      as [(Hmust & t & Ht & Hclock & Hslept) | (Hno & ->)].
    + split.
      { split; [done|]. intros _ Heq. rewrite Hslept in Heq.
        apply (f_equal length) in Heq. simpl in Heq. lia. }
      split.
      { intros _. exists t. split; [done|]. split; [done|].
        rewrite Hslept. f_equal. lia. }
      split; [done|]. split; [|done].
      intros t' _ Ht' Hgap. simplify_eq. lia.
    + split; [tauto|]. split; [tauto|]. split; [done|]. split; [|done].
      intros t H3 Ht Hgap. exfalso. apply Hno. exists 3, t.
      split; [done|]. split; [lia|]. split; [done|lia].
  - intros e s' Hrun.
    destruct (maybe_wait_raised E s s' e Hrun) as [-> Hlow].
    split; [done|]. split; [done|].
    unfold _make_request. py_unfold. by rewrite Hrun.
Qed.

(** C6, at a session with 3 requests left and the reset 10 seconds ahead:
    the pause is taken and lasts 11 seconds. *)
Lemma maybe_wait_suspends_iff_witness :
  ∃ s', maybe_wait empty_world low_quota_session = (Ok (), s')
        ∧ clock s' = clock low_quota_session + 11 * 1000000.
Proof.
  destruct (maybe_wait_suspends_iff empty_world low_quota_session "users/u"
              None) as (Hreturns & Hreturned & _).
  destruct (proj2 Hreturns) as [s' Hrun].
  { intros r Hr _. exists 1700000010. by repeat split. }
  exists s'. split; [exact Hrun|].
  destruct (Hreturned s' Hrun) as (_ & _ & _ & Hgap & _).
  by apply (Hgap 1700000010).
Defined.

(** C6 as worded fails in a state a run reaches.  A server announces 3
    remaining requests and a reset time in the year 10000; the first
    request stores both, and before the second request the quota is below
    5 and the reset time is ahead, yet the pause does not suspend until
    one second past it: [fromtimestamp] raises. *)
Lemma far_reset_breaks_pause :
  ¬ pauses_as_specified far_world
      (_make_request far_world "users/u" None fresh_session).2.
Proof.
  intros [Hwait _].
  destruct Hwait as (t & s' & _ & Hrun & _).
  - exists 3, 253402300800. by repeat split.
  - vm_compute in Hrun. discriminate Hrun.
Qed.

(** ** The example worlds *)

Lemma plain_patient (E : env) (s : session) :
  py_sleep E = plain_sleep → 0 ≤ clock s →
  (∀ t, rate_limit_reset s = Some t ∨ announced E t → t ≤ 9000000000) →
  patient E s.
Proof.
  intros Hsleep Hclock Hbound now t Hnow Hahead _ Ht.
  rewrite Hsleep. unfold plain_sleep. specialize (Hbound t Ht).
  destruct (Z.ltb_spec (t * 1000000 - now + 1000000) 0); [lia|].
  destruct (Z.leb_spec (2 ^ 63) (1000 * (t * 1000000 - now + 1000000)))
    as [Hbig|]; [|done].
  change (2 ^ 63) with 9223372036854775808 in Hbig. lia.
Qed.

Ltac announced_reset H :=
  destruct H as (q & r & Hq & Ht); revert Hq; cbn;
  repeat case_match; unfold ok_200, not_found; intros Hq; simplify_eq;
  vm_compute in Ht; by simplify_eq.

Lemma demo_announced (t : Z) : announced demo_world t → t = 1700003600.
Proof. intros H. unfold demo_world, demo_server in H. announced_reset H. Qed.

Lemma empty_announced (t : Z) : announced empty_world t → t = 1700003600.
Proof. intros H. unfold empty_world in H. announced_reset H. Qed.

Lemma flaky_announced (t : Z) : announced flaky_world t → t = 1700003600.
Proof. intros H. unfold flaky_world, flaky_server in H. announced_reset H. Qed.

Lemma paged_announced (t : Z) : announced paged_world t → t = 1700003600.
Proof. intros H. unfold paged_world, paged_server in H. announced_reset H. Qed.

Lemma odd_announced (t : Z) : announced odd_world t → t = 1700003600.
Proof. intros H. unfold odd_world, odd_server in H. announced_reset H. Qed.

Lemma tie_announced (t : Z) : announced tie_world t → t = 1700003600.
Proof. intros H. unfold tie_world, tie_server in H. announced_reset H. Qed.


(** In these worlds a run that starts after 1970 with a reset time of this
    era, if any, is a run the platform is patient with. *)
Lemma world_patient (E : env) (s : session) (reset : Z) :
  py_sleep E = plain_sleep →
  (∀ t, announced E t → t = reset) → reset ≤ 9000000000 →
  0 ≤ clock s →
  (∀ t, rate_limit_reset s = Some t → t ≤ 9000000000) →
  patient E s.
Proof.
  intros Hsleep Hann Hreset Hclock Hs.
  apply plain_patient; [done|done|].
  intros t [Ht|Ht]; [by apply Hs|]. apply Hann in Ht. lia.
Qed.

Lemma demo_run_ok : run_ok demo_world fresh_session.
Proof.
  split; [reflexivity|].
  apply (world_patient _ _ 1700003600); [done|apply demo_announced|done..].
Qed.

Lemma empty_run_ok : run_ok empty_world fresh_session.
Proof.
  split; [reflexivity|].
  apply (world_patient _ _ 1700003600); [done|apply empty_announced|done..].
Qed.

Lemma flaky_run_ok : run_ok flaky_world fresh_session.
Proof.
  split; [reflexivity|].
  apply (world_patient _ _ 1700003600); [done|apply flaky_announced|done..].
Qed.

Lemma paged_run_ok : run_ok paged_world fresh_session.
Proof.
  split; [reflexivity|].
  apply (world_patient _ _ 1700003600); [done|apply paged_announced|done..].
Qed.

Lemma odd_run_ok : run_ok odd_world fresh_session.
Proof.
  split; [reflexivity|].
  apply (world_patient _ _ 1700003600); [done|apply odd_announced|done..].
Qed.

Lemma tie_run_ok : run_ok tie_world fresh_session.
Proof.
  split; [reflexivity|].
  apply (world_patient _ _ 1700003600); [done|apply tie_announced|done..].
Qed.


Lemma odd_new_run_ok : run_ok odd_world (new_analyzer 1700000000000000).
Proof.
  split; [reflexivity|].
  apply (world_patient _ _ 1700003600); [done|apply odd_announced|done..].
Qed.

(** ** The header assignments *)

Section Headers.

Variable E : env.

Lemma header_int_absent : header_int E None = Ok 0.
Proof. reflexivity. Qed.

Lemma header_int_malformed (h : option string) :
  malformed E h → header_int E h = Raise ValueError.
Proof. intros (text & -> & Hno). unfold header_int. by rewrite Hno. Qed.

Lemma header_int_usable (h : option string) :
  ¬ malformed E h → ∃ z, header_int E h = Ok z.
Proof.
  intros Hno. destruct h as [text|]; [|by exists 0].
  unfold header_int. destruct (py_int E text) as [z|] eqn:Hz; [by exists z|].
  exfalso. apply Hno. by exists text.
Qed.

(** A malformed header stops [observe] with [ValueError] (the conversion is
    not caught by [_make_request]). *)
Lemma observe_malformed_raises (r : response) (s : session) :
  malformed E (x_ratelimit_remaining r)
  ∨ malformed E (x_ratelimit_reset r) ∧ ¬ malformed E (x_ratelimit_remaining r) →
  (observe E r s).1 = Raise ValueError.
Proof.
  unfold observe. py_unfold. intros [Hm | [Hm Hu]].
  - by rewrite (header_int_malformed _ Hm).
  - destruct (header_int_usable _ Hu) as [z ->].
    by rewrite (header_int_malformed _ Hm).
Qed.

End Headers.

(** C3, as the code has it.  An absent header sets its field to 0 (so with
    both absent [remaining] is 0 and [reset_at] is 0, the epoch); a malformed
    header keeps the previous value of its field, and a malformed
    remaining-header keeps both fields; the clock and the logs are never
    touched. *)
Theorem observe_fields (E : env) (r : response) (s : session) :
  let s' := (observe E r s).2 in
  (x_ratelimit_remaining r = None → rate_limit_remaining s' = Some 0)
  ∧ (malformed E (x_ratelimit_remaining r) →
       rate_limit_remaining s' = rate_limit_remaining s
       ∧ rate_limit_reset s' = rate_limit_reset s)
  ∧ (¬ malformed E (x_ratelimit_remaining r) →
       x_ratelimit_reset r = None → rate_limit_reset s' = Some 0)
  ∧ (¬ malformed E (x_ratelimit_remaining r) →
       malformed E (x_ratelimit_reset r) →
       rate_limit_reset s' = rate_limit_reset s)
  ∧ clock s' = clock s ∧ sent s' = sent s ∧ slept s' = slept s.
Proof.
  unfold observe. py_unfold. cbv zeta.
  split.
  { intros ->. simpl.
    by destruct (header_int E (x_ratelimit_reset r)). }
  split.
  { intros Hm. by rewrite (header_int_malformed E _ Hm). }
  split.
  { intros Hu ->. by destruct (header_int_usable E _ Hu) as [z ->]. }
  split.
  { intros Hu Hm. destruct (header_int_usable E _ Hu) as [z ->].
    by rewrite (header_int_malformed E _ Hm). }
  destruct (header_int E (x_ratelimit_remaining r)); try done.
  by destruct (header_int E (x_ratelimit_reset r)).
Qed.

(** C3 at a response without rate-limit headers: both fields become 0. *)
Lemma observe_fields_witness :
  rate_limit_remaining (observe empty_world bare_response busy_session).2 = Some 0
  ∧ rate_limit_reset (observe empty_world bare_response busy_session).2 = Some 0.
Proof.
  destruct (observe_fields empty_world bare_response busy_session)
    as (Hrem & _ & Hreset & _).
  split; [by apply Hrem|].
  apply Hreset; [|done]. intros (text & Habs & _). discriminate Habs.
Defined.

(** C3 as worded fails on a response without rate-limit headers: the known
    quota 42 is overwritten with 0 instead of being kept. *)
Lemma observe_overwrites_absent :
  ¬ keeps_unusable_fields empty_world bare_response busy_session.
Proof.
  intros [_ Hkeep].
  destruct Hkeep as [Hrem _].
  - intros [(text & Habs & _) _]. discriminate Habs.
  - specialize (Hrem (or_introl eq_refl)). vm_compute in Hrem. discriminate Hrem.
Qed.

(** ** The request executor *)

(** The [try] block never touches the clock or the sleep log, and it logs
    its request. *)
Lemma send_request_fields (E : env) (q : request) (s : session) :
  clock (send_request E q s).2 = clock s
  ∧ slept (send_request E q s).2 = slept s
  ∧ sent (send_request E q s).2 = q :: sent s.
Proof.
  unfold send_request, observe. py_unfold. simpl.
  destruct (http E q) as [|r]; [done|].
  destruct (header_int E (x_ratelimit_remaining r)); simpl; try done.
  destruct (header_int E (x_ratelimit_reset r)); simpl; try done.
  by destruct (status_code r =? 200).
Qed.

Section RequestExecutor.

Variable E : env.

(** Within the contract the two assignments succeed and leave a date. *)
Lemma observe_ok (r : response) (s : session) :
  response_ok E r = true →
  ∃ a t, observe E r s = (Ok (), set_reset t (set_remaining a s))
         ∧ in_range t = true.
Proof.
  unfold response_ok, observe. py_unfold.
  destruct (header_int E (x_ratelimit_remaining r)) as [a| |]; try done.
  destruct (header_int E (x_ratelimit_reset r)) as [t| |]; try done.
  intros Ht. by exists a, t.
Qed.

Lemma send_request_ok (q : request) (s : session) :
  run_ok E s → outcome_ok E (http E q) = true →
  ∃ s', send_request E q s = (Ok (payload (http E q)), s')
        ∧ run_ok E s' ∧ sent s' = q :: sent s.
Proof.
  intros [Hs Hpat] Ho. unfold send_request, payload. py_unfold.
  destruct (http E q) as [|r] eqn:Hq; simpl in *.
  - eexists. split; [reflexivity|]. split; [|done]. split; [done|].
    by apply (patient_step E s); [| |left].
  - destruct (observe_ok r (record_request q s) Ho) as (a & t & Hobs & Ht).
    assert (Hannounced : announced E t).
    { exists q, r. split; [done|]. revert Hobs. unfold observe. py_unfold.
      destruct (header_int E (x_ratelimit_remaining r)); simpl; [|done..].
      destruct (header_int E (x_ratelimit_reset r)); simpl; [|done..].
      intros Heq. by simplify_eq. }
    rewrite Hobs.
    eexists. split; [by destruct (status_code r =? 200)|].
    split; [|done]. split; [unfold session_ok; by simpl|].
    apply (patient_step E s); [done|simpl; lia|].
    intros t' [= <-]. by right.
Qed.

(** [_make_request] in a run within the contract: no exception, the payload
    of the outcome, one more request in the log. *)
Lemma make_request_ok (endpoint : string)
    (params : option (list (string * json))) (s : session) :
  let q := {| endpoint := endpoint; params := params |} in
  run_ok E s → outcome_ok E (http E q) = true →
  ∃ s', _make_request E endpoint params s = (Ok (payload (http E q)), s')
        ∧ run_ok E s' ∧ sent s' = q :: sent s.
Proof.
  intros q Hs Ho.
  destruct (maybe_wait_ok E s Hs) as (s1 & Hw & Hs1 & Hsent1).
  destruct (send_request_ok q s1 Hs1 Ho) as (s2 & Hsend & Hs2 & Hsent2).
  exists s2. split; [|split; [done|congruence]].
  unfold _make_request. py_unfold. by rewrite Hw.
Qed.

Lemma fetch_ok (endpoint : string)
    (params : option (list (string * json))) (j : json) (s : session) :
  run_ok E s →
  fetches E {| endpoint := endpoint; params := params |} j →
  ∃ s', _make_request E endpoint params s = (Ok j, s')
        ∧ run_ok E s'
        ∧ sent s' = {| endpoint := endpoint; params := params |} :: sent s.
Proof.
  intros Hs [Ho <-]. by apply make_request_ok.
Qed.

(** One request within the contract, when the pause before it returns. *)
Lemma fetch_once (endpoint : string)
    (params : option (list (string * json))) (j : json) (s : session) :
  pause_returns E s →
  fetches E {| endpoint := endpoint; params := params |} j →
  ∃ s', _make_request E endpoint params s = (Ok j, s')
        ∧ sent s' = {| endpoint := endpoint; params := params |} :: sent s.
Proof.
  intros Hs [Ho <-].
  destruct (maybe_wait_frame E s Hs) as (s1 & Hw & _ & _ & Hsent).
  set (q := {| endpoint := endpoint; params := params |}) in *.
  assert (Hsend : ∃ s', send_request E q s1 = (Ok (payload (http E q)), s')).
  { unfold send_request, payload. py_unfold.
    destruct (http E q) as [|r]; simpl in *; [by eexists|].
    destruct (observe_ok r (record_request q s1) Ho) as (a & t & -> & _).
    eexists. by destruct (status_code r =? 200). }
  destruct Hsend as [s' Hsend]. exists s'. split.
  - unfold _make_request. py_unfold. by rewrite Hw.
  - destruct (send_request_fields E q s1) as (_ & _ & Hlog).
    rewrite Hsend in Hlog. simpl in Hlog. by rewrite Hlog, Hsent.
Qed.

(** Outside the contract: a remaining-header that is no integer makes
    [_make_request] raise, whatever the status. *)
Lemma make_request_malformed_raises (endpoint : string)
    (params : option (list (string * json))) (r : response) (s : session) :
  pause_returns E s →
  http E {| endpoint := endpoint; params := params |} = Response r →
  malformed E (x_ratelimit_remaining r) →
  (_make_request E endpoint params s).1 = Raise ValueError.
Proof.
  intros Hs Hr Hm.
  destruct (maybe_wait_frame E s Hs) as (s1 & Hw & _).
  unfold _make_request, send_request, observe. py_unfold.
  rewrite Hw, Hr. simpl. by rewrite (header_int_malformed E _ Hm).
Qed.

Lemma get_repo_languages_ok (fn : json) (s : session) :
  run_ok E s →
  outcome_ok E (http E (languages_request E fn)) = true →
  ∃ s', get_repo_languages E fn s
        = (Ok (py_or (payload (http E (languages_request E fn))) (JObj [])), s')
        ∧ run_ok E s'
        ∧ sent s' = languages_request E fn :: sent s.
Proof.
  intros Hs Ho.
  destruct (make_request_ok _ None s Hs Ho) as (s' & Hrun & Hs' & Hsent).
  exists s'. split; [|done].
  unfold get_repo_languages. by rewrite (bind_ok _ _ _ _ _ Hrun).
Qed.

Lemma get_commit_activity_ok (fn : json) (s : session) :
  run_ok E s →
  outcome_ok E (http E (commit_activity_request E fn)) = true →
  ∃ s', get_commit_activity E fn s
        = (Ok (py_or (payload (http E (commit_activity_request E fn)))
                 (JList [])), s')
        ∧ run_ok E s'
        ∧ sent s' = commit_activity_request E fn :: sent s.
Proof.
  intros Hs Ho.
  destruct (make_request_ok _ None s Hs Ho) as (s' & Hrun & Hs' & Hsent).
  exists s'. split; [|done].
  unfold get_commit_activity. by rewrite (bind_ok _ _ _ _ _ Hrun).
Qed.

End RequestExecutor.

(** ** The crawler *)

Lemma truthy_list (p : list json) : truthy (JList p) = true ↔ p ≠ [].
Proof. by destruct p. Qed.

Section Crawler.

Variable E : env.
Variable username : string.

(** One turn of the loop, once the page request has been answered. *)
Lemma crawl_turn (c : copy) (fuel : nat) (page : Z) (all_repos : list json)
    (j : json) (s : session) :
  run_ok E s →
  fetches E (repos_request username page) j →
  ∃ s', get_user_repos_from E c (S fuel) username page all_repos s
        = (if negb (truthy j) || negb (is_list j) then mret all_repos
           else match c with
                | Terminal =>
                    if negb (truthy j) then mret all_repos
                    else get_user_repos_from E c fuel username (page + 1)
                           (all_repos ++ elements j)
                | Dashboard =>
                    if Z.of_nat (length (elements j)) <? 100
                    then mret (all_repos ++ elements j)
                    else get_user_repos_from E c fuel username (page + 1)
                           (all_repos ++ elements j)
                end) s'
        ∧ run_ok E s'
        ∧ sent s' = repos_request username page :: sent s.
Proof.
  intros Hs Hq.
  destruct (fetch_ok E _ _ j s Hs Hq) as (s' & Hrun & Hs' & Hsent).
  exists s'. split; [|done].
  cbn [get_user_repos_from]. by rewrite (bind_ok _ _ _ _ _ Hrun).
Qed.

(** A page that is falsy or no list ends the crawl with what was gathered;
    a failed request is such a page. *)
Lemma crawl_stop (c : copy) (fuel : nat) (page : Z) (all_repos : list json)
    (j : json) (s : session) :
  run_ok E s →
  fetches E (repos_request username page) j →
  truthy j = false ∨ is_list j = false →
  ∃ s', get_user_repos_from E c (S fuel) username page all_repos s
        = (Ok all_repos, s')
        ∧ run_ok E s'
        ∧ sent s' = repos_request username page :: sent s.
Proof.
  intros Hs Hq Hj.
  destruct (crawl_turn c fuel page all_repos j s Hs Hq) as (s' & -> & Hrest).
  exists s'. split; [|done].
  by destruct Hj as [-> | ->]; [|rewrite orb_true_r].
Qed.

(** A page that [continues] hands over to the next page number. *)
Lemma crawl_next (c : copy) (fuel : nat) (page : Z) (all_repos p : list json)
    (s : session) :
  run_ok E s →
  fetches E (repos_request username page) (JList p) →
  continues c p →
  ∃ s', get_user_repos_from E c (S fuel) username page all_repos s
        = get_user_repos_from E c fuel username (page + 1) (all_repos ++ p) s'
        ∧ run_ok E s'
        ∧ sent s' = repos_request username page :: sent s.
Proof.
  intros Hs Hq Hc.
  destruct (crawl_turn c fuel page all_repos _ s Hs Hq) as (s' & -> & Hrest).
  exists s'. split; [|done].
  assert (Htrue : truthy (JList p) = true).
  { apply truthy_list. destruct c, p; simpl in Hc; [done|done|lia|done]. }
  rewrite Htrue. cbn [negb orb is_list elements].
  destruct c; [reflexivity|]. simpl in Hc.
  destruct (Z.ltb_spec (Z.of_nat (length p)) 100); [lia | reflexivity].
Qed.

(** The dashboard crawler returns after a short page that is not empty. *)
Lemma crawl_short (fuel : nat) (page : Z) (all_repos p : list json)
    (s : session) :
  run_ok E s →
  fetches E (repos_request username page) (JList p) →
  p ≠ [] → (length p < 100)%nat →
  ∃ s', get_user_repos_from E Dashboard (S fuel) username page all_repos s
        = (Ok (all_repos ++ p), s')
        ∧ run_ok E s'
        ∧ sent s' = repos_request username page :: sent s.
Proof.
  intros Hs Hq Hp Hlen.
  destruct (crawl_turn Dashboard fuel page all_repos _ s Hs Hq)
    as (s' & -> & Hrest).
  exists s'. split; [|done].
  apply truthy_list in Hp. rewrite Hp. cbn [negb orb is_list elements].
  destruct (Z.ltb_spec (Z.of_nat (length p)) 100); [reflexivity | lia].
Qed.

(** Over a run of continuing pages the crawler gathers them in order. *)
Lemma crawl_pages (c : copy) (pages : list (list json)) :
  ∀ (fuel : nat) (page : Z) (all_repos : list json) (s : session),
    run_ok E s →
    serves E username page pages →
    Forall (continues c) pages →
    ∃ s', get_user_repos_from E c (length pages + fuel) username page
            all_repos s
          = get_user_repos_from E c fuel username
              (page + Z.of_nat (length pages)) (all_repos ++ concat pages) s'
          ∧ run_ok E s'
          ∧ sent s' = page_requests username page (length pages) ++ sent s.
Proof.
  induction pages as [|p pages IH]; intros fuel page all_repos s Hs Hserve Hc.
  - exists s. simpl. by rewrite Z.add_0_r, app_nil_r.
  - destruct Hserve as [Hp Hrest]. inversion Hc as [|? ? Hcp Hcrest]; subst.
    destruct (crawl_next c (length pages + fuel) page all_repos p s
                Hs Hp Hcp) as (s1 & Hrun1 & Hs1 & Hsent1).
    destruct (IH fuel (page + 1) (all_repos ++ p) s1 Hs1 Hrest Hcrest)
      as (s2 & Hrun2 & Hs2 & Hsent2).
    exists s2. split; [|split; [done|]].
    + change (length (p :: pages) + fuel)%nat with (S (length pages + fuel)).
      rewrite Hrun1, Hrun2.
      replace (page + 1 + Z.of_nat (length pages))
        with (page + Z.of_nat (length (p :: pages))) by (simpl length; lia).
      simpl concat. by rewrite app_assoc.
    + rewrite Hsent2, Hsent1. simpl. by rewrite <- app_assoc.
Qed.

End Crawler.

(** C4.  When the pages before some page request all make the crawler go
    on and that request fails (no response, or a status other than 200),
    [get_user_repos] of either copy returns, without an exception, exactly
    the concatenation of the earlier pages, and sends nothing after the
    failed request.  Responses keep the contract on the rate-limit
    headers. *)
Theorem crawl_stops_at_failure (E : env) (c : copy) (username : string)
    (pages : list (list json)) (fuel : nat) (s : session) :
  let q := repos_request username (1 + Z.of_nat (length pages)) in
  run_ok E s →
  serves E username 1 pages →
  Forall (continues c) pages →
  is_failure (http E q) = true →
  outcome_ok E (http E q) = true →
  (length pages < fuel)%nat →
  ∃ s', get_user_repos E c fuel username s = (Ok (concat pages), s')
        ∧ sent s' = q :: page_requests username 1 (length pages) ++ sent s.
Proof.
  intros q Hs Hserve Hc Hfail Hok Hfuel.
  destruct fuel as [|fuel]; [lia|].
  replace (S fuel) with (length pages + S (fuel - length pages))%nat by lia.
  unfold get_user_repos.
  destruct (crawl_pages E username c pages (S (fuel - length pages)) 1 [] s
              Hs Hserve Hc) as (s1 & Hrun1 & Hs1 & Hsent1).
  assert (Hq : fetches E q JNull).
  { split; [done|]. unfold payload. destruct (http E q) as [|r]; [done|].
    simpl in Hfail. by destruct (status_code r =? 200). }
  destruct (crawl_stop E username c (fuel - length pages)
              (1 + Z.of_nat (length pages)) (concat pages) JNull s1 Hs1 Hq
              (or_introl eq_refl)) as (s2 & Hrun2 & Hs2 & Hsent2).
  exists s2. split.
  - rewrite Hrun1. exact Hrun2.
  - rewrite Hsent2, Hsent1. reflexivity.
Qed.

(** C4 at a user whose first page is full and whose second page request
    breaks down: the dashboard crawler returns the 100 repositories. *)
Lemma crawl_stops_at_failure_witness :
  ∃ s', get_user_repos flaky_world Dashboard 3 "v" fresh_session
        = (Ok (concat [full_page]), s').
Proof.
  destruct (crawl_stops_at_failure flaky_world Dashboard "v" [full_page] 3
              fresh_session) as (s' & Hrun & _).
  - exact flaky_run_ok.
  - split; [|exact I]. split; reflexivity.
  - constructor; [|constructor]. vm_compute. lia.
  - reflexivity.
  - reflexivity.
  - simpl. lia.
  - by exists s'.
Defined.

Lemma full_pages_continue (c : copy) (full : list (list json)) :
  Forall (λ p, length p = 100%nat) full → Forall (continues c) full.
Proof.
  intros H. eapply Forall_impl; [exact H|].
  intros p Hp. simpl in Hp. destruct c; simpl.
  - by destruct p.
  - lia.
Qed.

Lemma serves_app (E : env) (username : string) (l1 l2 : list (list json)) :
  ∀ first, serves E username first (l1 ++ l2) →
    serves E username first l1
    ∧ serves E username (first + Z.of_nat (length l1)) l2.
Proof.
  induction l1 as [|p l1 IH]; intros first H.
  - simpl in *. by rewrite Z.add_0_r.
  - cbn [app serves] in H. destruct H as [Hp H].
    destruct (IH _ H) as [H1 H2]. split; [by split|].
    replace (first + Z.of_nat (length (p :: l1)))
      with (first + 1 + Z.of_nat (length l1)) by (simpl length; lia).
    exact H2.
Qed.

Lemma page_requests_last (username : string) (n : nat) :
  ∀ first, page_requests username first (n + 1)
           = repos_request username (first + Z.of_nat n)
             :: page_requests username first n.
Proof.
  induction n as [|n IH]; intros first.
  - simpl. by rewrite Z.add_0_r.
  - change (S n + 1)%nat with (S (n + 1)). cbn [page_requests].
    rewrite IH.
    replace (first + 1 + Z.of_nat n) with (first + Z.of_nat (S n)) by lia.
    reflexivity.
Qed.

(** C1, as the code has it.  After full pages of 100 and a last page of
    fewer than 100 entries, the dashboard crawler returns the concatenation
    of the pages in order and sends no request after the short page.  The
    terminal crawler does the same when the last page is empty; after a
    short page that is not empty it sends one more request, and returns
    the concatenation when that request yields a falsy value or no list
    (an empty page, a failure). *)
Theorem crawl_short_page (E : env) (username : string)
    (full : list (list json)) (last : list json) (fuel : nat) (s : session) :
  let n := (length full + 1)%nat in
  let all := concat (full ++ [last]) in
  run_ok E s →
  Forall (λ p, length p = 100%nat) full → (length last < 100)%nat →
  serves E username 1 (full ++ [last]) →
  (length full + 2 ≤ fuel)%nat →
  (∃ s', get_user_repos E Dashboard fuel username s = (Ok all, s')
         ∧ sent s' = page_requests username 1 n ++ sent s)
  ∧ (last = [] →
     ∃ s', get_user_repos E Terminal fuel username s = (Ok all, s')
           ∧ sent s' = page_requests username 1 n ++ sent s)
  ∧ (last ≠ [] →
     ∀ j, fetches E (repos_request username (1 + Z.of_nat n)) j →
          truthy j = false ∨ is_list j = false →
          ∃ s', get_user_repos E Terminal fuel username s = (Ok all, s')
                ∧ sent s' = page_requests username 1 (n + 1) ++ sent s).
Proof.
  intros n all Hs Hfull Hlast Hserve Hfuel. subst n all.
  destruct (serves_app E username full [last] 1 Hserve) as [Hsf [Hsl _]].
  rewrite concat_app. simpl concat. rewrite app_nil_r.
  assert (Hgo : ∀ c, ∃ s1,
            get_user_repos E c fuel username s
            = get_user_repos_from E c (fuel - length full) username
                (1 + Z.of_nat (length full)) (concat full) s1
            ∧ run_ok E s1
            ∧ sent s1 = page_requests username 1 (length full) ++ sent s).
  { intros c. unfold get_user_repos.
    remember (fuel - length full)%nat as k eqn:Hk.
    replace fuel with (length full + k)%nat by lia.
    apply (crawl_pages E username c full k 1 [] s Hs Hsf).
    by apply full_pages_continue. }
  destruct (fuel - length full)%nat as [|[|rest]] eqn:Hrest; [lia|lia|].
  assert (Hempty : ∀ c, last = [] →
            ∃ s', get_user_repos E c fuel username s
                  = (Ok (concat full ++ last), s')
                  ∧ sent s' = page_requests username 1 (length full + 1)
                              ++ sent s).
  { intros c ->. destruct (Hgo c) as (s1 & Hrun1 & Hs1 & Hsent1).
    destruct (crawl_stop E username c (S rest) _ (concat full) _ s1 Hs1 Hsl
                (or_introl eq_refl)) as (s2 & Hrun2 & _ & Hsent2).
    exists s2. rewrite Hrun1, Hrun2, app_nil_r. split; [done|].
    by rewrite Hsent2, Hsent1, page_requests_last. }
  split; [|split].
  - destruct last as [|x last']; [by apply Hempty|].
    destruct (Hgo Dashboard) as (s1 & Hrun1 & Hs1 & Hsent1).
    destruct (crawl_short E username (S rest) _ (concat full) (x :: last') s1
                Hs1 Hsl) as (s2 & Hrun2 & _ & Hsent2); [done|done|].
    exists s2. rewrite Hrun1, Hrun2. split; [done|].
    by rewrite Hsent2, Hsent1, page_requests_last.
  - by apply Hempty.
  - intros Hne j Hj Hstop.
    destruct (Hgo Terminal) as (s1 & Hrun1 & Hs1 & Hsent1).
    destruct (crawl_next E username Terminal (S rest) _ (concat full) last s1
                Hs1 Hsl Hne) as (s2 & Hrun2 & Hs2 & Hsent2).
    replace (1 + Z.of_nat (length full + 1))
      with (1 + Z.of_nat (length full) + 1) in Hj by lia.
    destruct (crawl_stop E username Terminal rest _ (concat full ++ last) j s2
                Hs2 Hj Hstop) as (s3 & Hrun3 & _ & Hsent3).
    exists s3. rewrite Hrun1, Hrun2, Hrun3. split; [done|].
    rewrite Hsent3, Hsent2, Hsent1.
    rewrite (page_requests_last username (length full + 1) 1).
    rewrite (page_requests_last username (length full) 1). simpl.
    by replace (1 + Z.of_nat (length full + 1))
         with (1 + Z.of_nat (length full) + 1) by lia.
Qed.

(** C1 at a user with one full page and a short second page: the dashboard
    crawler returns the 102 repositories after two requests. *)
Lemma crawl_short_page_witness :
  ∃ s', get_user_repos paged_world Dashboard 3 "w" fresh_session
        = (Ok (full_page ++ [repo_a; repo_b]), s')
        ∧ sent s' = [repos_request "w" 2; repos_request "w" 1].
Proof.
  destruct (crawl_short_page paged_world "w" [full_page] [repo_a; repo_b] 3
              fresh_session) as [(s' & Hrun & Hsent) _].
  - exact paged_run_ok.
  - constructor; [|constructor]. reflexivity.
  - simpl. lia.
  - repeat split; reflexivity.
  - simpl. lia.
  - exists s'. split; [|exact Hsent]. rewrite Hrun. reflexivity.
Defined.

(** C1 as worded fails for the terminal crawler: after the short page of
    two repositories it asks for page 2 as well. *)
Lemma terminal_asks_after_short_page :
  ¬ stops_after_short_page demo_world Terminal.
Proof.
  intros Hclaim.
  destruct (Hclaim "u" [] [repo_a; repo_b] fresh_session)
    as (fuel & s' & Hrun & Hsent).
  - exact demo_run_ok.
  - constructor.
  - simpl. lia.
  - repeat split; reflexivity.
  - destruct fuel as [|[|fuel]]; [discriminate Hrun | discriminate Hrun |].
    vm_compute in Hrun. injection Hrun as <-. discriminate Hsent.
Qed.

(** ** The folds on typed data *)

Lemma num_of_ok (j : json) (z : Z) : num_of j = Some z → py_num j = Ok z.
Proof. unfold num_of. destruct (py_num j); naive_solver. Qed.

Lemma items_of_keys (o : list (string * json)) :
  ∀ kvs, items_of o = Some kvs → kvs.*1 = o.*1.
Proof.
  induction o as [|[k j] o IH]; intros kvs H; simpl in H.
  - by simplify_eq.
  - destruct (num_of j) as [z|]; [|done].
    destruct (items_of o) as [kvs'|]; [|done].
    simplify_eq. simpl. f_equal. by apply IH.
Qed.

Lemma add_language_items_ok (o : list (string * json)) :
  ∀ kvs c, items_of o = Some kvs →
    add_language_items o c
    = Ok (foldl (λ c kv, counter_add c kv.1 kv.2) c kvs).
Proof.
  induction o as [|[k j] o IH]; intros kvs c H; simpl in H.
  - by simplify_eq.
  - destruct (num_of j) as [z|] eqn:Hz; [|done].
    destruct (items_of o) as [kvs'|] eqn:Ho; [|done].
    simplify_eq. simpl. rewrite (num_of_ok j z Hz). simpl. by apply IH.
Qed.

Lemma counter_get_merge (m1 m2 : gmap string Z) (k : string) :
  counter_get (merge_sum m1 m2) k = counter_get m1 k + counter_get m2 k.
Proof.
  unfold counter_get, merge_sum. rewrite lookup_union_with.
  destruct (m1 !! k), (m2 !! k); simpl; lia.
Qed.

(** Adding the pairs of a dict one by one is the elementwise sum with the
    dict. *)
Lemma fold_counter_merge (kvs : list (string * Z)) :
  ∀ c, NoDup kvs.*1 →
    foldl (λ c kv, counter_add c kv.1 kv.2) c kvs
    = merge_sum c (list_to_map kvs).
Proof.
  induction kvs as [|[k v] kvs IH]; intros c Hnd.
  - simpl. unfold merge_sum. apply map_eq. intros i.
    rewrite lookup_union_with, lookup_empty. by destruct (c !! i).
  - inversion Hnd as [|? ? Hk Hnd']; subst. simpl. rewrite (IH _ Hnd').
    apply map_eq. intros i. unfold merge_sum, counter_add, counter_get.
    rewrite !lookup_union_with.
    destruct (decide (i = k)) as [->|Hne].
    + rewrite !lookup_insert_eq.
      rewrite (not_elem_of_list_to_map_1 kvs k Hk).
      destruct (c !! k); simpl; f_equal; lia.
    + by rewrite !lookup_insert_ne.
Qed.

Lemma add_languages_ok (j : json) (m c : gmap string Z) :
  decode_languages j = Some m → add_languages j c = Ok (merge_sum c m).
Proof.
  unfold decode_languages, add_languages. destruct j as [| | | | |o]; try done.
  case_bool_decide as Hnd; [|done].
  destruct (items_of o) as [kvs|] eqn:Ho; [|done].
  intros [= <-]. simpl. rewrite (add_language_items_ok o kvs c Ho).
  f_equal. apply fold_counter_merge. by rewrite (items_of_keys o kvs Ho).
Qed.

Lemma day_abbr_label (i : nat) : (i < 7)%nat → day_abbr i = Ok (day_label i).
Proof.
  intros Hi. unfold day_label.
  do 7 (destruct i as [|i]; [reflexivity|]). lia.
Qed.

Lemma add_days_ok (ds : list json) :
  ∀ zs idx c, nums_of ds = Some zs → (idx + length zs ≤ 7)%nat →
    add_days idx ds c = Ok (tally_days idx zs c).
Proof.
  induction ds as [|j ds IH]; intros zs idx c H Hlen; simpl in H.
  - by simplify_eq.
  - destruct (num_of j) as [z|] eqn:Hz; [|done].
    destruct (nums_of ds) as [zs'|] eqn:Hds; [|done].
    simplify_eq. simpl in Hlen. simpl. rewrite (num_of_ok j z Hz). simpl.
    destruct (z >? 0).
    + rewrite day_abbr_label by lia. simpl. apply IH; [done|lia].
    + apply IH; [done|lia].
Qed.

Lemma add_weeks_ok (ws : list json) :
  ∀ weeks c, decode_week_list ws = Some weeks →
    add_weeks ws c = Ok (tally_weeks weeks c).
Proof.
  induction ws as [|w ws IH]; intros weeks c H; simpl in H.
  - by simplify_eq.
  - destruct (decode_week w) as [zs|] eqn:Hw; [|done].
    destruct (decode_week_list ws) as [weeks'|] eqn:Hws; [|done].
    simplify_eq. unfold decode_week in Hw.
    destruct w as [| | | | |o]; try done.
    cbn [add_weeks py_get]. simpl.
    destruct (default (JList []) (assoc "days" o)) as [| | | |ds|]; try done.
    destruct (nums_of ds) as [zs'|] eqn:Hds; [|done].
    case_bool_decide as Hlen; [|done]. simplify_eq. simpl.
    rewrite (add_days_ok ds zs 0%nat c Hds) by (simpl; lia). simpl.
    by apply IH.
Qed.

Lemma add_commit_activity_ok (j : json) (weeks : list (list Z))
    (c : gmap string Z) :
  decode_weeks j = Some weeks →
  add_commit_activity j c = Ok (tally_weeks weeks c).
Proof.
  unfold decode_weeks, add_commit_activity.
  destruct (truthy j); [|by intros [= <-]].
  destruct j as [| | | |ws|]; try done.
  intros H. simpl. by apply add_weeks_ok.
Qed.

(** ** The loop over the repositories *)

(** One pass of the loop body on a repository that reads as [d]: no
    exception, the two sub-resource requests, and [fold_data]. *)
Lemma analyze_repo_ok (E : env) (repo : json) (d : repo_data) (a : analysis)
    (s : session) :
  run_ok E s →
  read_repo E repo = Some d →
  ∃ s', analyze_repo E repo a s = (Ok (fold_data a d), s')
        ∧ run_ok E s'
        ∧ ∃ q1 q2, sent s' = q2 :: q1 :: sent s.
Proof.
  intros Hs Hread. unfold read_repo in Hread.
  destruct repo as [| | | | |o]; try done.
  destruct (assoc "full_name" o) as [fn|] eqn:Hfn; [|done].
  destruct (assoc "name" o) as [nm|] eqn:Hnm; [|done].
  destruct (assoc "stargazers_count" o) as [stj|] eqn:Hst; [|done].
  simpl in Hread.
  destruct (num_of stj) as [st|] eqn:Hstn; [|done].
  destruct (assoc "forks_count" o) as [fkj|] eqn:Hfk; [|done].
  simpl in Hread.
  destruct (num_of fkj) as [fk|] eqn:Hfkn; [|done].
  destruct (assoc "description" o) as [descr|] eqn:Hde; [|done].
  destruct (assoc "language" o) as [lang|] eqn:Hla; [|done].
  destruct (outcome_ok E (http E (languages_request E fn))) eqn:Hlo; [|done].
  destruct (outcome_ok E (http E (commit_activity_request E fn))) eqn:Hco;
    [|done].
  simpl in Hread.
  destruct (decode_languages _) as [langs|] eqn:Hlangs; [|done].
  destruct (decode_weeks _) as [weeks|] eqn:Hweeks; [|done].
  simplify_eq.
  destruct (get_repo_languages_ok E fn s Hs Hlo) as (s1 & Hrun1 & Hs1 & Hsent1).
  destruct (get_commit_activity_ok E fn s1 Hs1 Hco)
    as (s2 & Hrun2 & Hs2 & Hsent2).
  exists s2. split; [|split; [done|]].
  2:{ eexists _, _. by rewrite Hsent2, Hsent1. }
  unfold analyze_repo, py_getitem. rewrite Hfn, Hst, Hfk, Hnm, Hde, Hla.
  rewrite lift_ok, (bind_ok _ _ _ _ _ Hrun1).
  rewrite (add_languages_ok _ langs (languages a) Hlangs), lift_ok.
  rewrite (bind_ok _ _ _ _ _ Hrun2).
  rewrite (add_commit_activity_ok _ weeks (commit_days a) Hweeks), lift_ok.
  rewrite lift_ok, (num_of_ok _ _ Hstn), lift_ok.
  rewrite lift_ok, (num_of_ok _ _ Hfkn), lift_ok.
  unfold fold_data, entry_of. simpl.
  destruct (st >? 0); reflexivity.
Qed.

Lemma analyze_repos_ok (E : env) (repos : list json) (ds : list repo_data) :
  reads E repos ds →
  ∀ (a : analysis) (s : session),
    run_ok E s →
    ∃ s', analyze_repos E repos a s = (Ok (foldl fold_data a ds), s')
          ∧ run_ok E s'.
Proof.
  induction 1 as [|repo d repos ds Hread _ IH]; intros a s Hs.
  - by exists s.
  - destruct (analyze_repo_ok E repo d a s Hs Hread) as (s1 & Hrun1 & Hs1 & _).
    destruct (IH (fold_data a d) s1 Hs1) as (s2 & Hrun2 & Hs2).
    exists s2. split; [|done].
    cbn [analyze_repos]. by rewrite (bind_ok _ _ _ _ _ Hrun1).
Qed.

(** ** What the loop leaves in the analysis *)

Lemma fold_profile (ds : list repo_data) :
  ∀ a, profile (foldl fold_data a ds) = profile a.
Proof. induction ds as [|d ds IH]; intros a; [done|]. csimpl. by rewrite IH. Qed.

Lemma fold_languages (ds : list repo_data) :
  ∀ a, languages (foldl fold_data a ds)
       = foldl merge_sum (languages a) (d_langs <$> ds).
Proof. induction ds as [|d ds IH]; intros a; [done|]. csimpl. by rewrite IH. Qed.

Lemma fold_total_stars (ds : list repo_data) :
  ∀ a, total_stars (foldl fold_data a ds)
       = total_stars a + foldr Z.add 0 (d_stars <$> ds).
Proof.
  induction ds as [|d ds IH]; intros a; csimpl; [lia|]. rewrite IH. simpl. lia.
Qed.

Lemma fold_total_forks (ds : list repo_data) :
  ∀ a, total_forks (foldl fold_data a ds)
       = total_forks a + foldr Z.add 0 (d_forks <$> ds).
Proof.
  induction ds as [|d ds IH]; intros a; csimpl; [lia|]. rewrite IH. simpl. lia.
Qed.

Lemma fold_popular (ds : list repo_data) :
  ∀ a, popular_repos (foldl fold_data a ds) = popular_repos a ++ discovered ds.
Proof.
  unfold discovered.
  induction ds as [|d ds IH]; intros a; csimpl; [by rewrite app_nil_r|].
  rewrite IH. simpl. rewrite filter_cons.
  destruct (Z.gtb_spec (d_stars d) 0); case_decide; try lia.
  - by rewrite <- app_assoc.
  - done.
Qed.

(** ** Elementwise sums *)

Lemma merge_sum_comm (m1 m2 : gmap string Z) : merge_sum m1 m2 = merge_sum m2 m1.
Proof.
  apply map_eq. intros k. unfold merge_sum. rewrite !lookup_union_with.
  destruct (m1 !! k), (m2 !! k); simpl; f_equal; lia.
Qed.

Lemma merge_sum_assoc (m1 m2 m3 : gmap string Z) :
  merge_sum (merge_sum m1 m2) m3 = merge_sum m1 (merge_sum m2 m3).
Proof.
  apply map_eq. intros k. unfold merge_sum. rewrite !lookup_union_with.
  destruct (m1 !! k), (m2 !! k), (m3 !! k); simpl; f_equal; lia.
Qed.

Lemma foldl_merge_sum_perm (ms ms' : list (gmap string Z)) :
  ms ≡ₚ ms' → ∀ c, foldl merge_sum c ms = foldl merge_sum c ms'.
Proof.
  induction 1 as [|m ms ms' _ IH|m1 m2 ms|ms ms' ms'' _ IH1 _ IH2]; intros c.
  - done.
  - simpl. apply IH.
  - simpl. f_equal.
    rewrite !merge_sum_assoc. f_equal. apply merge_sum_comm.
  - by rewrite IH1.
Qed.

Lemma foldl_merge_sum_get (ds : list repo_data) (k : string) :
  ∀ c, counter_get (foldl merge_sum c (d_langs <$> ds)) k
       = counter_get c k + total_bytes k ds.
Proof.
  induction ds as [|d ds IH]; intros c; csimpl; [lia|].
  rewrite IH, counter_get_merge. lia.
Qed.

(** ** Reading is a function of the repository *)

Lemma reads_permutation (E : env) (repos repos' : list json) :
  repos ≡ₚ repos' →
  ∀ ds, reads E repos ds → ∃ ds', reads E repos' ds' ∧ ds ≡ₚ ds'.
Proof.
  unfold reads.
  induction 1 as [|r l l' _ IH|r1 r2 l|l l' l'' _ IH1 _ IH2]; intros ds Hds.
  - inversion Hds; subst. by exists [].
  - inversion Hds as [|? d ? ds0 Hd Hl]; subst.
    destruct (IH ds0 Hl) as (ds0' & Hl' & Hp).
    exists (d :: ds0'). split; [by constructor|by constructor].
  - inversion Hds as [|? d2 ? ds0 Hd2 Hl0]; subst.
    inversion Hl0 as [|? d1 ? ds1 Hd1 Hl1]; subst.
    exists (d1 :: d2 :: ds1). split; [by repeat constructor|by constructor].
  - destruct (IH1 ds Hds) as (ds1 & H1 & Hp1).
    destruct (IH2 ds1 H1) as (ds2 & H2 & Hp2).
    exists ds2. split; [done|by etrans].
Qed.

(** ** The final sort *)

Lemma insert_by_stars_perm (x : popular_repo) (l : list popular_repo) :
  insert_by_stars x l ≡ₚ x :: l.
Proof.
  induction l as [|y l IH]; simpl; [done|].
  destruct (stars y >? stars x); [|done].
  rewrite IH. apply Permutation_swap.
Qed.

Lemma sort_by_stars_perm (l : list popular_repo) : sort_by_stars l ≡ₚ l.
Proof.
  induction l as [|x l IH]; simpl; [done|].
  by rewrite insert_by_stars_perm, IH.
Qed.

Lemma insert_by_stars_sorted (x : popular_repo) (l : list popular_repo) :
  Sorted by_stars_desc l → Sorted by_stars_desc (insert_by_stars x l).
Proof.
  induction 1 as [|y l Hl IH Hhd]; simpl.
  - by repeat constructor.
  - destruct (Z.gtb_spec (stars y) (stars x)) as [Hgt|Hle].
    + constructor; [exact IH|].
      destruct l as [|z l]; simpl.
      * constructor. unfold by_stars_desc. lia.
      * inversion Hhd; subst.
        destruct (stars z >? stars x); constructor;
          unfold by_stars_desc in *; lia.
    + constructor; [by constructor|]. constructor. unfold by_stars_desc. lia.
Qed.

Lemma sort_by_stars_sorted (l : list popular_repo) :
  Sorted by_stars_desc (sort_by_stars l).
Proof.
  induction l as [|x l IH]; simpl; [constructor|].
  by apply insert_by_stars_sorted.
Qed.

(** Insertion puts the entry ahead of the entries with as many stars. *)
Lemma insert_by_stars_filter (n : Z) (x : popular_repo) (l : list popular_repo) :
  filter (λ e, stars e = n) (insert_by_stars x l)
  = filter (λ e, stars e = n) (x :: l).
Proof.
  induction l as [|y l IH]; simpl; [done|].
  destruct (Z.gtb_spec (stars y) (stars x)) as [Hgt|Hle]; [|done].
  rewrite (filter_cons _ y), IH, !filter_cons.
  repeat case_decide; try done. lia.
Qed.

Lemma sort_by_stars_stable (n : Z) (l : list popular_repo) :
  filter (λ e, stars e = n) (sort_by_stars l) = filter (λ e, stars e = n) l.
Proof.
  induction l as [|x l IH]; simpl; [done|].
  rewrite insert_by_stars_filter, !filter_cons, IH. done.
Qed.

(** A list sorted by stars is known from its entries of each star count:
    so the stable descending sort of a list is one list, whatever the
    algorithm ([list.sort] is Timsort, [sort_by_stars] inserts). *)
Lemma sorted_head_most (x : popular_repo) (l : list popular_repo) :
  Sorted by_stars_desc (x :: l) → ∀ y, y ∈ x :: l → stars y ≤ stars x.
Proof.
  intros Hs. apply Sorted_StronglySorted in Hs.
  2:{ intros a b c Hab Hbc. unfold by_stars_desc in *. lia. }
  inversion Hs as [|? ? _ Hall]; subst.
  intros y [->|Hy]%elem_of_cons; [lia|].
  rewrite Forall_forall in Hall. by apply Hall.
Qed.

Lemma sorted_by_filters (l1 : list popular_repo) :
  ∀ l2, Sorted by_stars_desc l1 → Sorted by_stars_desc l2 →
    (∀ n, filter (λ e, stars e = n) l1 = filter (λ e, stars e = n) l2) →
    l1 = l2.
Proof.
  induction l1 as [|x t1 IH]; intros l2 Hs1 Hs2 Hf.
  - destruct l2 as [|y t2]; [done|].
    specialize (Hf (stars y)). by rewrite filter_nil, filter_cons_True in Hf.
  - destruct l2 as [|y t2].
    { specialize (Hf (stars x)). by rewrite filter_nil, filter_cons_True in Hf. }
    assert (Hxy : stars x = stars y).
    { apply Z.le_antisymm.
      - apply (sorted_head_most y t2 Hs2).
        assert (Hin : x ∈ filter (λ e, stars e = stars x) (x :: t1)).
        { apply list_elem_of_filter. split; [done|left]. }
        rewrite Hf in Hin. by apply list_elem_of_filter in Hin as [_ ?].
      - apply (sorted_head_most x t1 Hs1).
        assert (Hin : y ∈ filter (λ e, stars e = stars y) (y :: t2)).
        { apply list_elem_of_filter. split; [done|left]. }
        rewrite <- Hf in Hin. by apply list_elem_of_filter in Hin as [_ ?]. }
    assert (Hhead := Hf (stars x)).
    rewrite filter_cons_True, (filter_cons_True _ y) in Hhead by done.
    injection Hhead as -> Htail.
    f_equal. apply IH.
    + by inversion Hs1.
    + by inversion Hs2.
    + intros n. destruct (decide (stars y = n)) as [<-|Hne]; [done|].
      specialize (Hf n). by rewrite !filter_cons_False in Hf.
Qed.

Lemma stable_sort_unique (l l' : list popular_repo) :
  Sorted by_stars_desc l' →
  (∀ n, filter (λ e, stars e = n) l' = filter (λ e, stars e = n) l) →
  l' = sort_by_stars l.
Proof.
  intros Hs Hf. apply sorted_by_filters; [done|apply sort_by_stars_sorted|].
  intros n. by rewrite Hf, sort_by_stars_stable.
Qed.

(** ** The whole analysis *)

Lemma make_user_info_dict (c : copy) (o : list (string * json)) :
  make_user_info c (JObj o) = Ok (profile_of c o).
Proof. by destruct c. Qed.

Lemma truthy_dict (o : list (string * json)) : o ≠ [] → truthy (JObj o) = true.
Proof. by destruct o. Qed.

(** A user whose repositories fit one short page. *)
Lemma crawls_one_page (E : env) (c : copy) (fuel : nat) (username : string)
    (repos : list json) :
  fetches E (repos_request username 1) (JList repos) →
  (length repos < 100)%nat →
  fetches E (repos_request username 2) (JList []) →
  (2 ≤ fuel)%nat →
  crawls E c fuel username repos.
Proof.
  intros H1 Hlen H2 Hfuel s Hs. unfold get_user_repos.
  destruct fuel as [|[|fuel]]; [lia|lia|].
  destruct repos as [|r repos].
  - destruct (crawl_stop E username c (S fuel) 1 [] _ s Hs H1
                (or_introl eq_refl)) as (s' & Hrun & Hs' & _).
    by exists s'.
  - destruct c.
    + destruct (crawl_next E username Terminal (S fuel) 1 [] (r :: repos) s
                  Hs H1) as (s1 & Hrun1 & Hs1 & _); [done|].
      destruct (crawl_stop E username Terminal fuel 2 (r :: repos) _ s1 Hs1 H2
                  (or_introl eq_refl)) as (s2 & Hrun2 & Hs2 & _).
      exists s2. by rewrite Hrun1.
    + destruct (crawl_short E username (S fuel) 1 [] (r :: repos) s Hs H1)
        as (s1 & Hrun1 & Hs1 & _); [done|done|].
      by exists s1.
Qed.

(** The analysis of a user whose profile is a dict, whose crawl returns
    and whose repositories read as typed data: it returns, and its result
    is the typed fold, sorted. *)
Lemma analysis_run (E : env) (c : copy) (fuel : nat) (username : string)
    (s : session) (o : list (string * json)) (repos : list json)
    (ds : list repo_data) :
  run_ok E s →
  fetches E (user_request username) (JObj o) → o ≠ [] →
  crawls E c fuel username repos →
  reads E repos ds →
  ∃ s', analyze_user_activity E c fuel username s
        = (Ok (Some (sort_popular
                       (foldl fold_data (init_analysis c (profile_of c o)) ds))),
           s').
Proof.
  intros Hs Hinfo Ho Hcrawl Hreads.
  destruct (fetch_ok E _ None _ s Hs Hinfo) as (s1 & Hrun1 & Hs1 & _).
  destruct (Hcrawl s1 Hs1) as (s2 & Hrun2 & Hs2).
  destruct (analyze_repos_ok E repos ds Hreads
              (init_analysis c (profile_of c o)) s2 Hs2) as (s3 & Hrun3 & _).
  exists s3. unfold analyze_user_activity, get_user_info.
  rewrite (bind_ok _ _ _ _ _ Hrun1), (truthy_dict o Ho). cbn [negb].
  rewrite (bind_ok _ _ _ _ _ Hrun2), make_user_info_dict, lift_ok.
  by rewrite (bind_ok _ _ _ _ _ Hrun3).
Qed.

(** The demo user, for the closed instances. *)
Lemma demo_crawls (c : copy) : crawls demo_world c 3 "u" [repo_a; repo_b].
Proof.
  apply crawls_one_page; [by split|simpl; lia|by split|lia].
Qed.

Lemma demo_reads : reads demo_world [repo_a; repo_b] [data_a; data_b].
Proof. repeat constructor; vm_compute; reflexivity. Qed.

Lemma demo_profile_fetched :
  fetches demo_world (user_request "u")
    (JObj [("login", JStr "u"); ("name", JNull); ("bio", JStr "hi");
           ("public_repos", JInt 2)]).
Proof. by split. Qed.

(** C5.  When the profile request fails (no response, or a status other
    than 200), [analyze_user_activity] returns the empty result without an
    exception and sends no request besides the profile request.  And the
    empty result comes from the profile fetch only: whenever the analysis
    returns it, the profile fetch had handed back a falsy value, and the
    session is the one that fetch left. *)
Theorem profile_failure_is_fatal (E : env) (c : copy) (fuel : nat)
    (username : string) (s : session) :
  (session_ok s = true →
   pause_returns E s →
   is_failure (http E (user_request username)) = true →
   outcome_ok E (http E (user_request username)) = true →
   ∃ s', analyze_user_activity E c fuel username s = (Ok None, s')
         ∧ sent s' = user_request username :: sent s)
  ∧ (∀ s', analyze_user_activity E c fuel username s = (Ok None, s') →
       ∃ j, get_user_info E username s = (Ok j, s') ∧ truthy j = false).
Proof.
  split.
  - intros _ Hs Hfail Hok.
    assert (Hq : fetches E (user_request username) JNull).
    { split; [done|]. unfold payload.
      destruct (http E (user_request username)) as [|r]; [done|].
      simpl in Hfail. by destruct (status_code r =? 200). }
    destruct (fetch_once E _ None _ s Hs Hq) as (s1 & Hrun1 & Hsent1).
    exists s1. split; [|done].
    unfold analyze_user_activity, get_user_info.
    by rewrite (bind_ok _ _ _ _ _ Hrun1).
  - intros s'. unfold analyze_user_activity. py_unfold.
    destruct (get_user_info E username s) as [[j| |] s1]; [|done|done].
    destruct (truthy j) eqn:Hj; simpl.
    + destruct (get_user_repos E c fuel username s1) as [[repos| |] s2];
        [|done|done].
      destruct (make_user_info c j) as [ui| |]; [|done|done].
      by destruct (analyze_repos E repos (init_analysis c ui) s2)
        as [[a| |] s3].
    + intros [= <-]. by exists j.
Qed.

(** C5 at a server that knows nobody: the analysis is empty after the one
    profile request. *)
Lemma profile_failure_is_fatal_witness :
  ∃ s', analyze_user_activity empty_world Terminal 3 "ghost" fresh_session
        = (Ok None, s')
        ∧ sent s' = [user_request "ghost"].
Proof.
  destruct (profile_failure_is_fatal empty_world Terminal 3 "ghost"
              fresh_session) as [Hfatal _].
  apply Hfatal; [reflexivity|by intros r Hr|reflexivity..].
Defined.

(** C7.  For every sequence of repositories the analysis folds, the final
    [popular_repos] is sorted descending by stars, holds exactly the
    entries of the repositories with stars, and lists the entries of each
    star count in the order their repositories were found. *)
Theorem popular_repos_sorted_stable (E : env) (c : copy) (fuel : nat)
    (username : string) (s : session) (o : list (string * json))
    (repos : list json) (ds : list repo_data) :
  run_ok E s →
  fetches E (user_request username) (JObj o) → o ≠ [] →
  crawls E c fuel username repos →
  reads E repos ds →
  ∃ a s', analyze_user_activity E c fuel username s = (Ok (Some a), s')
    ∧ StronglySorted by_stars_desc (popular_repos a)
    ∧ popular_repos a ≡ₚ discovered ds
    ∧ ∀ n, filter (λ e, stars e = n) (popular_repos a)
           = filter (λ e, stars e = n) (discovered ds).
Proof.
  intros Hs Hinfo Ho Hcrawl Hreads.
  destruct (analysis_run E c fuel username s o repos ds Hs Hinfo Ho Hcrawl
              Hreads) as (s' & Hrun).
  eexists _, s'. split; [exact Hrun|].
  cbn [sort_popular popular_repos]. rewrite fold_popular. simpl.
  split; [|split].
  - apply Sorted_StronglySorted; [|apply sort_by_stars_sorted].
    intros x y z Hxy Hyz. unfold by_stars_desc in *. lia.
  - apply sort_by_stars_perm.
  - intros n. apply sort_by_stars_stable.
Qed.

(** C7 at a user with repositories of 3, 7, 3 and no stars, found in this
    order: the entry with 7 stars comes first, the two entries with 3
    stars follow in the order they were found, and the repository without
    stars has no entry. *)
Lemma popular_repos_sorted_stable_witness :
  ∃ a s', analyze_user_activity tie_world Dashboard 3 "t" fresh_session
          = (Ok (Some a), s')
    ∧ StronglySorted by_stars_desc (popular_repos a)
    ∧ popular_repos a
      ≡ₚ [entry_of (plain_data "p" 3); entry_of (plain_data "q" 7);
          entry_of (plain_data "r" 3)]
    ∧ filter (λ e, stars e = 3) (popular_repos a)
      = [entry_of (plain_data "p" 3); entry_of (plain_data "r" 3)]
    ∧ popular_repos a
      = [entry_of (plain_data "q" 7); entry_of (plain_data "p" 3);
         entry_of (plain_data "r" 3)].
Proof.
  destruct (popular_repos_sorted_stable tie_world Dashboard 3 "t"
              fresh_session [("login", JStr "t")]
              [plain_repo "p" 3; plain_repo "q" 7; plain_repo "r" 3;
               plain_repo "s" 0]
              [plain_data "p" 3; plain_data "q" 7; plain_data "r" 3;
               plain_data "s" 0])
    as (a & s' & Hrun & Hsorted & Hperm & Hstable).
  - exact tie_run_ok.
  - by split.
  - done.
  - apply crawls_one_page; [by split|simpl; lia|by split|lia].
  - repeat constructor; vm_compute; reflexivity.
  - exists a, s'. split; [exact Hrun|]. split; [exact Hsorted|].
    split; [exact Hperm|]. split; [exact (Hstable 3)|].
    apply (stable_sort_unique
             [entry_of (plain_data "p" 3); entry_of (plain_data "q" 7);
              entry_of (plain_data "r" 3)]).
    + by apply StronglySorted_Sorted.
    + exact Hstable.
Defined.

(** C8.  After the loop has folded any list of repositories, the language
    tally is the elementwise sum of the repositories' byte-count mappings:
    key by key, and as a map; and folding the repositories in any other
    order gives the same tally. *)
Theorem language_tally_is_sum (E : env) (c : copy) (ui : user_info)
    (repos : list json) (ds : list repo_data) (s : session) :
  run_ok E s →
  reads E repos ds →
  ∃ a s', analyze_repos E repos (init_analysis c ui) s = (Ok a, s')
    ∧ (∀ k, counter_get (languages a) k = total_bytes k ds)
    ∧ languages a = foldl merge_sum ∅ (d_langs <$> ds)
    ∧ ∀ repos' s2, repos ≡ₚ repos' → run_ok E s2 →
        ∃ a' s2', analyze_repos E repos' (init_analysis c ui) s2
                  = (Ok a', s2')
                  ∧ languages a' = languages a.
Proof.
  intros Hs Hreads.
  destruct (analyze_repos_ok E repos ds Hreads (init_analysis c ui) s Hs)
    as (s' & Hrun & _).
  eexists _, s'. split; [exact Hrun|].
  rewrite fold_languages. cbn [init_analysis languages].
  split; [|split; [done|]].
  - intros k. rewrite foldl_merge_sum_get. unfold counter_get.
    rewrite lookup_empty. simpl. lia.
  - intros repos' s2 Hperm Hs2.
    destruct (reads_permutation E repos repos' Hperm ds Hreads)
      as (ds' & Hreads' & Hp).
    destruct (analyze_repos_ok E repos' ds' Hreads' (init_analysis c ui) s2
                Hs2) as (s2' & Hrun' & _).
    eexists _, s2'. split; [exact Hrun'|].
    rewrite fold_languages. cbn [init_analysis languages].
    symmetry. apply foldl_merge_sum_perm. by apply fmap_Permutation.
Qed.

(** C8 at the two demo repositories: 150 bytes of X, in either order. *)
Lemma language_tally_is_sum_witness :
  ∃ a s', analyze_repos demo_world [repo_a; repo_b]
            (init_analysis Terminal (profile_of Terminal [])) fresh_session
          = (Ok a, s')
    ∧ counter_get (languages a) "X" = 150
    ∧ ∃ a' s2', analyze_repos demo_world [repo_b; repo_a]
                  (init_analysis Terminal (profile_of Terminal []))
                  fresh_session
                = (Ok a', s2')
                ∧ languages a' = languages a.
Proof.
  destruct (language_tally_is_sum demo_world Terminal (profile_of Terminal [])
              [repo_a; repo_b] [data_a; data_b] fresh_session demo_run_ok
              demo_reads) as (a & s' & Hrun & Hsum & _ & Hperm).
  exists a, s'. split; [exact Hrun|]. split; [by rewrite Hsum|].
  apply Hperm; [apply Permutation_swap|exact demo_run_ok].
Defined.

(** C9.  A user with two repositories, A (10 stars, 2 forks, 100 bytes of
    X) and B (no stars, no forks, 50 bytes each of X and Y): the analysis
    returns with the language tally X:150, Y:50, 10 stars in total, 2 forks
    in total, and one popular entry, the one of A. *)
Theorem two_repositories_end_to_end (E : env) (c : copy) (fuel : nat)
    (username : string) (s : session) (o : list (string * json))
    (A B : json) (dA dB : repo_data) :
  run_ok E s →
  fetches E (user_request username) (JObj o) → o ≠ [] →
  crawls E c fuel username [A; B] →
  read_repo E A = Some dA → read_repo E B = Some dB →
  d_stars dA = 10 → d_forks dA = 2 → d_langs dA = {[ "X" := 100 ]} →
  d_stars dB = 0 → d_forks dB = 0 →
  d_langs dB = {[ "X" := 50; "Y" := 50 ]} →
  ∃ a s', analyze_user_activity E c fuel username s = (Ok (Some a), s')
    ∧ languages a = {[ "X" := 150; "Y" := 50 ]}
    ∧ total_stars a = 10
    ∧ total_forks a = 2
    ∧ popular_repos a = [entry_of dA].
Proof.
  intros Hs Hinfo Ho Hcrawl HA HB HsA HfA HlA HsB HfB HlB.
  assert (Hreads : reads E [A; B] [dA; dB]) by (by repeat constructor).
  destruct (analysis_run E c fuel username s o [A; B] [dA; dB] Hs Hinfo Ho
              Hcrawl Hreads) as (s' & Hrun).
  eexists _, s'. split; [exact Hrun|].
  cbn [sort_popular foldl fold_data init_analysis languages total_stars
       total_forks popular_repos].
  rewrite HsA, HfA, HlA, HsB, HfB, HlB.
  split; [|split; [|split]]; reflexivity.
Qed.

(** C9 at the demo user, for the terminal copy. *)
Lemma two_repositories_end_to_end_witness :
  ∃ a s', analyze_user_activity demo_world Terminal 3 "u" fresh_session
          = (Ok (Some a), s')
    ∧ languages a = {[ "X" := 150; "Y" := 50 ]}
    ∧ total_stars a = 10
    ∧ total_forks a = 2
    ∧ popular_repos a = [entry_of data_a].
Proof.
  apply (two_repositories_end_to_end demo_world Terminal 3 "u" fresh_session
           _ repo_a repo_b data_a data_b demo_run_ok demo_profile_fetched).
  - done.
  - apply demo_crawls.
  - vm_compute. reflexivity.
  - vm_compute. reflexivity.
  - reflexivity.
  - reflexivity.
  - reflexivity.
  - reflexivity.
  - reflexivity.
  - reflexivity.
Defined.

Lemma field_kept_default (o : list (string * json)) (f : string) :
  field_kept o f (default (JStr "N/A") (assoc f o)).
Proof.
  unfold field_kept. destruct (assoc f o) as [v|]; simpl.
  - repeat split; try done.
    + by intros x [= ->].
    + by intros [= ->].
    + intros ->. by right.
  - repeat split; try done. by left.
Qed.

(** C10.  The analysis of a user whose profile is a dict carries, for each
    of [name], [bio] and [location], the value stored in the profile when
    the key is present, so a present null stays null; ["N/A"] stands in
    only for an absent key. *)
Theorem null_profile_fields_kept (E : env) (c : copy) (fuel : nat)
    (username : string) (s : session) (o : list (string * json))
    (repos : list json) (ds : list repo_data) :
  run_ok E s →
  fetches E (user_request username) (JObj o) → o ≠ [] →
  crawls E c fuel username repos →
  reads E repos ds →
  ∃ a s', analyze_user_activity E c fuel username s = (Ok (Some a), s')
    ∧ field_kept o "name" (name (profile a))
    ∧ field_kept o "bio" (bio (profile a))
    ∧ field_kept o "location" (location (profile a)).
Proof.
  intros Hs Hinfo Ho Hcrawl Hreads.
  destruct (analysis_run E c fuel username s o repos ds Hs Hinfo Ho Hcrawl
              Hreads) as (s' & Hrun).
  eexists _, s'. split; [exact Hrun|].
  cbn [sort_popular profile]. rewrite fold_profile.
  cbn [init_analysis profile profile_of name bio location].
  repeat split; apply field_kept_default.
Qed.

(** C10 at the demo user, whose profile has a null [name] and no
    [location]. *)
Lemma null_profile_fields_kept_witness :
  ∃ a s', analyze_user_activity demo_world Dashboard 3 "u" fresh_session
          = (Ok (Some a), s')
    ∧ name (profile a) = JNull
    ∧ location (profile a) = JStr "N/A".
Proof.
  destruct (null_profile_fields_kept demo_world Dashboard 3 "u" fresh_session
              _ [repo_a; repo_b] [data_a; data_b] demo_run_ok demo_profile_fetched
              ltac:(done) (demo_crawls Dashboard) demo_reads)
    as (a & s' & Hrun & Hname & _ & Hloc).
  exists a, s'. split; [exact Hrun|]. split.
  - by apply Hname.
  - by apply Hloc.
Defined.

(** ** The weekday labels *)

(** The guard of the commit fold: a count that is not positive adds
    nothing, a positive count at an index below 7 adds itself under the
    label of [calendar.day_abbr]. *)
Lemma add_days_step (idx : nat) (z : Z) (rest : list json)
    (c : gmap string Z) :
  add_days idx (JInt z :: rest) c
  = if z >? 0
    then l ← day_abbr idx; add_days (S idx) rest (counter_add c l z)
    else add_days (S idx) rest c.
Proof. reflexivity. Qed.

(** C2, at a week with 5 commits on index 0, the API's Sunday: the fold
    counts them under ["Mon"], the first label of [calendar.day_abbr],
    whatever the tally held before. *)
Theorem sunday_commits_labelled_mon (c : gmap string Z) :
  add_commit_activity sunday_week c = Ok (counter_add c "Mon" 5)
  ∧ day_abbr 0 = Ok "Mon" ∧ day_abbr 6 = Ok "Sun".
Proof.
  split; [|split]; reflexivity.
Qed.

(** * Further properties *)

(** X1.  An empty first page ends the crawl of either copy at once: the
    result is the empty list, one request was sent, nothing is raised. *)
Theorem crawl_empty_page (E : env) (c : copy) (fuel : nat)
    (username : string) (s : session) :
  session_ok s = true →
  pause_returns E s →
  fetches E (repos_request username 1) (JList []) →
  (1 ≤ fuel)%nat →
  ∃ s', get_user_repos E c fuel username s = (Ok [], s')
        ∧ sent s' = repos_request username 1 :: sent s.
Proof.
  intros _ Hs Hq Hfuel. destruct fuel as [|fuel]; [lia|].
  destruct (fetch_once E _ _ _ s Hs Hq) as (s' & Hrun & Hsent).
  exists s'. split; [|done].
  unfold get_user_repos. cbn [get_user_repos_from].
  by rewrite (bind_ok _ _ _ _ _ Hrun).
Qed.

(** X1 at the user without repositories. *)
Lemma crawl_empty_page_witness :
  ∃ s', get_user_repos demo_world Terminal 1 "n" fresh_session = (Ok [], s')
        ∧ sent s' = [repos_request "n" 1].
Proof.
  apply (crawl_empty_page demo_world Terminal 1 "n" fresh_session eq_refl).
  - by intros r Hr.
  - by split.
  - lia.
Defined.

(** X2.  A response whose remaining-header is present and no integer makes
    [_make_request] raise [ValueError]: the conversion stands inside the
    [try] block, whose handler catches [RequestException] only.  The
    request is one that is made: the pause before it returns. *)
Theorem malformed_header_raises (E : env) (endpoint : string)
    (params : option (list (string * json))) (r : response) (s : session) :
  session_ok s = true →
  pause_returns E s →
  http E {| endpoint := endpoint; params := params |} = Response r →
  malformed E (x_ratelimit_remaining r) →
  (_make_request E endpoint params s).1 = Raise ValueError.
Proof. intros _. apply make_request_malformed_raises. Qed.

(** X2 at a server that sends the text "plenty". *)
Lemma malformed_header_raises_witness :
  (_make_request garbled_world "users/u" None fresh_session).1
  = Raise ValueError.
Proof.
  eapply (malformed_header_raises garbled_world "users/u" None _ fresh_session
            eq_refl).
  - intros a Ha. discriminate Ha.
  - reflexivity.
  - by exists "plenty".
Defined.

Lemma day_abbr_weekday (i : nat) (l : string) :
  day_abbr i = Ok l → l ∈ weekdays.
Proof.
  unfold weekdays.
  do 7 (destruct i as [|i]; [intros [= <-]; set_solver|]). done.
Qed.

Lemma grows_refl (c : gmap string Z) : grows c c.
Proof. by split. Qed.

Lemma grows_trans (c1 c2 c3 : gmap string Z) :
  grows c1 c2 → grows c2 c3 → grows c1 c3.
Proof.
  intros [H1 F1] [H2 F2]. split.
  - intros k. specialize (H1 k). specialize (H2 k). lia.
  - intros k Hk. by rewrite F2, F1.
Qed.

Lemma grows_add (c : gmap string Z) (l : string) (n : Z) :
  l ∈ weekdays → 0 < n → grows c (counter_add c l n).
Proof.
  intros Hl Hn. unfold grows, counter_add, counter_get. split.
  - intros k. destruct (decide (l = k)) as [->|Hne].
    + rewrite lookup_insert_eq. simpl. lia.
    + by rewrite lookup_insert_ne.
  - intros k Hk. rewrite lookup_insert_ne; [done|]. by intros ->.
Qed.

Lemma add_days_grows (ds : list json) :
  ∀ idx c c', add_days idx ds c = Ok c' → grows c c'.
Proof.
  induction ds as [|j ds IH]; intros idx c c' H; simpl in H.
  - injection H as <-. apply grows_refl.
  - destruct (py_num j) as [n| |]; simpl in H; [|done|done].
    destruct (Z.gtb_spec n 0) as [Hn|Hn].
    + destruct (day_abbr idx) as [l| |] eqn:Hl; simpl in H; [|done|done].
      eapply grows_trans; [|by eapply IH].
      apply grows_add; [by eapply day_abbr_weekday|lia].
    + by eapply IH.
Qed.

Lemma add_weeks_grows (ws : list json) :
  ∀ c c', add_weeks ws c = Ok c' → grows c c'.
Proof.
  induction ws as [|w ws IH]; intros c c' H; simpl in H.
  - injection H as <-. apply grows_refl.
  - destruct (py_get w "days" (JList [])) as [days| |]; simpl in H;
      [|done|done].
    destruct (py_iter days) as [ds| |]; simpl in H; [|done|done].
    destruct (add_days 0 ds c) as [c1| |] eqn:Hd; simpl in H; [|done|done].
    eapply grows_trans; [by eapply add_days_grows|by eapply IH].
Qed.

(** X3.  Whatever the commit-activity value, when the commit fold returns
    it has only raised counts, and only under the seven weekday labels; so
    a tally without negative counts stays so, and a tally that started
    empty has weekday keys only. *)
Theorem commit_days_weekdays (j : json) (c c' : gmap string Z) :
  add_commit_activity j c = Ok c' →
  (∀ k, counter_get c k ≤ counter_get c' k)
  ∧ (∀ k, k ∉ weekdays → c' !! k = c !! k)
  ∧ ((∀ k, 0 ≤ counter_get c k) → ∀ k, 0 ≤ counter_get c' k)
  ∧ (c = ∅ → ∀ k, is_Some (c' !! k) → k ∈ weekdays).
Proof.
  intros H.
  assert (Hg : grows c c').
  { unfold add_commit_activity in H. destruct (truthy j).
    - destruct (py_iter j) as [ws| |]; simpl in H; [|done|done].
      by eapply add_weeks_grows.
    - injection H as <-. apply grows_refl. }
  destruct Hg as [Hmono Hframe].
  split; [done|]. split; [done|]. split.
  - intros Hpos k. specialize (Hpos k). specialize (Hmono k). lia.
  - intros -> k [v Hv]. destruct (decide (k ∈ weekdays)) as [|Hout]; [done|].
    rewrite (Hframe k Hout), lookup_empty in Hv. done.
Qed.

(** X3 at the week of [sunday_week]: the one key of the tally is a
    weekday label. *)
Lemma commit_days_weekdays_witness :
  add_commit_activity sunday_week ∅ = Ok (counter_add ∅ "Mon" 5)
  ∧ "Mon" ∈ weekdays.
Proof.
  split; [reflexivity|].
  destruct (commit_days_weekdays sunday_week ∅ (counter_add ∅ "Mon" 5) eq_refl)
    as (_ & _ & _ & Hkeys).
  apply Hkeys; [reflexivity|]. by exists 5.
Defined.

Lemma failure_payload (o : outcome) : is_failure o = true → payload o = JNull.
Proof.
  destruct o as [|r]; [done|]. simpl. by destruct (status_code r =? 200).
Qed.

Lemma merge_sum_empty (c : gmap string Z) : merge_sum c ∅ = c.
Proof.
  apply map_eq. intros k. unfold merge_sum.
  rewrite lookup_union_with, lookup_empty. by destruct (c !! k).
Qed.

(** What [read_repo] has checked about the two sub-resources. *)
Lemma read_repo_subresources (E : env) (repo : json) (d : repo_data) :
  read_repo E repo = Some d →
  ∃ fn, py_getitem repo "full_name" = Ok fn
        ∧ decode_languages
            (py_or (payload (http E (languages_request E fn))) (JObj []))
          = Some (d_langs d)
        ∧ decode_weeks
            (py_or (payload (http E (commit_activity_request E fn)))
               (JList []))
          = Some (d_weeks d).
Proof.
  unfold read_repo, py_getitem. destruct repo as [| | | | |o]; try done.
  destruct (assoc "full_name" o) as [fn|]; [|done].
  destruct (assoc "name" o); [|done].
  destruct (assoc "stargazers_count" o ≫= num_of); [|done].
  destruct (assoc "forks_count" o ≫= num_of); [|done].
  destruct (assoc "description" o); [|done].
  destruct (assoc "language" o); [|done].
  destruct (outcome_ok E (http E (languages_request E fn))
            && outcome_ok E (http E (commit_activity_request E fn))); [|done].
  destruct (decode_languages _) as [langs|] eqn:Hlangs; [|done].
  destruct (decode_weeks _) as [weeks|] eqn:Hweeks; [|done].
  intros [= <-]. by exists fn.
Qed.

(** X4.  A repository whose languages and commit-activity requests both
    fail is folded all the same: the loop body returns, the two tallies
    are as before, and the stars and forks are added to the totals. *)
Theorem failed_subresources_add_nothing (E : env) (repo fn : json)
    (d : repo_data) (a : analysis) (s : session) :
  run_ok E s →
  read_repo E repo = Some d →
  py_getitem repo "full_name" = Ok fn →
  is_failure (http E (languages_request E fn)) = true →
  is_failure (http E (commit_activity_request E fn)) = true →
  ∃ a' s', analyze_repo E repo a s = (Ok a', s')
    ∧ languages a' = languages a
    ∧ commit_days a' = commit_days a
    ∧ total_stars a' = total_stars a + d_stars d
    ∧ total_forks a' = total_forks a + d_forks d.
Proof.
  intros Hs Hread Hfn Hl Hc.
  destruct (analyze_repo_ok E repo d a s Hs Hread) as (s' & Hrun & _).
  destruct (read_repo_subresources E repo d Hread) as (fn' & Hfn' & Hlg & Hwk).
  rewrite Hfn in Hfn'. injection Hfn' as <-.
  rewrite (failure_payload _ Hl) in Hlg. rewrite (failure_payload _ Hc) in Hwk.
  injection Hlg as Hlg. injection Hwk as Hwk.
  exists (fold_data a d), s'. split; [exact Hrun|].
  unfold fold_data. simpl. rewrite <- Hlg, <- Hwk.
  split; [apply merge_sum_empty|]. by repeat split.
Qed.

(** X4 at [repo_b] of the server that answers 404 to everything. *)
Lemma failed_subresources_add_nothing_witness :
  ∃ a' s', analyze_repo empty_world repo_b
             (init_analysis Terminal (profile_of Terminal [])) fresh_session
           = (Ok a', s')
    ∧ languages a' = ∅ ∧ commit_days a' = ∅.
Proof.
  destruct (failed_subresources_add_nothing empty_world repo_b (JStr "u/b")
              {| d_name := JStr "b"; d_stars := 0; d_forks := 0;
                 d_description := JStr "second"; d_language := JNull;
                 d_langs := ∅; d_weeks := [] |}
              (init_analysis Terminal (profile_of Terminal [])) fresh_session)
    as (a' & s' & Hrun & Hl & Hc & _);
    [exact empty_run_ok|reflexivity..|].
  exists a', s'. split; [exact Hrun|]. by split.
Defined.

(** X5.  The totals of an analysis are the sums of the stars and of the
    forks of the repositories. *)
Theorem totals_are_sums (E : env) (c : copy) (fuel : nat)
    (username : string) (s : session) (o : list (string * json))
    (repos : list json) (ds : list repo_data) :
  run_ok E s →
  fetches E (user_request username) (JObj o) → o ≠ [] →
  crawls E c fuel username repos →
  reads E repos ds →
  ∃ a s', analyze_user_activity E c fuel username s = (Ok (Some a), s')
    ∧ total_stars a = foldr Z.add 0 (d_stars <$> ds)
    ∧ total_forks a = foldr Z.add 0 (d_forks <$> ds).
Proof.
  intros Hs Hinfo Ho Hcrawl Hreads.
  destruct (analysis_run E c fuel username s o repos ds Hs Hinfo Ho Hcrawl
              Hreads) as (s' & Hrun).
  eexists _, s'. split; [exact Hrun|].
  cbn [sort_popular total_stars total_forks].
  rewrite fold_total_stars, fold_total_forks. simpl. split; lia.
Qed.

(** X5 at the demo user: 10 stars and 2 forks. *)
Lemma totals_are_sums_witness :
  ∃ a s', analyze_user_activity demo_world Dashboard 3 "u" fresh_session
          = (Ok (Some a), s')
    ∧ total_stars a = 10 ∧ total_forks a = 2.
Proof.
  destruct (totals_are_sums demo_world Dashboard 3 "u" fresh_session
              _ [repo_a; repo_b] [data_a; data_b] demo_run_ok demo_profile_fetched
              ltac:(done) (demo_crawls Dashboard) demo_reads)
    as (a & s' & Hrun & Hst & Hfk).
  exists a, s'. split; [exact Hrun|]. by split.
Defined.

(** * Further properties of the request executor *)

(** X6.  Every [_make_request] that returns keeps the two rate fields known
    together, whatever the response and its headers: after a response both
    are set, after a transport failure both are as before. *)
Theorem make_request_keeps_rate_pair (E : env) (endpoint : string)
    (params : option (list (string * json))) (s s' : session) (j : json) :
  rate_known_together s →
  _make_request E endpoint params s = (Ok j, s') →
  rate_known_together s'
  ∧ (∀ r, http E {| endpoint := endpoint; params := params |} = Response r →
          is_Some (rate_limit_remaining s') ∧ is_Some (rate_limit_reset s')).
Proof.
  intros Hpair Hrun. unfold _make_request in Hrun.
  destruct (maybe_wait E s) as [[[]| |] s1] eqn:Hw;
    unfold mbind, Py_bind in Hrun; rewrite Hw in Hrun; try done.
  destruct (maybe_wait_fields E s s1 _ Hw) as (Hr & Ht & _).
  unfold send_request, observe in Hrun. py_unfold. simpl in Hrun.
  destruct (http E {| endpoint := endpoint; params := params |}) as [|r].
  - injection Hrun as _ <-. split; [|done].
    unfold rate_known_together in *. simpl. by rewrite Hr, Ht.
  - destruct (header_int E (x_ratelimit_remaining r)) as [a| |];
      simpl in Hrun; try done.
    destruct (header_int E (x_ratelimit_reset r)) as [t| |];
      simpl in Hrun; try done.
    assert (Hs' : s' = set_reset t (set_remaining a (record_request
                    {| endpoint := endpoint; params := params |} s1))).
    { by destruct (status_code r =? 200); injection Hrun as _ <-. }
    subst s'. split.
    + unfold rate_known_together. simpl. split; intros; done.
    + intros _ _. simpl. by split; eexists.
Qed.

(** X6 at the first request of a new analyzer. *)
Lemma make_request_keeps_rate_pair_witness :
  rate_known_together
    (_make_request demo_world "users/u" None (new_analyzer 0)).2.
Proof.
  eapply (make_request_keeps_rate_pair demo_world "users/u" None
            (new_analyzer 0) _ demo_profile).
  - done.
  - reflexivity.
Defined.

(** A response with integer headers, when the pause returns. *)
Lemma make_request_response (E : env) (endpoint : string)
    (params : option (list (string * json))) (s : session) (r : response)
    (a t : Z) :
  let q := {| endpoint := endpoint; params := params |} in
  pause_returns E s →
  http E q = Response r →
  header_int E (x_ratelimit_remaining r) = Ok a →
  header_int E (x_ratelimit_reset r) = Ok t →
  ∃ s', _make_request E endpoint params s
        = (Ok (if status_code r =? 200 then body r else JNull), s')
        ∧ rate_limit_remaining s' = Some a
        ∧ rate_limit_reset s' = Some t
        ∧ sent s' = q :: sent s.
Proof.
  intros q Hs Hq Ha Hreset.
  destruct (maybe_wait_frame E s Hs) as (s1 & Hw & Hr & Ht & Hsent).
  eexists. split.
  - unfold _make_request, send_request, observe. py_unfold. rewrite Hw.
    fold q. rewrite Hq, Ha. simpl. rewrite Hreset. simpl.
    by destruct (status_code r =? 200).
  - simpl. by rewrite Hsent.
Qed.

(** X7.  What one request does to the rate state, from a rate state of a
    run in which the pause before the request returns.  A transport
    failure returns [None] and leaves both rate fields; a response with
    integer headers, whatever its status, overwrites both fields with the
    header values, and returns the body for status 200 and [None]
    otherwise.  Either way the request is logged once. *)
Theorem make_request_outcomes (E : env) (endpoint : string)
    (params : option (list (string * json))) (s : session) :
  let q := {| endpoint := endpoint; params := params |} in
  session_ok s = true →
  pause_returns E s →
  (http E q = RequestException →
   ∃ s', _make_request E endpoint params s = (Ok JNull, s')
         ∧ rate_limit_remaining s' = rate_limit_remaining s
         ∧ rate_limit_reset s' = rate_limit_reset s
         ∧ sent s' = q :: sent s)
  ∧ (∀ r a t, http E q = Response r →
       header_int E (x_ratelimit_remaining r) = Ok a →
       header_int E (x_ratelimit_reset r) = Ok t →
       ∃ s', _make_request E endpoint params s
             = (Ok (if status_code r =? 200 then body r else JNull), s')
             ∧ rate_limit_remaining s' = Some a
             ∧ rate_limit_reset s' = Some t
             ∧ sent s' = q :: sent s).
Proof.
  intros q _ Hs. split.
  - destruct (maybe_wait_frame E s Hs) as (s1 & Hw & Hr & Ht & Hsent).
    intros Hq. eexists. split.
    + unfold _make_request, send_request. py_unfold. rewrite Hw.
      fold q. rewrite Hq. reflexivity.
    + simpl. by rewrite Hsent.
  - intros r a t. by apply make_request_response.
Qed.

(** X7 at a 404 answer: the quota it announces is taken over. *)
Lemma make_request_outcomes_witness :
  ∃ s', _make_request empty_world "users/ghost" None busy_session
        = (Ok JNull, s')
        ∧ rate_limit_remaining s' = Some 4998.
Proof.
  destruct (make_request_outcomes empty_world "users/ghost" None busy_session
              eq_refl) as [_ Hresp].
  { intros a [= <-] Hlow. vm_compute in Hlow. discriminate Hlow. }
  destruct (Hresp _ 4998 1700003600 eq_refl eq_refl eq_refl)
    as (s' & Hrun & Ha & _).
  exists s'. by split.
Defined.

(** The clock and the sleep log after [_make_request] are those the pause
    left. *)
Lemma make_request_clock (E : env) (endpoint : string)
    (params : option (list (string * json))) (s s1 : session) :
  maybe_wait E s = (Ok (), s1) →
  clock (_make_request E endpoint params s).2 = clock s1
  ∧ slept (_make_request E endpoint params s).2 = slept s1.
Proof.
  intros Hw. unfold _make_request, mbind, Py_bind. rewrite Hw.
  destruct (send_request_fields E {| endpoint := endpoint; params := params |}
              s1) as (Hc & Hsl & _).
  by split.
Qed.

(** X8.  Two requests in a row, the first one made (the pause before it
    returns).  When the response to the first announces fewer than 5
    remaining requests and a reset time [t] that is a date and still
    ahead, the second call is held back.  If the platform grants the wait,
    the call sleeps once, until one second past [t], sends nothing while
    it sleeps, and sends its request from the session the sleep leaves:
    whatever the outcome of the request, the clock after the call is one
    second past [t].  If [time.sleep] refuses the wait, the call raises
    what [time.sleep] raised, and has neither slept nor sent.  When [t]
    has passed already, the second call sleeps not at all. *)
Theorem low_quota_delays_next_request (E : env) (endpoint1 endpoint2 : string)
    (params1 params2 : option (list (string * json))) (s : session)
    (r : response) (a t : Z) :
  pause_returns E s →
  http E {| endpoint := endpoint1; params := params1 |} = Response r →
  header_int E (x_ratelimit_remaining r) = Ok a →
  header_int E (x_ratelimit_reset r) = Ok t →
  a < 5 → in_range t = true →
  ∃ j s1, _make_request E endpoint1 params1 s = (Ok j, s1)
    ∧ let q2 := {| endpoint := endpoint2; params := params2 |} in
      let wait := t * 1000000 - clock s1 + 1000000 in
      let s2 := (_make_request E endpoint2 params2 s1).2 in
      (clock s1 < t * 1000000 → py_sleep E (clock s1) wait = None →
       ∃ s_mid, maybe_wait E s1 = (Ok (), s_mid)
         ∧ clock s_mid = t * 1000000 + 1000000
         ∧ slept s_mid = wait :: slept s1
         ∧ sent s_mid = sent s1
         ∧ _make_request E endpoint2 params2 s1 = send_request E q2 s_mid
         ∧ clock s2 = t * 1000000 + 1000000
         ∧ slept s2 = wait :: slept s1
         ∧ sent s2 = q2 :: sent s1)
      ∧ (clock s1 < t * 1000000 →
         ∀ e, py_sleep E (clock s1) wait = Some e →
              _make_request E endpoint2 params2 s1 = (Raise e, s1))
      ∧ (t * 1000000 ≤ clock s1 →
         clock s2 = clock s1 ∧ slept s2 = slept s1 ∧ sent s2 = q2 :: sent s1).
Proof.
  intros Hs Hq Ha Ht Hlow Hrange.
  destruct (make_request_response E endpoint1 params1 s r a t Hs Hq Ha Ht)
    as (s1 & Hrun & Hrem & Hreset & _).
  eexists _, s1. split; [exact Hrun|].
  assert (Hs1 : session_ok s1 = true).
  { unfold session_ok. by rewrite Hrem, Hreset. }
  cbv zeta.
  assert (Hsleeps : clock s1 < t * 1000000 →
            maybe_wait E s1
            = time_sleep E (t * 1000000 - clock s1 + 1000000) s1).
  { intros Hahead. apply (maybe_wait_sleeps E s1 a t Hs1 Hrem Hreset).
    by exists a, t. }
  split; [|split].
  - intros Hahead Hgrant.
    destruct (time_sleep_cases E (t * 1000000 - clock s1 + 1000000) s1)
      as [(e & Hrefuse & _) | (_ & s_mid & Hsleep & _ & _ & Hc & Hsent & Hsl)];
      [congruence|].
    assert (Hw : maybe_wait E s1 = (Ok (), s_mid))
      by (by rewrite (Hsleeps Hahead)).
    assert (Hreq : _make_request E endpoint2 params2 s1
              = send_request E {| endpoint := endpoint2; params := params2 |}
                  s_mid).
    { unfold _make_request. py_unfold. by rewrite Hw. }
    exists s_mid. split; [done|]. split; [lia|]. split; [done|].
    split; [done|]. split; [done|]. rewrite Hreq.
    destruct (send_request_fields E
                {| endpoint := endpoint2; params := params2 |} s_mid)
      as (-> & -> & ->).
    split; [lia|]. split; [done|]. by rewrite Hsent.
  - intros Hahead e Hrefuse.
    destruct (time_sleep_cases E (t * 1000000 - clock s1 + 1000000) s1)
      as [(e' & Hrefuse' & Hsleep) | (Hgrant & _)]; [|congruence].
    assert (e' = e) as -> by congruence.
    unfold _make_request. py_unfold. by rewrite (Hsleeps Hahead), Hsleep.
  - intros Hpast.
    assert (Hno : ¬ must_wait s1).
    { intros (a' & t' & _ & _ & Ht' & Hahead). rewrite Hreset in Ht'.
      injection Ht' as <-. lia. }
    assert (Hw := maybe_wait_idle E s1 Hs1 Hno).
    unfold _make_request. py_unfold. rewrite Hw.
    by destruct (send_request_fields E
                   {| endpoint := endpoint2; params := params2 |} s1)
      as (-> & -> & ->).
Qed.

(** X9.  The pause is idempotent on the rate states of a run: after it, a
    second pause in a row changes nothing. *)
Theorem maybe_wait_twice (E : env) (s : session) :
  session_ok s = true →
  (maybe_wait E;; maybe_wait E) s = maybe_wait E s.
Proof.
  intros Hs. unfold mbind, Py_bind.
  destruct (must_wait_or_not s) as [Hmust | Hno].
  - destruct Hmust as (a & t & Hrem & Hlow & Hreset & Hahead).
    assert (Hmust : must_wait s) by (by exists a, t).
    rewrite (maybe_wait_sleeps E s a t Hs Hrem Hreset Hmust).
    destruct (time_sleep_cases E (t * 1000000 - clock s + 1000000) s)
      as [(e & _ & ->) | (_ & s' & -> & Hr & Ht & Hc & _)]; [done|].
    apply maybe_wait_idle.
    + unfold session_ok in *. by rewrite Hr, Ht.
    + intros (a' & t' & _ & _ & Ht' & Hahead').
      rewrite Ht, Hreset in Ht'. injection Ht' as <-. lia.
  - rewrite (maybe_wait_idle E s Hs Hno). by apply maybe_wait_idle.
Qed.

(** X8 at a server that leaves 3 requests and resets in 10 seconds: the
    second request is sent 11 seconds later. *)
Lemma low_quota_delays_next_request_witness :
  ∃ j s1, _make_request throttling_world "users/u" None fresh_session
          = (Ok j, s1)
    ∧ clock (_make_request throttling_world "users/u/repos" None s1).2
      = clock fresh_session + 11 * 1000000
    ∧ sent (_make_request throttling_world "users/u/repos" None s1).2
      = [{| endpoint := "users/u/repos"; params := None |};
         {| endpoint := "users/u"; params := None |}].
Proof.
  destruct (low_quota_delays_next_request throttling_world "users/u"
              "users/u/repos" None None fresh_session _ 3 1700000010
              ltac:(by intros a Ha) eq_refl eq_refl eq_refl eq_refl eq_refl)
    as (j & s1 & Hrun & Hwait & _).
  exists j, s1. split; [exact Hrun|].
  assert (Hs1 : s1 = (_make_request throttling_world "users/u" None
                        fresh_session).2) by (by rewrite Hrun).
  destruct Hwait as (s_mid & _ & _ & _ & _ & _ & -> & _ & ->);
    [by rewrite Hs1..|].
  by rewrite Hs1.
Defined.

(** X9 at the session with 3 requests left. *)
Lemma maybe_wait_twice_witness :
  (maybe_wait empty_world;; maybe_wait empty_world) low_quota_session
  = maybe_wait empty_world low_quota_session.
Proof. apply (maybe_wait_twice empty_world low_quota_session eq_refl). Defined.

(** * Further properties of the crawler *)

(** [_make_request] logs its request, unless the pause raised before the
    request was made. *)
Lemma make_request_log (E : env) (endpoint : string)
    (params : option (list (string * json))) (s : session) :
  let q := {| endpoint := endpoint; params := params |} in
  sent (_make_request E endpoint params s).2 = q :: sent s
  ∨ (sent (_make_request E endpoint params s).2 = sent s
     ∧ ∀ j, (_make_request E endpoint params s).1 ≠ Ok j).
Proof.
  cbv zeta. unfold _make_request, mbind, Py_bind.
  destruct (maybe_wait E s) as [[[]| |] s1] eqn:Hw;
    destruct (maybe_wait_fields E s s1 _ Hw) as (_ & _ & Hsent & _).
  - left.
    destruct (send_request_fields E {| endpoint := endpoint; params := params |}
                s1) as (_ & _ & ->).
    by rewrite Hsent.
  - right. by split.
  - right. by split.
Qed.

Lemma crawl_log (E : env) (c : copy) (username : string) (fuel : nat) :
  ∀ (page : Z) (all_repos : list json) (s : session),
    ∃ k, (k ≤ fuel)%nat
         ∧ sent (get_user_repos_from E c fuel username page all_repos s).2
           = page_requests username page k ++ sent s.
Proof.
  induction fuel as [|fuel IH]; intros page all_repos s.
  - by exists 0%nat.
  - cbn [get_user_repos_from]. unfold mbind, Py_bind.
    destruct (make_request_log E ("users/" +:+ username +:+ "/repos")
                (repos_params page) s) as [Hlog | [Hlog Hno]].
    + destruct (_make_request E _ (repos_params page) s) as [[j| |] s1];
        simpl in Hlog.
      2,3: exists 1%nat; split; [lia|simpl; by rewrite Hlog].
      assert (Hstop : ∀ l, sent ((mret l : Py (list json)) s1).2
                           = page_requests username page 1 ++ sent s).
      { intros l. simpl. by rewrite Hlog. }
      assert (Hgo : ∀ l, ∃ k, (k ≤ S fuel)%nat
                ∧ sent (get_user_repos_from E c fuel username (page + 1) l
                          s1).2
                  = page_requests username page k ++ sent s).
      { intros l. destruct (IH (page + 1) l s1) as (k & Hk & Hsent).
        exists (S k). split; [lia|]. rewrite Hsent, Hlog. simpl.
        by rewrite <- app_assoc. }
      destruct (negb (truthy j) || negb (is_list j));
        [exists 1%nat; split; [lia|apply Hstop]|].
      destruct c.
      * destruct (negb (truthy j));
          [exists 1%nat; split; [lia|apply Hstop]|apply Hgo].
      * destruct (Z.of_nat (length (elements j)) <? 100);
          [exists 1%nat; split; [lia|apply Hstop]|apply Hgo].
    + destruct (_make_request E _ (repos_params page) s) as [[j| |] s1];
        simpl in Hlog.
      2,3: exists 0%nat; split; [lia|simpl; by rewrite Hlog].
      by destruct (Hno j).
Qed.

(** X10.  In every run of [get_user_repos], whatever the server answers
    and however the run ends, the requests it has sent are the repository
    pages 1, 2, ..., k of the user, each once and in this order, with
    [per_page] 100 and [sort] [updated]; nothing else is requested. *)
Theorem crawl_requests_consecutive_pages (E : env) (c : copy) (fuel : nat)
    (username : string) (s : session) :
  ∃ k, (k ≤ fuel)%nat
       ∧ sent (get_user_repos E c fuel username s).2
         = page_requests username 1 k ++ sent s.
Proof. apply crawl_log. Qed.

(** * Further properties of the analysis *)

(** The loop stops at the first repository whose pass raises. *)
Lemma analyze_repos_raise (E : env) (pre : list json) (ds : list repo_data)
    (bad : json) (post : list json) (e : exn) :
  reads E pre ds →
  (∀ a s, (analyze_repo E bad a s).1 = Raise e) →
  ∀ a s, run_ok E s →
    (analyze_repos E (pre ++ bad :: post) a s).1 = Raise e.
Proof.
  intros Hreads Hbad.
  induction Hreads as [|repo d pre ds Hread _ IH]; intros a s Hs.
  - simpl. unfold mbind, Py_bind. specialize (Hbad a s).
    by destruct (analyze_repo E bad a s) as [[?| |] ?]; simplify_eq/=.
  - destruct (analyze_repo_ok E repo d a s Hs Hread) as (s1 & Hrun1 & Hs1 & _).
    simpl. rewrite (bind_ok _ _ _ _ _ Hrun1). by apply IH.
Qed.

(** X11.  One repository without a [full_name] aborts the analysis: when
    the profile is a dict and the crawl returns a list in which the
    repositories before it are well-formed and one entry is a dict that
    lacks the key, [analyze_user_activity] raises [KeyError]; what was
    gathered from the earlier repositories is not returned. *)
Theorem repository_without_full_name_aborts (E : env) (c : copy)
    (fuel : nat) (username : string) (s : session)
    (o bad : list (string * json)) (pre post : list json)
    (ds : list repo_data) :
  run_ok E s →
  fetches E (user_request username) (JObj o) → o ≠ [] →
  crawls E c fuel username (pre ++ JObj bad :: post) →
  reads E pre ds →
  assoc "full_name" bad = None →
  (analyze_user_activity E c fuel username s).1 = Raise KeyError.
Proof.
  intros Hs Hinfo Ho Hcrawl Hreads Hbad.
  destruct (fetch_ok E _ None _ s Hs Hinfo) as (s1 & Hrun1 & Hs1 & _).
  destruct (Hcrawl s1 Hs1) as (s2 & Hrun2 & Hs2).
  unfold analyze_user_activity, get_user_info.
  rewrite (bind_ok _ _ _ _ _ Hrun1), (truthy_dict o Ho). cbn [negb].
  rewrite (bind_ok _ _ _ _ _ Hrun2), make_user_info_dict, lift_ok.
  assert (Hloop := analyze_repos_raise E pre ds (JObj bad) post KeyError Hreads).
  unfold mbind at 1. unfold Py_bind.
  specialize (Hloop (λ a s, ltac:(unfold analyze_repo, py_getitem;
                                   rewrite Hbad; reflexivity))
                (init_analysis c (profile_of c o)) s2 Hs2).
  by destruct (analyze_repos E _ _ s2) as [[?| |] ?]; simplify_eq/=.
Qed.

(** X12.  A profile body that is truthy and no dict (a list, a string, a
    number) makes the analysis raise [AttributeError], and only after the
    repositories have been crawled. *)
Theorem profile_not_a_dict_raises (E : env) (c : copy) (fuel : nat)
    (username : string) (s : session) (info : json) (repos : list json) :
  run_ok E s →
  fetches E (user_request username) info →
  truthy info = true →
  (∀ o, info ≠ JObj o) →
  crawls E c fuel username repos →
  ∃ s1 s2, get_user_info E username s = (Ok info, s1)
    ∧ get_user_repos E c fuel username s1 = (Ok repos, s2)
    ∧ analyze_user_activity E c fuel username s = (Raise AttributeError, s2).
Proof.
  intros Hs Hinfo Htrue Hnot Hcrawl.
  destruct (fetch_ok E _ None _ s Hs Hinfo) as (s1 & Hrun1 & Hs1 & _).
  destruct (Hcrawl s1 Hs1) as (s2 & Hrun2 & Hs2).
  exists s1, s2. split; [exact Hrun1|]. split; [exact Hrun2|].
  unfold analyze_user_activity.
  unfold get_user_info in *. rewrite (bind_ok _ _ _ _ _ Hrun1), Htrue.
  cbn [negb]. rewrite (bind_ok _ _ _ _ _ Hrun2).
  destruct info as [| | | | |o]; try reflexivity.
  by destruct (Hnot o).
Qed.

(** X11 at the user [x]. *)
Lemma repository_without_full_name_aborts_witness :
  (analyze_user_activity odd_world Terminal 3 "x" fresh_session).1
  = Raise KeyError.
Proof.
  apply (repository_without_full_name_aborts odd_world Terminal 3 "x"
           fresh_session
           [("login", JStr "u"); ("name", JNull); ("bio", JStr "hi");
            ("public_repos", JInt 2)]
           [("name", JStr "z"); ("stargazers_count", JInt 1)]
           [repo_b] [] [data_b]).
  - exact odd_run_ok.
  - by split.
  - done.
  - apply crawls_one_page; [by split|simpl; lia|by split|lia].
  - constructor; [vm_compute; reflexivity|constructor].
  - reflexivity.
Defined.

(** X12 at the user [y], whose profile body is a list. *)
Lemma profile_not_a_dict_raises_witness :
  ∃ s2, analyze_user_activity odd_world Dashboard 3 "y" fresh_session
        = (Raise AttributeError, s2)
        ∧ sent s2 = [repos_request "y" 1; user_request "y"].
Proof.
  destruct (profile_not_a_dict_raises odd_world Dashboard 3 "y" fresh_session
              (JList [JStr "y"]) []) as (s1 & s2 & Hrun1 & Hrun2 & Hrun).
  - exact odd_run_ok.
  - by split.
  - reflexivity.
  - done.
  - apply crawls_one_page; [by split|simpl; lia|by split|lia].
  - exists s2. split; [exact Hrun|].
    injection Hrun1 as <-. by injection Hrun2 as <-.
Defined.

Lemma truthy_py_or (j d : json) : truthy d = true → truthy (py_or j d) = true.
Proof. intros Hd. unfold py_or. by destruct (truthy j) eqn:Hj. Qed.

Lemma sum_permutation (l l' : list Z) :
  l ≡ₚ l' → foldr Z.add 0 l = foldr Z.add 0 l'.
Proof. induction 1; simpl; lia. Qed.

Lemma discovered_stars (ds : list repo_data) :
  Forall (λ d, 0 ≤ d_stars d) ds →
  foldr Z.add 0 (stars <$> discovered ds) = foldr Z.add 0 (d_stars <$> ds).
Proof.
  unfold discovered. induction 1 as [|d ds Hd _ IH]; [done|].
  rewrite filter_cons. csimpl. case_decide; csimpl; lia.
Qed.

(** X13.  Every entry of the final [popular_repos] has at least one star,
    a truthy description and a truthy main language (a null or empty one
    was replaced by its placeholder), and there is one entry for each
    repository with stars. *)
Theorem popular_entries_filled (E : env) (c : copy) (fuel : nat)
    (username : string) (s : session) (o : list (string * json))
    (repos : list json) (ds : list repo_data) :
  run_ok E s →
  fetches E (user_request username) (JObj o) → o ≠ [] →
  crawls E c fuel username repos →
  reads E repos ds →
  ∃ a s', analyze_user_activity E c fuel username s = (Ok (Some a), s')
    ∧ (∀ e, e ∈ popular_repos a →
         0 < stars e ∧ truthy (description e) = true
         ∧ truthy (main_language e) = true)
    ∧ length (popular_repos a) = length (filter (λ d, 0 < d_stars d) ds).
Proof.
  intros Hs Hinfo Ho Hcrawl Hreads.
  destruct (analysis_run E c fuel username s o repos ds Hs Hinfo Ho Hcrawl
              Hreads) as (s' & Hrun).
  eexists _, s'. split; [exact Hrun|].
  cbn [sort_popular popular_repos]. rewrite fold_popular. simpl.
  split.
  - intros e He. rewrite (sort_by_stars_perm (discovered ds)) in He.
    unfold discovered in He.
    apply list_elem_of_fmap in He as (d & -> & Hd).
    apply list_elem_of_filter in Hd as [Hpos _].
    split; [done|]. split; by apply truthy_py_or.
  - rewrite (sort_by_stars_perm (discovered ds)). unfold discovered.
    by rewrite length_fmap.
Qed.

(** X13 at the demo user. *)
Lemma popular_entries_filled_witness :
  ∃ a s', analyze_user_activity demo_world Terminal 3 "u" fresh_session
          = (Ok (Some a), s')
    ∧ length (popular_repos a) = 1%nat.
Proof.
  destruct (popular_entries_filled demo_world Terminal 3 "u" fresh_session
              _ [repo_a; repo_b] [data_a; data_b] demo_run_ok demo_profile_fetched
              ltac:(done) (demo_crawls Terminal) demo_reads)
    as (a & s' & Hrun & _ & Hlen).
  exists a, s'. split; [exact Hrun|exact Hlen].
Defined.

(** X14.  When no repository has a negative star count, [total_stars] is
    the sum of the stars of the entries of [popular_repos]: the
    repositories left out of the list have no stars to add. *)
Theorem total_stars_of_popular (E : env) (c : copy) (fuel : nat)
    (username : string) (s : session) (o : list (string * json))
    (repos : list json) (ds : list repo_data) :
  run_ok E s →
  fetches E (user_request username) (JObj o) → o ≠ [] →
  crawls E c fuel username repos →
  reads E repos ds →
  Forall (λ d, 0 ≤ d_stars d) ds →
  ∃ a s', analyze_user_activity E c fuel username s = (Ok (Some a), s')
    ∧ total_stars a = foldr Z.add 0 (stars <$> popular_repos a).
Proof.
  intros Hs Hinfo Ho Hcrawl Hreads Hpos.
  destruct (analysis_run E c fuel username s o repos ds Hs Hinfo Ho Hcrawl
              Hreads) as (s' & Hrun).
  eexists _, s'. split; [exact Hrun|].
  cbn [sort_popular popular_repos total_stars].
  rewrite fold_popular, fold_total_stars. simpl.
  rewrite (sum_permutation (stars <$> sort_by_stars (discovered ds))
             (stars <$> discovered ds)).
  - rewrite discovered_stars by done. lia.
  - apply fmap_Permutation, sort_by_stars_perm.
Qed.

(** X14 at the demo user. *)
Lemma total_stars_of_popular_witness :
  ∃ a s', analyze_user_activity demo_world Terminal 3 "u" fresh_session
          = (Ok (Some a), s')
    ∧ total_stars a = foldr Z.add 0 (stars <$> popular_repos a).
Proof.
  apply (total_stars_of_popular demo_world Terminal 3 "u" fresh_session
           _ [repo_a; repo_b] [data_a; data_b] demo_run_ok demo_profile_fetched
           ltac:(done) (demo_crawls Terminal) demo_reads).
  repeat constructor; simpl; lia.
Defined.

(** The labels of the seven indices are distinct. *)
Lemma day_label_inj (i j : nat) :
  (i < 7)%nat → (j < 7)%nat → day_label i = day_label j → i = j.
Proof.
  intros Hi Hj.
  do 7 (destruct i as [|i]; [do 7 (destruct j as [|j]; [done|]); lia|]).
  lia.
Qed.

Lemma counter_get_add (c : gmap string Z) (k k' : string) (v : Z) :
  counter_get (counter_add c k v) k'
  = counter_get c k' + (if decide (k = k') then v else 0).
Proof.
  unfold counter_add, counter_get. case_decide as Hk.
  - subst. by rewrite lookup_insert_eq.
  - rewrite lookup_insert_ne by done. lia.
Qed.

Lemma tally_days_get (zs : list Z) :
  ∀ (idx : nat) (c : gmap string Z) (i : nat),
    (idx + length zs ≤ 7)%nat → (i < 7)%nat →
    counter_get (tally_days idx zs c) (day_label i)
    = counter_get c (day_label i)
      + (if decide (idx ≤ i)%nat
         then Z.max 0 (default 0 (zs !! (i - idx)%nat)) else 0).
Proof.
  induction zs as [|z zs IH]; intros idx c i Hlen Hi.
  - cbn [tally_days]. case_decide; [|lia]. rewrite lookup_nil. simpl. lia.
  - simpl in Hlen. cbn [tally_days]. rewrite IH by lia.
    destruct (decide (idx = i)) as [->|Hne].
    + replace (i - i)%nat with 0%nat by lia. simpl.
      rewrite (decide_True (P := (i ≤ i)%nat)) by lia.
      rewrite (decide_False (P := (S i ≤ i)%nat)) by lia.
      destruct (Z.gtb_spec z 0).
      * rewrite counter_get_add, decide_True by done. lia.
      * lia.
    + assert (Hsame : counter_get
                (if z >? 0 then counter_add c (day_label idx) z else c)
                (day_label i) = counter_get c (day_label i)).
      { destruct (z >? 0); [|done]. rewrite counter_get_add.
        rewrite decide_False; [lia|].
        intros Heq. apply day_label_inj in Heq; [done|lia|done]. }
      rewrite Hsame. f_equal.
      destruct (decide (S idx ≤ i)%nat) as [Hle|Hgt].
      * rewrite decide_True by lia.
        replace (i - idx)%nat with (S (i - S idx)) by lia. done.
      * rewrite decide_False by lia. done.
Qed.

Lemma tally_weeks_get (weeks : list (list Z)) :
  ∀ (c : gmap string Z) (i : nat),
    Forall (λ w, (length w ≤ 7)%nat) weeks → (i < 7)%nat →
    counter_get (tally_weeks weeks c) (day_label i)
    = counter_get c (day_label i) + day_commits i weeks.
Proof.
  unfold tally_weeks.
  induction weeks as [|w weeks IH]; intros c i Hlen Hi; simpl; [lia|].
  inversion Hlen as [|? ? Hw Hrest]; subst.
  rewrite IH by done. rewrite tally_days_get by (simpl; lia).
  rewrite decide_True by lia. replace (i - 0)%nat with i by lia. lia.
Qed.

Lemma decode_week_length (w : json) (zs : list Z) :
  decode_week w = Some zs → (length zs ≤ 7)%nat.
Proof.
  unfold decode_week. destruct w as [| | | | |o]; try done.
  destruct (default (JList []) (assoc "days" o)) as [| | | |ds|]; try done.
  destruct (nums_of ds) as [zs'|]; [|done].
  case_bool_decide; [|done]. by intros [= <-].
Qed.

Lemma decode_weeks_length (j : json) (weeks : list (list Z)) :
  decode_weeks j = Some weeks → Forall (λ w, (length w ≤ 7)%nat) weeks.
Proof.
  unfold decode_weeks. destruct (truthy j); [|by intros [= <-]].
  destruct j as [| | | |ws|]; try done.
  revert weeks. induction ws as [|w ws IH]; intros weeks H; simpl in H.
  - by injection H as <-.
  - destruct (decode_week w) as [zs|] eqn:Hw; [|done].
    destruct (decode_week_list ws) as [weeks'|]; [|done].
    injection H as <-. constructor; [by eapply decode_week_length|by apply IH].
Qed.

(** X15.  The commit fold, index by index.  For a commit-activity value
    that is a list of weeks of at most seven integer counts (or is falsy),
    the fold returns, and the count under [calendar.day_abbr[i]] has grown
    by the sum of the positive counts the weeks hold at index [i]; counts
    at other indices never leak into it.  The labels are Monday-first:
    index 0 feeds ["Mon"] and index 6 feeds ["Sun"]. *)
Theorem commit_fold_by_index (j : json) (weeks : list (list Z))
    (c : gmap string Z) :
  decode_weeks j = Some weeks →
  ∃ c', add_commit_activity j c = Ok c'
    ∧ (∀ i, (i < 7)%nat →
         counter_get c' (day_label i)
         = counter_get c (day_label i) + day_commits i weeks)
    ∧ day_label <$> seq 0 7 = weekdays.
Proof.
  intros Hweeks. exists (tally_weeks weeks c).
  split; [by apply add_commit_activity_ok|]. split; [|reflexivity].
  intros i Hi. apply tally_weeks_get; [|done].
  by eapply decode_weeks_length.
Qed.

(** X15 at the week of [sunday_week]: its 5 commits of index 0 are under
    ["Mon"]. *)
Lemma commit_fold_by_index_witness :
  ∃ c', add_commit_activity sunday_week ∅ = Ok c'
        ∧ counter_get c' "Mon" = 5 ∧ counter_get c' "Sun" = 0.
Proof.
  destruct (commit_fold_by_index sunday_week [[5; 0; 0; 0; 0; 0; 0]] ∅ eq_refl)
    as (c' & Hrun & Hget & _).
  exists c'. split; [exact Hrun|]. split.
  - apply (Hget 0%nat). lia.
  - apply (Hget 6%nat). lia.
Defined.

(** ** The report *)

Lemma print_then (l : line) (m : Out ()) : (print l;; m) = (l :: m.1, m.2).
Proof. by destruct m. Qed.

Lemma each_lines {A : Type} (body : A → Out ()) (f : A → list line)
    (l : list A) :
  Forall (λ x, body x = (f x, Done ())) l →
  each body l = (l ≫= f, Done ()).
Proof.
  induction 1 as [|x l Hx _ IH]; [done|].
  simpl. unfold mbind at 1, Out_bind. by rewrite Hx, IH.
Qed.

Lemma float_limit_big : 1 < float_limit.
Proof. reflexivity. Qed.

Lemma true_divide_ok (n total : Z) :
  0 ≤ n ≤ total → 0 < total → true_divide n total = ([], Done ()).
Proof.
  intros Hn Ht. unfold true_divide.
  pose proof float_limit_big as Hbig.
  destruct (Z.leb_spec (float_limit * total) (Z.abs n)) as [Hle|]; [|done].
  exfalso. revert Hle Hbig. generalize float_limit. intros. nia.
Qed.

Lemma sum_elem_le (l : list Z) :
  Forall (λ z, 0 ≤ z) l → Forall (λ z, z ≤ foldr Z.add 0 l) l.
Proof.
  induction 1 as [|z l Hz Hl IH]; [done|]. simpl.
  assert (0 ≤ foldr Z.add 0 l) by (clear IH; induction Hl; simpl; lia).
  constructor; [lia|]. eapply Forall_impl; [exact IH|]. simpl. lia.
Qed.

Lemma counter_items_bounded (keys : list string) (c : gmap string Z) :
  (∀ k, 0 ≤ counter_get c k) →
  Forall (λ x, 0 ≤ x.2 ≤ counter_sum keys c) (counter_items keys c).
Proof.
  intros Hpos. unfold counter_sum.
  assert (Hnn : Forall (λ z, 0 ≤ z) (counter_items keys c).*2).
  { unfold counter_items. rewrite <- list_fmap_compose.
    apply Forall_fmap, Forall_forall. intros k _. apply Hpos. }
  pose proof (sum_elem_le _ Hnn) as Hle.
  rewrite Forall_fmap in Hnn, Hle.
  rewrite Forall_forall in Hnn, Hle. apply Forall_forall. intros x Hx.
  split; [by apply Hnn|by apply Hle].
Qed.

Lemma counter_items_perm (keys : list string) (c : gmap string Z) :
  lists_keys keys c → counter_items keys c ≡ₚ map_to_list c.
Proof.
  intros [Hnd Hkeys]. apply NoDup_Permutation.
  - unfold counter_items. apply NoDup_fmap_2; [|done]. by intros k1 k2 [= ->].
  - apply NoDup_map_to_list.
  - intros [k v]. rewrite elem_of_map_to_list. unfold counter_items.
    rewrite list_elem_of_fmap. split.
    + intros (k' & [= -> ->] & Hk). apply Hkeys in Hk as [v Hv].
      unfold counter_get. by rewrite Hv.
    + intros Hv. exists k. split.
      * unfold counter_get. by rewrite Hv.
      * apply Hkeys. by exists v.
Qed.

Lemma counter_sum_values (keys : list string) (c : gmap string Z) :
  lists_keys keys c →
  counter_sum keys c = foldr Z.add 0 (map_to_list c).*2.
Proof.
  intros Hk. unfold counter_sum. apply sum_permutation.
  by rewrite (counter_items_perm keys c Hk).
Qed.

(** A count above zero makes the sum positive. *)
Lemma counter_sum_pos (keys : list string) (c : gmap string Z) :
  lists_keys keys c → (∀ k, 0 ≤ counter_get c k) →
  (∃ k, 0 < counter_get c k) → 0 < counter_sum keys c.
Proof.
  intros [_ Hkeys] Hpos [k Hk].
  assert (Hin : k ∈ keys).
  { apply Hkeys. unfold counter_get in Hk. destruct (c !! k); [done|].
    simpl in Hk. lia. }
  pose proof (counter_items_bounded keys c Hpos) as Hb.
  rewrite Forall_forall in Hb.
  assert (Hx : (k, counter_get c k) ∈ counter_items keys c).
  { unfold counter_items. apply list_elem_of_fmap. by exists k. }
  apply Hb in Hx. simpl in Hx. lia.
Qed.

(** A duplicate-free list of the domain lists the keys. *)
Lemma lists_keys_dom (keys : list string) (c : gmap string Z) :
  NoDup keys → list_to_set keys = dom c → lists_keys keys c.
Proof.
  intros Hnd Hdom. split; [done|]. intros k.
  by rewrite <- elem_of_dom, <- Hdom, elem_of_list_to_set.
Qed.

Lemma counter_nonneg (c : gmap string Z) :
  map_Forall (λ _ v, 0 ≤ v) c → ∀ k, 0 ≤ counter_get c k.
Proof.
  intros Hall k. unfold counter_get.
  destruct (c !! k) as [v|] eqn:Hk; [by apply (Hall k)|done].
Qed.

(** *** [most_common] *)

Lemma insert_by_count_perm (x : string * Z) (l : list (string * Z)) :
  insert_by_count x l ≡ₚ x :: l.
Proof.
  induction l as [|y l IH]; simpl; [done|].
  destruct (y.2 >? x.2); [|done].
  rewrite IH. apply Permutation_swap.
Qed.

Lemma sort_by_count_perm (l : list (string * Z)) : sort_by_count l ≡ₚ l.
Proof.
  induction l as [|x l IH]; simpl; [done|].
  by rewrite insert_by_count_perm, IH.
Qed.

Lemma insert_by_count_sorted (x : string * Z) (l : list (string * Z)) :
  Sorted by_count_desc l → Sorted by_count_desc (insert_by_count x l).
Proof.
  induction 1 as [|y l Hl IH Hhd]; simpl.
  - by repeat constructor.
  - destruct (Z.gtb_spec y.2 x.2) as [Hgt|Hle].
    + constructor; [exact IH|].
      destruct l as [|z l]; simpl.
      * constructor. unfold by_count_desc. lia.
      * inversion Hhd; subst.
        destruct (z.2 >? x.2); constructor; unfold by_count_desc in *; lia.
    + constructor; [by constructor|]. constructor. unfold by_count_desc. lia.
Qed.

Lemma sort_by_count_sorted (l : list (string * Z)) :
  Sorted by_count_desc (sort_by_count l).
Proof.
  induction l as [|x l IH]; simpl; [constructor|].
  by apply insert_by_count_sorted.
Qed.



(** In a sorted list, what a cut keeps is ranked before what it drops. *)
Lemma sorted_cut {A : Type} (R : A → A → Prop) (l : list A) :
  (∀ a b c, R a b → R b c → R a c) →
  Sorted R l →
  ∀ n x y, x ∈ take n l → y ∈ drop n l → R x y.
Proof.
  intros Htrans Hs. apply Sorted_StronglySorted in Hs; [|exact Htrans].
  induction Hs as [|z l Hs IH Hall]; intros n x y Hx Hy.
  - rewrite take_nil in Hx. by apply elem_of_nil in Hx.
  - destruct n as [|n]; simpl in *.
    + by apply elem_of_nil in Hx.
    + apply elem_of_cons in Hx as [->|Hx]; [|by eapply IH].
      rewrite Forall_forall in Hall. apply Hall.
      apply list_elem_of_lookup in Hy as [i Hi].
      rewrite lookup_drop in Hi. by eapply list_elem_of_lookup_2.
Qed.

Lemma sorted_take {A : Type} (R : A → A → Prop) (l : list A) :
  Sorted R l → ∀ n, Sorted R (take n l).
Proof.
  induction 1 as [|x l Hl IH Hhd]; intros n; [by rewrite take_nil|].
  destruct n as [|n]; simpl; [constructor|].
  constructor; [apply IH|].
  destruct Hhd as [|y l Hxy]; [rewrite take_nil; constructor|].
  destruct n; simpl; by constructor.
Qed.

(** The lines of a tally section whose counts are within the total. *)
Lemma each_tally (mk : string → Z → Z → line) (total : Z)
    (items : list (string * Z)) :
  0 < total →
  Forall (λ x, 0 ≤ x.2 ≤ total) items →
  each (λ '(k, n), true_divide n total;; print (mk k n total)) items
  = ((λ x, mk x.1 x.2 total) <$> items, Done ()).
Proof.
  intros Ht Hall.
  rewrite (each_lines _ (λ x, [mk x.1 x.2 total])).
  - f_equal.
  - eapply Forall_impl; [exact Hall|]. intros [k n] Hn. simpl in *.
    by rewrite true_divide_ok.
Qed.

(** X16.  The language section of the report, for a tally without
    negative counts that has some bytes: it prints, after its heading, one
    line for each of the five languages with the most bytes (all of them
    when there are fewer), largest first, each with its count and the sum
    of all counts; no shown language has fewer bytes than one left out;
    and no division overflows. *)
Theorem top_languages_shown (keys : list string) (c : gmap string Z) :
  lists_keys keys c →
  (∀ k, 0 ≤ counter_get c k) →
  (∃ k, 0 < counter_get c k) →
  ∃ shown rest,
    language_section keys c
    = (LanguagesHeading
         :: ((λ x, LanguageLine x.1 x.2 (foldr Z.add 0 (map_to_list c).*2))
               <$> shown),
       Done ())
    ∧ shown ++ rest ≡ₚ map_to_list c
    ∧ length shown = (5 `min` size c)%nat
    ∧ Sorted by_count_desc shown
    ∧ (∀ x y, x ∈ shown → y ∈ rest → y.2 ≤ x.2).
Proof.
  intros Hkeys Hpos Hsome.
  pose proof (counter_sum_pos keys c Hkeys Hpos Hsome) as Hsum.
  set (sorted := sort_by_count (counter_items keys c)).
  exists (take 5 sorted), (drop 5 sorted).
  assert (Hperm : sorted ≡ₚ map_to_list c).
  { unfold sorted. by rewrite sort_by_count_perm, counter_items_perm. }
  split; [|split; [|split; [|split]]].
  - unfold language_section. rewrite print_then.
    destruct (Z.gtb_spec (counter_sum keys c) 0) as [_|]; [|lia].
    unfold most_common. fold sorted.
    rewrite each_tally; [|done|].
    + simpl. by rewrite (counter_sum_values keys c Hkeys).
    + apply Forall_take. unfold sorted. rewrite sort_by_count_perm.
      by apply counter_items_bounded.
  - by rewrite take_drop.
  - rewrite length_take, Hperm, length_map_to_list. lia.
  - apply sorted_take, sort_by_count_sorted.
  - intros x y Hx Hy.
    apply (sorted_cut by_count_desc sorted) with (n := 5%nat) (x := x) (y := y);
      [|apply sort_by_count_sorted|done|done].
    unfold by_count_desc. intros; lia.
Qed.

(** X16 on three languages. *)
Lemma top_languages_shown_witness :
  let c : gmap string Z := {[ "C" := 10; "Go" := 70; "Rust" := 20 ]} in
  lists_keys ["C"; "Go"; "Rust"] c
  ∧ ∃ shown rest,
      language_section ["C"; "Go"; "Rust"] c
      = (LanguagesHeading
           :: ((λ x, LanguageLine x.1 x.2 (foldr Z.add 0 (map_to_list c).*2))
                 <$> shown),
         Done ())
      ∧ shown ++ rest ≡ₚ map_to_list c
      ∧ length shown = (5 `min` size c)%nat
      ∧ Sorted by_count_desc shown
      ∧ (∀ x y, x ∈ shown → y ∈ rest → y.2 ≤ x.2).
Proof.
  intros c.
  assert (Hkeys : lists_keys ["C"; "Go"; "Rust"] c).
  { apply lists_keys_dom; [compute_done|reflexivity]. }
  split; [exact Hkeys|].
  apply (top_languages_shown ["C"; "Go"; "Rust"] c Hkeys).
  - apply counter_nonneg. compute_done.
  - by exists "Go".
Defined.



Lemma repository_section_lines (popular : list popular_repo) :
  popular ≠ [] →
  repository_section popular
  = (ReposHeading :: (take 3 popular ≫= lines_of), Done ()).
Proof.
  intros Hne. unfold repository_section. rewrite print_then.
  destruct popular as [|r popular]; [done|].
  by rewrite (each_lines repo_lines lines_of) by by apply Forall_forall.
Qed.

(** X18.  The repository section of the report of a sorted analysis with
    popular repositories: it prints, after its heading, the three lines
    of each of the first three entries of the sorted list (of all, when
    there are fewer), and no entry it leaves out has more stars than one
    it shows. *)
Theorem top_three_repositories (a : analysis) :
  popular_repos a ≠ [] →
  ∃ shown rest,
    repository_section (popular_repos (sort_popular a))
    = (ReposHeading :: (shown ≫= lines_of), Done ())
    ∧ shown ++ rest ≡ₚ popular_repos a
    ∧ length shown = (3 `min` length (popular_repos a))%nat
    ∧ Sorted by_stars_desc shown
    ∧ (∀ x y, x ∈ shown → y ∈ rest → stars y ≤ stars x).
Proof.
  intros Hne.
  change (popular_repos (sort_popular a)) with (sort_by_stars (popular_repos a)).
  set (sorted := sort_by_stars (popular_repos a)).
  assert (Hperm : sorted ≡ₚ popular_repos a) by apply sort_by_stars_perm.
  exists (take 3 sorted), (drop 3 sorted).
  split; [|split; [|split; [|split]]].
  - apply repository_section_lines. intros Hnil.
    rewrite Hnil in Hperm. symmetry in Hperm.
    by apply Permutation_nil_r in Hperm.
  - by rewrite take_drop.
  - rewrite length_take, Hperm. lia.
  - apply sorted_take, sort_by_stars_sorted.
  - intros x y Hx Hy.
    apply (sorted_cut by_stars_desc sorted) with (n := 3%nat) (x := x) (y := y);
      [|apply sort_by_stars_sorted|done|done].
    unfold by_stars_desc. intros; lia.
Qed.

(** X18 on four repositories with 1, 5, 3 and 2 stars. *)
Lemma top_three_repositories_witness :
  let a := foldl fold_data (init_analysis Terminal (profile_of Terminal []))
             [starred "p" 1; starred "q" 5; starred "r" 3; starred "s" 2] in
  popular_repos a ≠ []
  ∧ ∃ shown rest,
      repository_section (popular_repos (sort_popular a))
      = (ReposHeading :: (shown ≫= lines_of), Done ())
      ∧ shown ++ rest ≡ₚ popular_repos a
      ∧ length shown = (3 `min` length (popular_repos a))%nat
      ∧ Sorted by_stars_desc shown
      ∧ (∀ x y, x ∈ shown → y ∈ rest → stars y ≤ stars x).
Proof.
  intros a.
  assert (Hne : popular_repos a ≠ []) by (vm_compute; discriminate).
  split; [exact Hne|]. exact (top_three_repositories a Hne).
Defined.

(** ** The terminal program *)









Lemma first_ten_unsliceable (v : json) :
  sliceable v = false → first_ten v = ([], Broke SliceError).
Proof. by destruct v. Qed.

(** The run of [main] up to the report. *)
Lemma main_report (E : env) (ord : counter_order) (fuel : nat) (now : Z)
    (token username : string) (o : list (string * json)) (repos : list json)
    (ds : list repo_data) :
  run_ok E (new_analyzer now) →
  fetches E (user_request username) (JObj o) → o ≠ [] →
  crawls E Terminal fuel username repos →
  reads E repos ds →
  ∃ s',
    main E ord fuel now token username
    = (Ok (print_enhanced_report ord
             (Some (sort_popular
                      (foldl fold_data
                         (init_analysis Terminal (profile_of Terminal o)) ds)))),
       s').
Proof.
  intros Hs Hinfo Ho Hcrawl Hreads.
  destruct (analysis_run E Terminal fuel username (new_analyzer now) o repos ds)
    as (s' & Hrun); [done..|].
  exists s'. unfold main. by rewrite (bind_ok _ _ _ _ _ Hrun).
Qed.



(** X20.  [main] on a user whose profile holds a [created_at] that cannot
    be sliced (null, a number, a boolean, or a dict), whose crawl returns
    and whose repositories read as typed data: after the whole analysis,
    the report prints its title and the first three profile lines, and
    there the slice raises; nothing else is printed. *)
Theorem unsliceable_date_breaks_report (E : env) (ord : counter_order)
    (fuel : nat) (now : Z) (token username : string)
    (o : list (string * json)) (repos : list json) (ds : list repo_data)
    (v : json) :
  run_ok E (new_analyzer now) →
  fetches E (user_request username) (JObj o) →
  crawls E Terminal fuel username repos →
  reads E repos ds →
  assoc "created_at" o = Some v → sliceable v = false →
  ∃ s',
    main E ord fuel now token username
    = (Ok ([ReportTitle; ProfileHeading;
            NameLine (name (profile_of Terminal o));
            LocationLine (location (profile_of Terminal o))],
           Broke SliceError), s').
Proof.
  intros Hs Hinfo Hcrawl Hreads Hv Hslice.
  destruct (main_report E ord fuel now token username o repos ds)
    as (s' & Hmain); [done|done|by destruct o|done..|].
  exists s'. rewrite Hmain. do 2 f_equal.
  unfold print_enhanced_report.
  change (profile (sort_popular ?a)) with (profile a).
  rewrite fold_profile. unfold profile_section.
  change (created_at (profile (init_analysis Terminal (profile_of Terminal o))))
    with (default (JStr "N/A") (assoc "created_at" o)).
  rewrite Hv. simpl default. by rewrite (first_ten_unsliceable v Hslice).
Qed.

(** X20 on a user whose [created_at] is null. *)
Lemma unsliceable_date_breaks_report_witness :
  ∃ s',
    main odd_world map_order 3 1700000000000000 "t" "z"
    = (Ok ([ReportTitle; ProfileHeading; NameLine (JStr "Zed");
            LocationLine (JStr "N/A")],
           Broke SliceError), s').
Proof.
  apply (unsliceable_date_breaks_report odd_world map_order 3 1700000000000000
           "t" "z" undated_profile [] [] JNull).
  - exact odd_new_run_ok.
  - by split.
  - apply crawls_one_page; [by split|simpl; lia|by split|lia].
  - constructor.
  - reflexivity.
  - reflexivity.
Defined.

(** X21.  [main] on a user whose profile request hands back a falsy
    value (a failed request, or a 200 with an empty body): the analysis
    raises nothing and the profile request is the only request the
    program sends; the report that [main] then prints is the one line that
    no analysis data is available.  (What the analyzer's methods print
    before the report is not among the lines of the model.) *)
Theorem main_without_profile (E : env) (ord : counter_order) (fuel : nat)
    (now : Z) (token username : string) (j : json) :
  fetches E (user_request username) j → truthy j = false →
  ∃ s',
    main E ord fuel now token username = (Ok ([NoAnalysisData], Done ()), s')
    ∧ sent s' = [user_request username].
Proof.
  intros Hinfo Hj.
  destruct (fetch_once E _ None _ (new_analyzer now) ltac:(by intros r Hr)
              Hinfo) as (s1 & Hrun1 & Hsent1).
  assert (Hrun : analyze_user_activity E Terminal fuel username
                   (new_analyzer now) = (Ok None, s1)).
  { unfold analyze_user_activity, get_user_info.
    by rewrite (bind_ok _ _ _ _ _ Hrun1), Hj. }
  exists s1. split; [|done].
  unfold main. by rewrite (bind_ok _ _ _ _ _ Hrun).
Qed.

(** X21 at a server that knows nobody. *)
Lemma main_without_profile_witness :
  ∃ s',
    main empty_world map_order 3 1700000000000000 "t" "ghost"
    = (Ok ([NoAnalysisData], Done ()), s')
    ∧ sent s' = [user_request "ghost"].
Proof.
  apply (main_without_profile empty_world map_order 3 1700000000000000 "t"
           "ghost" JNull); [by split|reflexivity].
Defined.
